(** * Project Pulse Bot: conversation flow, reminder sweep and cache refresh

    A shallow embedding of the JavaScript sources of the bot
    (src/lib/risk-detector.js, src/lib/conversation-state.js,
    src/services/dynamo.js, src/services/asana.js and the handlers
    slack-events.js, reminder.js, cache-refresh.js, scheduled-pulse.js)
    together with the properties the specification states about them.

    JavaScript objects are finite maps from property names to values, so
    that object spread is map union; DynamoDB tables are finite maps keyed
    by the partition key; handlers thread a world (the tables and the
    messages sent so far) through a small exception monad. *)

From Stdlib Require Import ZArith Lia Ascii String.
From stdpp Require Import gmap strings list fin_maps sorting pretty.

#[local] Set Warnings "-register-all".
#[local] Open Scope string_scope.

(** ** JavaScript values *)

Module Js.

(** The values the handlers manipulate. [Iso t] is the string
    [new Date(t).toISOString()] of the instant [t] (milliseconds since the
    epoch); its characters are not modelled, only the instant: ISO-8601
    strings of instants compare lexicographically as the instants compare
    numerically, and [new Date(s)] gives the instant back. *)
Inductive val : Type :=
| Undefined
| Null
| Bool (b : bool)
| Num (n : Z)
| Str (s : string)
| Iso (t : Z)
| Arr (l : list val)
| Obj (o : gmap string val).

Abbreviation obj := (gmap string val).

(** [o.k]: a missing property reads as [undefined]. *)
Definition get (o : obj) (k : string) : val := default Undefined (o !! k).

(** [v.k] (or [v?.k]) where [v] is an object or a primitive without that
    property. *)
Definition prop (v : val) (k : string) : val :=
  match v with
  | Obj o => get o k
  | _ => Undefined
  end.

(** ToBoolean. *)
Definition truthy (v : val) : bool :=
  match v with
  | Undefined | Null => false
  | Bool b => b
  | Num n => negb (n =? 0)%Z
  | Str s => negb (String.eqb s EmptyString)
  | Iso _ | Arr _ | Obj _ => true
  end.

(** [a || b]. *)
Definition or_else (a b : val) : val := if truthy a then a else b.

(** [v === 's'] for a string literal [s]. *)
Definition is_str (s : string) (v : val) : bool :=
  match v with
  | Str s' => String.eqb s' s
  | _ => false
  end.

(** [a === b] when one side is a primitive; two object references are
    never compared by the handlers. *)
Definition strict_eq (a b : val) : bool :=
  match a, b with
  | Undefined, Undefined | Null, Null => true
  | Bool x, Bool y => Bool.eqb x y
  | Num x, Num y => (x =? y)%Z
  | Str x, Str y => String.eqb x y
  | Iso x, Iso y => (x =? y)%Z
  | _, _ => false
  end.

(** [{...v}]: spreading [null] or [undefined] adds nothing. *)
Definition spread (v : val) : obj :=
  match v with
  | Obj o => o
  | _ => ∅
  end.

(** [String(v)] and template interpolation, for the primitives the
    handlers interpolate (identifiers and business IDs). *)
Definition to_string (v : val) : string :=
  match v with
  | Undefined => "undefined"
  | Null => "null"
  | Bool true => "true"
  | Bool false => "false"
  | Num n => pretty n
  | Str s => s
  | Iso t => "ISO-8601:" ++ pretty t
  | Arr _ => "[array]"
  | Obj _ => "[object Object]"
  end.

(** [new Date(v)] for a timestamp string; [None] is an invalid date, with
    which every comparison is false. *)
Definition date_of (v : val) : option Z :=
  match v with
  | Iso t => Some t
  | _ => None
  end.

(** [String.prototype.toLowerCase] on the ASCII letters; every other
    character is left alone (no character outside ASCII lowercases to a
    letter of the word the handlers compare against). *)
Definition lower_ascii (c : ascii) : ascii :=
  let n := nat_of_ascii c in
  if (65 <=? n)%nat && (n <=? 90)%nat then ascii_of_nat (n + 32) else c.

Fixpoint toLowerCase (s : string) : string :=
  match s with
  | EmptyString => EmptyString
  | String c r => String (lower_ascii c) (toLowerCase r)
  end.

(** Decimal digits. *)
Definition is_digit (c : ascii) : bool :=
  let n := nat_of_ascii c in (48 <=? n)%nat && (n <=? 57)%nat.

Fixpoint all_digits (s : string) : bool :=
  match s with
  | EmptyString => true
  | String c r => is_digit c && all_digits r
  end.

(** The number a string of decimal digits denotes, after [acc]. *)
Fixpoint decimal (acc : Z) (s : string) : Z :=
  match s with
  | EmptyString => acc
  | String c r => decimal (acc * 10 + (Z.of_nat (nat_of_ascii c) - 48))%Z r
  end.

End Js.

Import Js.

(** ** src/lib/risk-detector.js *)

Module RiskDetector.

Record alert := { shouldAlert_flag : bool; reason : val }.

(** [shouldAlert(currentUpdate, previousUpdates = [])]. *)
Definition shouldAlert (currentUpdate : obj) (previousUpdates : list val) : alert :=
  let status := get currentUpdate "status" in
  let hasBlockers := get currentUpdate "hasBlockers" in
  (* Condicion A *)
  if is_str "off_track" status then
    {| shouldAlert_flag := true; reason := Str "Proyecto reportado como Off Track" |}
  else
    (* Condicion B *)
    let consecutive :=
      if is_str "at_risk" status && (0 <? length previousUpdates)%nat then
        let lastUpdate := nth 0 previousUpdates Undefined in
        truthy lastUpdate && is_str "at_risk" (prop lastUpdate "status")
      else false in
    if consecutive then
      {| shouldAlert_flag := true;
         reason := Str "Proyecto en riesgo por 2 reportes consecutivos" |}
    (* Condicion C *)
    else if truthy hasBlockers && negb (is_str "on_track" status) then
      {| shouldAlert_flag := true;
         reason := Str "Bloqueo reportado en proyecto con riesgo" |}
    else
      {| shouldAlert_flag := false; reason := Null |}.

End RiskDetector.

(** ** The world the handlers act on *)

Module World.

(** Texts handed to [slackService.sendMessage]; rendering them is the
    messaging gateway's business. *)
Inductive message : Type :=
| UpdateRegistered (status projectName : val)
| AskAdvances
| ReminderBlockers (projectName : val)
| ReminderAdvances (projectName : val)
| OnboardingComplete (timezone : val).

(** Calls issued to the messaging gateway, to the agent and to the users
    table (which the model does not keep). *)
Inductive effect : Type :=
| SendMessage (channel : val) (m : message)
| SendUpdateRequest (slackUserId projectName projectGid : val)
| SendAlertToPMO (projectName pmSlackId status : val) (advances : string)
                 (hasBlockers : val)
| HandleWithAgent (userId : val) (text : string)
| UpdateUser (slackUserId : val) (fields : obj).

(** The tables and the gateway.
    - [updates]: pmo-bot-updates; each partition (pk) holds its items by
      descending sort key, the sort key being the instant of the write;
    - [conversations]: pmo-bot-conversations, by pk;
    - [cache]: the global project cache, by project gid;
    - [outbox]: gateway calls made so far, oldest first;
    - [unavailable]: partitions of pmo-bot-updates whose Query fails. *)
Record world := {
  updates : gmap string (list (Z * obj));
  conversations : gmap string obj;
  cache : gmap string obj;
  outbox : list effect;
  unavailable : gset string
}.

Definition set_updates (u : gmap string (list (Z * obj))) (w : world) : world :=
  {| updates := u; conversations := conversations w; cache := cache w;
     outbox := outbox w; unavailable := unavailable w |}.

Definition set_conversations (c : gmap string obj) (w : world) : world :=
  {| updates := updates w; conversations := c; cache := cache w;
     outbox := outbox w; unavailable := unavailable w |}.

Definition set_cache (c : gmap string obj) (w : world) : world :=
  {| updates := updates w; conversations := conversations w; cache := c;
     outbox := outbox w; unavailable := unavailable w |}.

Definition set_outbox (o : list effect) (w : world) : world :=
  {| updates := updates w; conversations := conversations w; cache := cache w;
     outbox := o; unavailable := unavailable w |}.

(** An [async] function: it ends with a value or with a thrown value, and
    in both cases leaves a world behind. *)
Inductive result (A : Type) : Type :=
| Ok (a : A) (w : world)
| Throw (e : val) (w : world).
Arguments Ok {A} a w.
Arguments Throw {A} e w.

Definition M (A : Type) : Type := world -> result A.

Definition ret {A} (a : A) : M A := fun w => Ok a w.

Definition throw {A} (e : val) : M A := fun w => Throw e w.

Definition bind {A B} (m : M A) (k : A -> M B) : M B :=
  fun w =>
    match m w with
    | Ok a w' => k a w'
    | Throw e w' => Throw e w'
    end.

(** [try { m } catch (e) { h e }]. *)
Definition try_catch {A} (m : M A) (h : val -> M A) : M A :=
  fun w =>
    match m w with
    | Ok a w' => Ok a w'
    | Throw e w' => h e w'
    end.

Definition world_of {A} (r : result A) : world :=
  match r with
  | Ok _ w => w
  | Throw _ w => w
  end.

Definition send (e : effect) : M unit :=
  fun w => Ok tt (set_outbox (outbox w ++ [e]) w).

(** [v.k] where [v] may be [null] or [undefined]: a TypeError. *)
Definition member (v : val) (k : string) : M val :=
  match v with
  | Undefined | Null => throw (Str "TypeError")
  | _ => ret (prop v k)
  end.

End World.

Import World.

Notation "x <- m ;; k" := (bind m (fun x => k))
  (at level 100, m at next level, right associativity).
Notation "m ;;; k" := (bind m (fun _ => k))
  (at level 100, right associativity).

(** ** src/services/dynamo.js *)

Module Dynamo.

(** The partition of a sorted table after [Put] of [item] under sort key
    [sk]: an item with the same key is replaced. *)
Fixpoint put_sorted (sk : Z) (item : obj) (l : list (Z * obj)) : list (Z * obj) :=
  match l with
  | [] => [(sk, item)]
  | (sk', item') :: rest =>
      if (sk' <? sk)%Z then (sk, item) :: l
      else if (sk' =? sk)%Z then (sk, item) :: rest
      else (sk', item') :: put_sorted sk item rest
  end.

(** [saveUpdate(updateData)] at instant [now]. *)
Definition saveUpdate (now : Z) (updateData : obj) : M obj :=
  fun w =>
    let timestamp := Iso now in
    let pk := "PROJECT#" ++ to_string (get updateData "projectGid") in
    let item : obj :=
      {[ "pk" := Str pk;
         "sk" := Str ("UPDATE#" ++ to_string timestamp);
         "projectGid" := get updateData "projectGid";
         "projectName" := get updateData "projectName";
         "pmSlackId" := get updateData "pmSlackId";
         "status" := get updateData "status";
         "advances" := get updateData "advances";
         "hasBlockers" := get updateData "hasBlockers";
         "blockerDescription" := or_else (get updateData "blockerDescription") Null;
         "timestamp" := timestamp ]} in
    let partition := default [] (updates w !! pk) in
    Ok item (set_updates (<[pk := put_sorted now item partition]> (updates w)) w).

(** [getLastUpdates(projectGid, limit)]: the newest [limit] items of the
    project's partition, newest first; a store error is rethrown. *)
Definition getLastUpdates (projectGid : val) (limit : nat) : M (list val) :=
  fun w =>
    let pk := "PROJECT#" ++ to_string projectGid in
    if decide (pk ∈ unavailable w) then Throw (Str "ServiceUnavailable") w
    else Ok (take limit ((fun p => Obj (snd p)) <$> default [] (updates w !! pk))) w.

(** The UTC calendar day of an instant: the date part of its ISO string. *)
Definition utc_day (t : Z) : Z := (t / 86400000)%Z.

(** [getProjectsUpdatedToday()]: the project ids of the items whose sort
    key starts with today's date. *)
Definition getProjectsUpdatedToday (now : Z) : M (list val) :=
  fun w =>
    let today := utc_day now in
    let items := mjoin (snd <$> map_to_list (updates w)) in
    let hits := filter (fun p => utc_day (fst p) = today) items in
    Ok ((fun p => get (snd p) "projectGid") <$> hits) w.

Definition getConversationState (slackUserId : val) : M val :=
  fun w =>
    match conversations w !! ("CONV#" ++ to_string slackUserId) with
    | Some item => Ok (Obj item) w
    | None => Ok Null w
    end.

(** The item [setConversationState] builds: the caller's fields, then the
    write time and the expiry ("TTL de 1 hora") over them. *)
Definition conversationItem (now : Z) (slackUserId : val) (state : obj) : obj :=
  <["expiresAt" := Num (now / 1000 + 3600)]>
    (<["updatedAt" := Iso now]>
       (state ∪ {[ "pk" := Str ("CONV#" ++ to_string slackUserId) ]})).

(** [setConversationState(slackUserId, state)]: a Put of the item under
    its own key. *)
Definition setConversationState (now : Z) (slackUserId : val) (state : obj) : M unit :=
  fun w =>
    let item := conversationItem now slackUserId state in
    match get item "pk" with
    | Str pk => Ok tt (set_conversations (<[pk := item]> (conversations w)) w)
    | _ => Throw (Str "ValidationException") w
    end.

(** [clearConversationState(slackUserId)]: overwrite with the marker; an
    error is logged and swallowed. *)
Definition clearConversationState (now : Z) (slackUserId : val) : M unit :=
  try_catch
    (setConversationState now slackUserId {[ "cleared" := Bool true ]})
    (fun _ => ret tt).

(** Modelled from the spec: [deleteProjectCache(gid)] is missing from the
    sources; it deletes any existing cache record of the project. *)
Definition deleteProjectCache (gid : val) : M unit :=
  fun w => Ok tt (set_cache (delete (to_string gid) (cache w)) w).

(** Modelled from the spec: [upsertProjectCache(project)] is missing from
    the sources; the upsert is a full overwrite of the project's record. *)
Definition upsertProjectCache (project : obj) : M unit :=
  fun w =>
    Ok tt (set_cache (<[to_string (get project "gid") := project]> (cache w)) w).

End Dynamo.

(** ** src/lib/conversation-state.js *)

Module ConversationState.

Definition getConversationState (slackUserId : val) : M val :=
  Dynamo.getConversationState slackUserId.

(** [setConversationState(slackUserId, state)]: the stored state overlaid
    with the new fields. *)
Definition setConversationState (now : Z) (slackUserId : val) (state : obj) : M obj :=
  stored <- getConversationState slackUserId ;;
  let currentState := spread (or_else stored (Obj ∅)) in
  let newState : obj :=
    <["startedAt" := or_else (get currentState "startedAt") (Iso now)]>
      (<["slackUserId" := slackUserId]> (state ∪ currentState)) in
  Dynamo.setConversationState now slackUserId newState ;;;
  ret newState.

Definition clearConversationState (now : Z) (slackUserId : val) : M unit :=
  Dynamo.clearConversationState now slackUserId.

(** [isInUpdateFlow(state)]. *)
Definition isInUpdateFlow (state : val) : bool :=
  if negb (truthy state) then false
  else
    let step := prop state "step" in
    is_str "awaiting_status" step
    || is_str "awaiting_blockers" step
    || is_str "awaiting_blocker_description" step
    || is_str "awaiting_advances" step.

End ConversationState.

(** ** src/handlers/slack-events.js (queued multi-project variant) *)

(** In this text of the file the helpers from [normalizeAgentResponse] to
    [advanceToNextProject] are written inside the body of
    [handleWithAgent], its closing brace coming after them; they are
    embedded as the functions the handlers call by name. *)

Module SlackEvents.

(** [{...o, k1: v1, ..., kn: vn}]: later fields win. *)
Definition overlay (o : obj) (fields : list (string * val)) : obj :=
  foldl (fun acc kv => <[fst kv := snd kv]> acc) o fields.

(** [a[i]] for a numeric index. *)
Definition index (l : list val) (i : Z) : val :=
  if (i <? 0)%Z then Undefined else nth (Z.to_nat i) l Undefined.

(** [advanceToNextProject(userId, state)], in the same words here and in
    reminder.js. *)
Definition advanceToNextProject (now : Z) (userId : val) (state : obj) : M bool :=
  let pending := match get state "pendingProjects" with Arr l => l | _ => [] end in
  let currentIndex := match get state "currentIndex" with Num n => n | _ => 0%Z end in
  let nextIndex := (currentIndex + 1)%Z in
  if (Z.of_nat (length pending) <=? nextIndex)%Z then ret false
  else
    let next := index pending nextIndex in
    next_gid <- member next "gid" ;;
    next_name <- member next "name" ;;
    next_pmoId <- member next "pmoId" ;;
    ConversationState.setConversationState now userId
      (overlay state
         [ ("step", Str "awaiting_status");
           ("currentIndex", Num nextIndex);
           ("currentProjectGid", next_gid);
           ("currentProjectName", next_name);
           ("currentProjectPmoId", or_else next_pmoId Null);
           ("status", Null);
           ("hasBlockers", Null);
           ("blockerDescription", Null);
           ("lastPromptAt", Iso now);
           ("snoozeUntil", Null) ]) ;;;
    send (SendUpdateRequest userId next_name next_gid) ;;;
    ret true.

(** The end of a project's cycle, as both callers write it:
    [const advanced = await advanceToNextProject(userId, state);
     if (!advanced) await conversationState.clearConversationState(userId);] *)
Definition advanceOrClear (now : Z) (userId : val) (state : obj) : M bool :=
  advanced <- advanceToNextProject now userId state ;;
  (if negb advanced then ConversationState.clearConversationState now userId
   else ret tt) ;;;
  ret advanced.

(** [handleAdvancesText(userId, text)] from the point where the text has
    turned out to be none of the commands, snooze phrases, searches or
    business-ID lookups answered first: the text is the narrative that
    closes the active project's cycle, or goes to the agent. *)
Definition handleAdvancesText (now : Z) (userId : val) (text : string) : M unit :=
  state <- ConversationState.getConversationState userId ;;
  if truthy state && is_str "awaiting_advances" (prop state "step") then
    (* Guardar update completo *)
    Dynamo.saveUpdate now
      {[ "projectGid" := prop state "currentProjectGid";
         "projectName" := prop state "currentProjectName";
         "pmSlackId" := userId;
         "status" := prop state "status";
         "advances" := Str text;
         "hasBlockers" := prop state "hasBlockers";
         "blockerDescription" := or_else (prop state "blockerDescription") Null ]} ;;;
    (* Evaluar riesgo *)
    previousUpdates <- Dynamo.getLastUpdates (prop state "currentProjectGid") 2 ;;
    let riskAnalysis :=
      RiskDetector.shouldAlert
        {[ "status" := prop state "status";
           "hasBlockers" := prop state "hasBlockers" ]}
        previousUpdates in
    (if RiskDetector.shouldAlert_flag riskAnalysis then
       send (SendAlertToPMO (prop state "currentProjectName") userId
               (prop state "status") text (prop state "hasBlockers"))
     else ret tt) ;;;
    send (SendMessage userId
            (UpdateRegistered (prop state "status") (prop state "currentProjectName"))) ;;;
    advanceOrClear now userId (spread state) ;;;
    ret tt
  else
    send (HandleWithAgent userId text).

(** [s.split('_')]. *)
Fixpoint split_underscore (s : string) : list string :=
  match s with
  | EmptyString => [EmptyString]
  | String c r =>
      if Ascii.eqb c "_"%char then EmptyString :: split_underscore r
      else
        match split_underscore r with
        | [] => [String c EmptyString]
        | p :: ps => String c p :: ps
        end
  end.

(** [array.find(p => p.gid === projectGid)]. *)
Fixpoint find_gid (projectGid : val) (l : list val) : M val :=
  match l with
  | [] => ret Undefined
  | p :: rest =>
      gid <- member p "gid" ;;
      if strict_eq gid projectGid then ret p else find_gid projectGid rest
  end.

(** A button click: the acting user, the [action_id] of the first action
    and its [value]. *)
Record block_action := {
  user_id : val;
  action_id : string;
  value : val
}.

(** [handleBlockActions(payload)]. *)
Definition handleBlockActions (now : Z) (payload : block_action) : M unit :=
  let userId := user_id payload in
  let parts := split_underscore (action_id payload) in
  let actionType := nth 0 parts EmptyString in
  if String.eqb actionType "status" then
    (* status_{projectGid}_{value} *)
    let projectGid := match parts !! 1%nat with Some g => Str g | None => Undefined end in
    currentState <- ConversationState.getConversationState userId ;;
    let projectName := or_else (prop currentState "currentProjectName") Null in
    let projectPmoId := or_else (prop currentState "currentProjectPmoId") Null in
    resolved <-
      match prop currentState "pendingProjects" with
      | Arr ((_ :: _) as pendingProjects) =>
          found <- find_gid projectGid pendingProjects ;;
          if truthy found then
            ret (prop found "name", or_else (prop found "pmoId") projectPmoId)
          else ret (projectName, projectPmoId)
      | _ => ret (projectName, projectPmoId)
      end ;;
    ConversationState.setConversationState now userId
      {[ "step" := Str "awaiting_blockers";
         "currentProjectGid" := projectGid;
         "currentProjectName" := fst resolved;
         "currentProjectPmoId" := snd resolved;
         "status" := value payload;
         "lastPromptAt" := Iso now ]} ;;;
    ret tt
  else if String.eqb actionType "blockers" then
    (* the source has this test twice, the first time with an empty body *)
    ret tt
  else if String.eqb actionType "blockers" then
    (* blockers_{projectGid}_{yes|no} *)
    state <- ConversationState.getConversationState userId ;;
    let hasBlockers := is_str "yes" (value payload) in
    ConversationState.setConversationState now userId
      (overlay (spread state)
         [ ("step", Str "awaiting_advances");
           ("hasBlockers", Bool hasBlockers);
           ("lastPromptAt", Iso now) ]) ;;;
    send (SendMessage userId AskAdvances)
  else if String.eqb actionType "timezone" then
    (* timezone_{value} *)
    send (UpdateUser userId
            {[ "timezone" := value payload; "onboarded" := Bool true ]}) ;;;
    send (SendMessage userId (OnboardingComplete (value payload)))
  else ret tt.

End SlackEvents.

(** ** src/handlers/slack-events.js (single-project variant) *)

Module SlackEventsSingle.

(** [handleBlockActions(payload)]: the state names one project. *)
Definition handleBlockActions (now : Z) (payload : SlackEvents.block_action) : M unit :=
  let userId := SlackEvents.user_id payload in
  let parts := SlackEvents.split_underscore (SlackEvents.action_id payload) in
  let actionType := nth 0 parts EmptyString in
  if String.eqb actionType "status" then
    let projectGid := match parts !! 1%nat with Some g => Str g | None => Undefined end in
    ConversationState.setConversationState now userId
      {[ "step" := Str "awaiting_blockers";
         "projectGid" := projectGid;
         "status" := SlackEvents.value payload ]} ;;;
    ret tt
  else if String.eqb actionType "blockers" then
    state <- ConversationState.getConversationState userId ;;
    let hasBlockers := is_str "yes" (SlackEvents.value payload) in
    ConversationState.setConversationState now userId
      (SlackEvents.overlay (spread state)
         [ ("step", Str "awaiting_advances");
           ("hasBlockers", Bool hasBlockers) ]) ;;;
    send (SendMessage userId AskAdvances)
  else if String.eqb actionType "timezone" then
    send (UpdateUser userId
            {[ "timezone" := SlackEvents.value payload; "onboarded" := Bool true ]}) ;;;
    send (SendMessage userId (OnboardingComplete (SlackEvents.value payload)))
  else ret tt.

(** [handleAdvancesText(userId, text)] for a text that is none of the
    commands and no business-ID lookup. *)
Definition handleAdvancesText (now : Z) (userId : val) (text : string) : M unit :=
  state <- ConversationState.getConversationState userId ;;
  if truthy state && is_str "awaiting_advances" (prop state "step") then
    (* Guardar update completo *)
    Dynamo.saveUpdate now
      {[ "projectGid" := prop state "projectGid";
         "projectName" := prop state "projectName";
         "pmSlackId" := userId;
         "status" := prop state "status";
         "advances" := Str text;
         "hasBlockers" := prop state "hasBlockers";
         "blockerDescription" := or_else (prop state "blockerDescription") Null ]} ;;;
    (* Evaluar riesgo *)
    previousUpdates <- Dynamo.getLastUpdates (prop state "projectGid") 2 ;;
    let riskAnalysis :=
      RiskDetector.shouldAlert
        {[ "status" := prop state "status";
           "hasBlockers" := prop state "hasBlockers" ]}
        previousUpdates in
    (if RiskDetector.shouldAlert_flag riskAnalysis then
       send (SendAlertToPMO (prop state "projectName") userId
               (prop state "status") text (prop state "hasBlockers"))
     else ret tt) ;;;
    (* Limpiar estado y confirmar *)
    ConversationState.clearConversationState now userId ;;;
    send (SendMessage userId
            (UpdateRegistered (prop state "status") (prop state "projectName")))
  else
    send (HandleWithAgent userId text).

End SlackEventsSingle.

(** ** src/handlers/reminder.js *)

Module Reminder.

Definition advanceToNextProject := SlackEvents.advanceToNextProject.

(** One turn of the loop over the active states; [ret tt] where the
    source says [continue]. *)
Definition remind (now : Z) (state : obj) : M unit :=
  if negb (truthy (get state "slackUserId")) || negb (truthy (get state "currentProjectGid"))
  then ret tt
  else if truthy (get state "snoozeUntil")
          && match date_of (get state "snoozeUntil") with
             | Some t => (now <? t)%Z
             | None => false
             end
  then ret tt
  else if negb (truthy (get state "lastPromptAt")) then ret tt
  else
    let lastPromptAt := date_of (get state "lastPromptAt") in
    let recent :=
      match lastPromptAt with
      | Some t => (now - t <? 60 * 60 * 1000)%Z
      | None => false
      end in
    if recent then ret tt
    else
      (* Verificar si ya se actualizo por otra via *)
      lastUpdates <- Dynamo.getLastUpdates (get state "currentProjectGid") 1 ;;
      let stamp := prop (nth 0 lastUpdates Undefined) "timestamp" in
      let updatedSince :=
        truthy stamp
        && match date_of stamp, lastPromptAt with
           | Some u, Some t => (t <? u)%Z
           | _, _ => false
           end in
      if updatedSince then
        SlackEvents.advanceOrClear now (get state "slackUserId") state ;;;
        ret tt
      else
        (* Enviar recordatorio segun el paso *)
        (if is_str "awaiting_status" (get state "step") then
           send (SendUpdateRequest (get state "slackUserId")
                   (or_else (get state "currentProjectName") (Str "Proyecto"))
                   (get state "currentProjectGid"))
         else if is_str "awaiting_blockers" (get state "step") then
           send (SendMessage (get state "slackUserId")
                   (ReminderBlockers
                      (or_else (get state "currentProjectName") (Str "el proyecto"))))
         else if is_str "awaiting_advances" (get state "step") then
           send (SendMessage (get state "slackUserId")
                   (ReminderAdvances
                      (or_else (get state "currentProjectName") (Str "el proyecto"))))
         else ret tt) ;;;
        ConversationState.setConversationState now (get state "slackUserId")
          (SlackEvents.overlay state [ ("lastPromptAt", Iso now) ]) ;;;
        ret tt.

(** The loop of [exports.handler] over the states. *)
Fixpoint sweep (now : Z) (states : list obj) : M unit :=
  match states with
  | [] => ret tt
  | state :: rest => remind now state ;;; sweep now rest
  end.

(** [exports.handler]. The list of active states is the answer of
    [dynamoService.getActiveConversationStates()], a scan that the sources
    at hand do not include. The answer carries the number of states. *)
Definition handler (now : Z) (states : list obj) : M nat :=
  sweep now states ;;;
  ret (length states).

End Reminder.

(** ** src/services/asana.js *)

Module Asana.

(** How a call to the external source ends. *)
Inductive outcome (A : Type) : Type :=
| Returned (a : A)
| Thrown (e : val).
Arguments Returned {A} a.
Arguments Thrown {A} e.

Definition andThen {A B} (m : outcome A) (k : A -> outcome B) : outcome B :=
  match m with
  | Returned a => k a
  | Thrown e => Thrown e
  end.

#[local] Notation "x <~ m ;; k" := (andThen m (fun x => k))
  (at level 100, m at next level, right associativity).

(** The external project source. A call's answer may depend on how many
    times the retry loop has already issued it ([attempt], from 0).
    - [getWorkspaces]: the workspaces, or the error thrown;
    - [pages ws]: the listing of workspace [ws], page after page, each
      page carrying the offset of the next;
    - [listingError ws page attempt]: the error thrown by that listing
      call, if any;
    - [getProject gid attempt]: the detail response, or the error. *)
Record source := {
  getWorkspaces : outcome (list val);
  pages : string -> list (list val);
  listingError : string -> nat -> nat -> option val;
  getProject : string -> nat -> outcome val
}.

(** [Number(v)] of a header value; [None] is NaN. A header is a string
    of decimal digits (a number of seconds) or some other text, such as an
    HTTP date, which is not a number. *)
Definition to_number (v : val) : option Z :=
  match v with
  | Num n => Some n
  | Null => Some 0%Z
  | Bool b => Some (if b then 1 else 0)%Z
  | Str s => if all_digits s then Some (decimal 0 s) else None
  | _ => None
  end.

(** The body of both retry loops around a [call]. [remaining] is
    [retries - attempt]: the test [attempt < retries] holds exactly when
    it is a successor. The result carries the delays slept, in order. *)
Fixpoint retryLoop {A} (call : nat -> outcome A) (attempt remaining : nat)
  : list Z * outcome A :=
  match call attempt with
  | Returned r => ([], Returned r)
  | Thrown error =>
      let status := or_else (prop error "status") (prop (prop error "response") "status") in
      let retryAfter :=
        to_number (or_else (prop (prop (prop error "response") "headers") "retry-after")
                           (Num 0)) in
      match remaining with
      | S remaining' =>
          if strict_eq status (Num 429) then
            let delayMs :=
              match retryAfter with
              | Some r => if (0 <? r)%Z then (r * 1000)%Z
                          else (1000 * 2 ^ Z.of_nat attempt)%Z
              | None => (1000 * 2 ^ Z.of_nat attempt)%Z
              end in
            let rest := retryLoop call (S attempt) remaining' in
            (delayMs :: fst rest, snd rest)
          else ([], Thrown error)
      | O => ([], Thrown error)
      end
  end.

(** [getProjectDetailWithRetry(projectGid, retries = 3)]. *)
Definition getProjectDetailWithRetry (src : source) (projectGid : val) (retries : nat)
  : list Z * outcome val :=
  retryLoop (getProject src (to_string projectGid)) 0 retries.

(** [getProjectsPageWithRetry(workspaceGid, params, retries = 3)] for the
    page number [page] of the listing, whose data is [data]. *)
Definition getProjectsPageWithRetry (src : source) (workspaceGid : val)
    (page : nat) (data : list val) (retries : nat) : list Z * outcome (list val) :=
  retryLoop
    (fun attempt =>
       match listingError src (to_string workspaceGid) page attempt with
       | Some e => Thrown e
       | None => Returned data
       end)
    0 retries.

(** [v.k] inside a callback: a TypeError on [null] and [undefined]. *)
Definition field (v : val) (k : string) : outcome val :=
  match v with
  | Undefined | Null => Thrown (Str "TypeError")
  | _ => Returned (prop v k)
  end.

(** [s.includes(needle)]. *)
Fixpoint includes (needle s : string) : bool :=
  String.prefix needle s
  || match s with
     | EmptyString => false
     | String _ r => includes needle r
     end.

(** [name.toLowerCase()] of a truthy [name]. *)
Definition lowered (name : val) : outcome string :=
  match name with
  | Str s => Returned (toLowerCase s)
  | _ => Thrown (Str "TypeError")
  end.

(** [array.find(pred)] with a callback that may throw. *)
Fixpoint findField (pred : val -> outcome bool) (l : list val) : outcome val :=
  match l with
  | [] => Returned Undefined
  | cf :: rest =>
      hit <~ pred cf ;;
      if hit then Returned cf else findField pred rest
  end.

Definition isStatusField (cf : val) : outcome bool :=
  name <~ field cf "name" ;;
  if truthy name then
    lower <~ lowered name ;; Returned (String.eqb lower "status")
  else Returned false.

Definition isResponsableField (cf : val) : outcome bool :=
  name <~ field cf "name" ;; Returned (is_str "Responsable Proyecto" name).

Definition isPmoIdField (cf : val) : outcome bool :=
  name <~ field cf "name" ;;
  if truthy name then
    lower <~ lowered name ;; Returned (includes "pmo id" lower)
  else Returned false.

(** The callback of [batch.map]: the project with its three attributes,
    or [null] when anything in it throws. *)
Definition projectWithDetail (src : source) (project : val) : val :=
  let attempt :=
    gid <~ field project "gid" ;;
    detail <~ snd (getProjectDetailWithRetry src gid 3) ;;
    data <~ field detail "data" ;;
    customFields <~
      match or_else (prop data "custom_fields") (Arr []) with
      | Arr l => Returned l
      | _ => Thrown (Str "TypeError")
      end ;;
    statusField <~ findField isStatusField customFields ;;
    let status := or_else (prop statusField "display_value") Null in
    responsableField <~ findField isResponsableField customFields ;;
    let responsable := or_else (prop responsableField "display_value") Null in
    pmoIdField <~ findField isPmoIdField customFields ;;
    let pmoId := or_else (prop pmoIdField "display_value") Null in
    name <~ field project "name" ;;
    Returned
      (Obj {[ "gid" := gid; "name" := name; "responsable" := responsable;
              "status" := status; "pmoId" := pmoId ]}) in
  match attempt with
  | Returned r => r
  | Thrown _ => Null
  end.

Definition BATCH_SIZE : nat := 10.

(** [r !== null]. *)
Definition notNull (r : val) : bool :=
  match r with Null => false | _ => true end.

(** The loop [for (let i = 0; i < projectList.length; i += BATCH_SIZE)];
    [fuel] bounds its turns. *)
Fixpoint detailBatches (src : source) (fuel i : nat) (projectList : list val) : list val :=
  match fuel with
  | O => []
  | S fuel' =>
      if (i <? length projectList)%nat then
        let batch := take BATCH_SIZE (drop i projectList) in
        let results := projectWithDetail src <$> batch in
        let validResults := List.filter notNull results in
        (validResults ++ detailBatches src fuel' (i + BATCH_SIZE) projectList)%list
      else []
  end.

(** The [do ... while (offset)] loop over the listing of a workspace,
    from page number [page] whose data is [data], [more] pages following. *)
Fixpoint listPages (src : source) (workspaceGid : val) (page : nat)
    (data : list val) (more : list (list val)) : outcome (list val) :=
  projects <~ snd (getProjectsPageWithRetry src workspaceGid page data 3) ;;
  let activeProjects := List.filter (fun p => negb (truthy (prop p "archived"))) projects in
  match more with
  | [] => Returned activeProjects
  | next :: more' =>
      rest <~ listPages src workspaceGid (S page) next more' ;;
      Returned (activeProjects ++ rest)%list
  end.

Fixpoint eachWorkspace (src : source) (workspacesList : list val) : outcome (list val) :=
  match workspacesList with
  | [] => Returned []
  | workspace :: rest =>
      gid <~ field workspace "gid" ;;
      projectList <~
        match pages src (to_string gid) with
        | [] => listPages src gid 0 [] []
        | data :: more => listPages src gid 0 data more
        end ;;
      let found := detailBatches src (length projectList) 0 projectList in
      others <~ eachWorkspace src rest ;;
      Returned (found ++ others)%list
  end.

(** [getAllActiveProjectsWithResponsable()]: any error outside the batch
    callback is logged and rethrown. *)
Definition getAllActiveProjectsWithResponsable (src : source) : outcome (list val) :=
  workspacesList <~ getWorkspaces src ;;
  eachWorkspace src workspacesList.

End Asana.

(** ** src/handlers/cache-refresh.js *)

Module CacheRefresh.

Record summary := {
  totalProjects : nat;
  updated : nat;
  deleted : nat;
  skipped : nat
}.

Inductive response : Type :=
| Status200 (s : summary)
| Status500 (error : val).

Inductive verdict : Type := Delete | Skip | Upsert.

(** The three-way test of the loop body; a status that is no string has
    no [toLowerCase]. *)
Definition classify (project : val) : M verdict :=
  status <-
    match or_else (prop project "status") (Str EmptyString) with
    | Str s => ret (toLowerCase s)
    | _ => throw (Str "TypeError")
    end ;;
  if String.eqb status "completed" then ret Delete
  else if negb (truthy (prop project "pmoId")) && negb (truthy (prop project "responsable"))
  then ret Skip
  else ret Upsert.

(** The loop [for (const project of allProjects)] with its counters. *)
Fixpoint refreshLoop (allProjects : list val) (updated deleted skipped : nat)
  : M (nat * nat * nat) :=
  match allProjects with
  | [] => ret (updated, deleted, skipped)
  | project :: rest =>
      v <- classify project ;;
      match v with
      | Delete =>
          Dynamo.deleteProjectCache (prop project "gid") ;;;
          refreshLoop rest updated (S deleted) skipped
      | Skip => refreshLoop rest updated deleted (S skipped)
      | Upsert =>
          Dynamo.upsertProjectCache (spread project) ;;;
          refreshLoop rest (S updated) deleted skipped
      end
  end.

(** [exports.handler]; the elapsed time of the summary is left out. *)
Definition handler (src : Asana.source) : M response :=
  try_catch
    (allProjects <-
       match Asana.getAllActiveProjectsWithResponsable src with
       | Asana.Returned l => ret l
       | Asana.Thrown e => throw e
       end ;;
     counts <- refreshLoop allProjects 0 0 0 ;;
     ret (Status200
            {| totalProjects := length allProjects;
               updated := fst (fst counts);
               deleted := snd (fst counts);
               skipped := snd counts |}))
    (fun error => ret (Status500 error)).

End CacheRefresh.

(** ** src/handlers/scheduled-pulse.js (queued variant) *)

Module ScheduledPulse.

(** The numbers the comparator of the sort computes with. *)
Inductive number : Type :=
| Finite (z : Z)
| PosInfinity
| NegInfinity
| NaN.

(** [a - b]. *)
Definition minus (a b : number) : number :=
  match a, b with
  | Finite x, Finite y => Finite (x - y)
  | Finite _, PosInfinity => NegInfinity
  | Finite _, NegInfinity => PosInfinity
  | PosInfinity, Finite _ => PosInfinity
  | NegInfinity, Finite _ => NegInfinity
  | PosInfinity, NegInfinity => PosInfinity
  | NegInfinity, PosInfinity => NegInfinity
  | _, _ => NaN
  end.

(** The longest prefix of digits. *)
Fixpoint digitsPrefix (s : string) : string :=
  match s with
  | EmptyString => EmptyString
  | String c r => if is_digit c then String c (digitsPrefix r) else EmptyString
  end.

(** [s.match(/\d+/)]: the first run of digits, if there is one. *)
Fixpoint firstDigits (s : string) : option string :=
  match s with
  | EmptyString => None
  | String c r =>
      if is_digit c then Some (String c (digitsPrefix r)) else firstDigits r
  end.

(** [parsePmoIdNumber(pmoId)]. The ordinal is an exact integer, as
    [Number] is on runs of digits below 2^53. *)
Definition parsePmoIdNumber (pmoId : val) : number :=
  if negb (truthy pmoId) then PosInfinity
  else
    match firstDigits (to_string pmoId) with
    | None => PosInfinity
    | Some digits => Finite (decimal 0 digits)
    end.

(** The comparator handed to [sort]. *)
Definition compareFn (a b : val) : number :=
  let aNum := parsePmoIdNumber (prop a "pmoId") in
  let bNum := parsePmoIdNumber (prop b "pmoId") in
  minus aNum bNum.

(** Whether a comparator result is positive; NaN counts as zero. *)
Definition positive (c : number) : bool :=
  match c with
  | Finite z => (0 <? z)%Z
  | PosInfinity => true
  | _ => false
  end.

(** [Array.prototype.sort(compareFn)]: a stable sort. An element goes
    behind those that the comparator puts before it and ahead of the
    first one that it does not. *)
Fixpoint insertSorted (cmp : val -> val -> number) (x : val) (l : list val) : list val :=
  match l with
  | [] => [x]
  | y :: rest =>
      if positive (cmp x y) then y :: insertSorted cmp x rest
      else x :: l
  end.

Fixpoint sort (cmp : val -> val -> number) (l : list val) : list val :=
  match l with
  | [] => []
  | x :: rest => insertSorted cmp x (sort cmp rest)
  end.

(** [isAppropriateTime(timezone)], given what
    [DateTime.now().setZone(timezone).hour] is ([None] when it throws). *)
Definition isAppropriateTime (hour : option Z) : bool :=
  match hour with
  | Some hour => (8 <=? hour)%Z && (hour <=? 10)%Z
  | None => true
  end.

(** The test of [projects.filter]. *)
Definition keep (updatedToday : list val) (project : val) : M bool :=
  status <-
    match or_else (prop project "status") (Str EmptyString) with
    | Str s => ret (toLowerCase s)
    | _ => throw (Str "TypeError")
    end ;;
  if String.eqb status "completed" then ret false
  else if existsb (strict_eq (prop project "gid")) updatedToday then ret false
  else ret true.

Fixpoint filterProjects (updatedToday : list val) (projects : list val) : M (list val) :=
  match projects with
  | [] => ret []
  | project :: rest =>
      kept <- keep updatedToday project ;;
      others <- filterProjects updatedToday rest ;;
      ret (if kept then project :: others else others)
  end.

(** An entry of the pending queue. *)
Definition queueEntry (p : val) : val :=
  Obj {[ "gid" := prop p "gid";
         "name" := prop p "name";
         "pmoId" := or_else (prop p "pmoId") Null;
         "status" := or_else (prop p "status") Null ]}.

(** The state the pulse starts a flow with. *)
Definition initialState (now : Z) (filtered : list val) (firstProject : val) : obj :=
  {[ "step" := Str "awaiting_status";
     "pendingProjects" := Arr (queueEntry <$> filtered);
     "currentIndex" := Num 0;
     "currentProjectGid" := prop firstProject "gid";
     "currentProjectName" := prop firstProject "name";
     "currentProjectPmoId" := or_else (prop firstProject "pmoId") Null;
     "lastPromptAt" := Iso now ]}.

Section Pulse.

(** What the luxon clock says the hour is in a time zone, and what
    [dynamoService.getProjectsByResponsableName] answers for an owner: the
    cached projects of that owner (the query is not in the sources at
    hand; the pulse only reads its answer). *)
Variable hourIn : val -> option Z.
Variable getProjectsByResponsableName : val -> list val.

(** The body of the loop over the users, inside its [try]; the counters
    of [stats] are bookkeeping and are left out. *)
Definition pulseUser (now : Z) (updatedToday : list val) (user : val) : M unit :=
  (* Verificar si es hora apropiada en timezone del usuario *)
  if negb (isAppropriateTime (hourIn (prop user "timezone"))) then ret tt
  else if negb (truthy (prop user "asanaName")) then ret tt
  else
    (* Si ya hay una conversacion activa, no iniciar otra cola *)
    state <- ConversationState.getConversationState (prop user "slackUserId") ;;
    if truthy state && ConversationState.isInUpdateFlow state then ret tt
    else
      let projects := getProjectsByResponsableName (prop user "asanaName") in
      (* Filtrar completados y los que ya tienen update hoy *)
      filtered <- filterProjects updatedToday projects ;;
      (* Ordenar por PMO-ID numerico si existe *)
      let filtered := sort compareFn filtered in
      match filtered with
      | [] => ret tt
      | firstProject :: _ =>
          (* Iniciar flujo secuencial con el primer proyecto *)
          ConversationState.setConversationState now (prop user "slackUserId")
            (initialState now filtered firstProject) ;;;
          send (SendUpdateRequest (prop user "slackUserId")
                  (prop firstProject "name") (prop firstProject "gid"))
      end.

Fixpoint eachUser (now : Z) (updatedToday : list val) (users : list val) : M unit :=
  match users with
  | [] => ret tt
  | user :: rest =>
      try_catch (pulseUser now updatedToday user) (fun _ => ret tt) ;;;
      eachUser now updatedToday rest
  end.

(** [exports.handler], [users] being the answer of
    [dynamoService.getAllOnboardedUsers()]. A failure outside the loop
    makes the answer a 500. *)
Definition handler (now : Z) (users : list val) : M bool :=
  try_catch
    (updatedToday <- Dynamo.getProjectsUpdatedToday now ;;
     eachUser now updatedToday users ;;;
     ret true)
    (fun _ => ret false).

End Pulse.

End ScheduledPulse.

(** ** src/lib/messages.js *)

Module Messages.

(** A button of an [actions] block: what a click on it sends back. *)
Record button := {
  button_action_id : string;
  button_value : string
}.

(** [getUpdateRequestBlocks(projectName, projectGid)]: the elements of
    its two [actions] blocks, in order. The header and the sections around
    them carry texts only. *)
Definition getUpdateRequestBlocks (projectName projectGid : val) : list button :=
  [ {| button_action_id := "status_" ++ to_string projectGid ++ "_on_track";
       button_value := "on_track" |};
    {| button_action_id := "status_" ++ to_string projectGid ++ "_at_risk";
       button_value := "at_risk" |};
    {| button_action_id := "status_" ++ to_string projectGid ++ "_off_track";
       button_value := "off_track" |};
    {| button_action_id := "blockers_" ++ to_string projectGid ++ "_yes";
       button_value := "yes" |};
    {| button_action_id := "blockers_" ++ to_string projectGid ++ "_no";
       button_value := "no" |} ].

End Messages.

(** ** src/lib/conversation-state.js: the steps of a conversation *)

Module ConversationSteps.

(** [isInOnboarding(state)]. *)
Definition isInOnboarding (state : val) : bool :=
  if negb (truthy state) then false
  else
    let step := prop state "step" in
    is_str "awaiting_email" step || is_str "awaiting_timezone" step.

(** [array.indexOf(v)] on an array of string literals, counting from
    [i]. *)
Fixpoint indexOf (v : val) (l : list string) (i : Z) : Z :=
  match l with
  | [] => (-1)%Z
  | s :: rest => if is_str s v then i else indexOf v rest (i + 1)%Z
  end.

Definition flow : list string :=
  [ "awaiting_status"; "awaiting_blockers"; "awaiting_advances"; "update_complete" ].

(** [getNextUpdateStep(currentStep)]. *)
Definition getNextUpdateStep (currentStep : val) : val :=
  let currentIndex := indexOf currentStep flow 0 in
  if (currentIndex =? -1)%Z || (currentIndex =? Z.of_nat (length flow) - 1)%Z
  then Str "update_complete"
  else
    match flow !! Z.to_nat (currentIndex + 1) with
    | Some s => Str s
    | None => Undefined
    end.

End ConversationSteps.

(** ** src/lib/risk-detector.js: the analysis of a project's history *)

Module RiskAnalysis.

(** The members every object inherits: [scores[status]] finds them for a
    status of that name, and what it finds is no number. *)
Definition inherited (s : string) : bool :=
  existsb (String.eqb s)
    [ "constructor"; "__defineGetter__"; "__defineSetter__"; "hasOwnProperty";
      "__lookupGetter__"; "__lookupSetter__"; "isPrototypeOf";
      "propertyIsEnumerable"; "toString"; "valueOf"; "__proto__";
      "toLocaleString" ].

(** [getRiskScore(status)]: the score, [0] for a status the table does
    not know. [None] stands for what is no number: an inherited member, or
    the lookup under an array or an object, whose key is its rendering. *)
Definition getRiskScore (status : val) : option Z :=
  match status with
  | Str s =>
      if String.eqb s "on_track" then Some 0%Z
      else if String.eqb s "at_risk" then Some 1%Z
      else if String.eqb s "off_track" then Some 2%Z
      else if inherited s then None
      else Some 0%Z
  | Arr _ | Obj _ => None
  | _ => Some 0%Z
  end.

(** [a >= b] on two scores; against what is no number the comparison of
    a number is false. *)
Definition notBelow (a b : option Z) : bool :=
  match a, b with
  | Some x, Some y => (y <=? x)%Z
  | _, _ => false
  end.

(** [previousUpdates.map(u => u.status)]. *)
Fixpoint statusesOf (l : list val) : M (list val) :=
  match l with
  | [] => ret []
  | u :: rest =>
      s <- member u "status" ;;
      others <- statusesOf rest ;;
      ret (s :: others)
  end.

(** [statuses.every((s, i) => i === 0 ||
       getRiskScore(s) >= getRiskScore(statuses[i-1]))], [prev] being the
    element before those of [l]. *)
Fixpoint everyNotBelow (prev : val) (l : list val) : bool :=
  match l with
  | [] => true
  | s :: rest => notBelow (getRiskScore s) (getRiskScore prev) && everyNotBelow s rest
  end.

Definition riskProgression (statuses : list val) : bool :=
  match statuses with
  | [] => true
  | first :: rest => everyNotBelow first rest
  end.

(** [analyzeProjectRisk(projectGid, dynamoService)]; of the service the
    function uses [getLastUpdates]. *)
Definition analyzeProjectRisk (projectGid : val)
    (getLastUpdates : val -> nat -> M (list val)) : M obj :=
  try_catch
    (updates <- getLastUpdates projectGid 3%nat ;;
     match updates with
     | [] =>
         ret {[ "riskLevel" := Str "unknown";
                "reason" := Str "Sin historial de updates";
                "alerts" := Arr [] ]}
     | latestUpdate :: previousUpdates =>
         status <- member latestUpdate "status" ;;
         hasBlockers <- member latestUpdate "hasBlockers" ;;
         let alertResult :=
           RiskDetector.shouldAlert
             {[ "status" := status; "hasBlockers" := hasBlockers ]}
             previousUpdates in
         (* Calcular nivel de riesgo *)
         let byStatus : string * list val :=
           if is_str "off_track" status then ("high", [Str "Estado Off Track"])
           else if is_str "at_risk" status then ("medium", [Str "Estado At Risk"])
           else ("low", []) in
         let byBlockers : string * list val :=
           if truthy hasBlockers then
             (if String.eqb (fst byStatus) "low" then "medium" else fst byStatus,
              (snd byStatus ++ [Str "Tiene bloqueos activos"])%list)
           else byStatus in
         (* Verificar tendencia negativa *)
         alerts <-
           (if (0 <? length previousUpdates)%nat then
              earlier <- statusesOf previousUpdates ;;
              let statuses := status :: earlier in
              if riskProgression statuses
                 && match getRiskScore status with
                    | Some score => (0 <? score)%Z
                    | None => false
                    end
              then ret (snd byBlockers ++ [Str "Tendencia de riesgo creciente"])%list
              else ret (snd byBlockers)
            else ret (snd byBlockers)) ;;
         timestamp <- member latestUpdate "timestamp" ;;
         ret {[ "riskLevel" := Str (fst byBlockers);
                "reason" := RiskDetector.reason alertResult;
                "alerts" := Arr alerts;
                "shouldAlert" := Bool (RiskDetector.shouldAlert_flag alertResult);
                "latestStatus" := status;
                "hasBlockers" := hasBlockers;
                "lastUpdateAt" := timestamp ]}
     end)
    (fun _ =>
       ret {[ "riskLevel" := Str "error";
              "reason" := Str "Error al analizar";
              "alerts" := Arr [Str "Error de análisis"] ]}).

(** The summary [generateRiskSummary] returns. *)
Record summary := {
  total : nat;
  byRiskLevel : gmap string Z;
  byStatus : gmap string Z;
  withBlockers : Z;
  needingAlert : list val
}.

(** [counts[key] = (counts[key] || 0) + 1], for a key that is a primitive
    and no inherited member. *)
Definition countUp (counts : gmap string Z) (key : val) : gmap string Z :=
  <[to_string key := (default 0 (counts !! to_string key) + 1)%Z]> counts.

(** The loop [for (const project of projects)] over the summary. *)
Fixpoint summarize (projects : list val) (s : summary) : M summary :=
  match projects with
  | [] => ret s
  | project :: rest =>
      riskLevel <- member project "riskLevel" ;;
      latestStatus <- member project "latestStatus" ;;
      hasBlockers <- member project "hasBlockers" ;;
      shouldAlert <- member project "shouldAlert" ;;
      projectGid <- member project "projectGid" ;;
      reason <- member project "reason" ;;
      summarize rest
        {| total := total s;
           byRiskLevel := countUp (byRiskLevel s) riskLevel;
           byStatus :=
             if truthy latestStatus then countUp (byStatus s) latestStatus
             else byStatus s;
           withBlockers :=
             if truthy hasBlockers then (withBlockers s + 1)%Z else withBlockers s;
           needingAlert :=
             if truthy shouldAlert then
               (needingAlert s
                  ++ [Obj {[ "projectGid" := projectGid; "reason" := reason ]}])%list
             else needingAlert s |}
  end.

(** [generateRiskSummary(projects)]. *)
Definition generateRiskSummary (projects : list val) : M summary :=
  summarize projects
    {| total := length projects;
       byRiskLevel := {[ "high" := 0%Z; "medium" := 0%Z; "low" := 0%Z;
                         "unknown" := 0%Z ]};
       byStatus := {[ "on_track" := 0%Z; "at_risk" := 0%Z; "off_track" := 0%Z ]};
       withBlockers := 0%Z;
       needingAlert := [] |}.

End RiskAnalysis.

(** ** Vocabulary of the properties, and sample inputs

    Predicates and second readings that the statements below use, in the
    order of those statements, each group followed by the concrete worlds
    on which its statement is tried. *)


(** The record of user [u] in the conversations table is [st], kept
    under its own key. *)
Definition stored (w : world) (u : val) (st : obj) : Prop :=
  conversations w !! ("CONV#" ++ to_string u) = Some st
  /\ get st "pk" = Str ("CONV#" ++ to_string u).

Definition is_object (v : val) : Prop := exists o, v = Obj o.

(** The end of a project's cycle, once per instant of [times]: each time
    the caller reads the stored state and runs [advanceOrClear] on it. *)
Fixpoint cycleEnds (u : val) (times : list Z) : M (list bool) :=
  match times with
  | [] => ret []
  | now :: later =>
      state <- ConversationState.getConversationState u ;;
      advanced <- SlackEvents.advanceOrClear now u (spread state) ;;
      rest <- cycleEnds u later ;;
      ret (advanced :: rest)
  end.

(** The state the library writes over a stored one, and the item the
    store keeps for it. *)
Definition merged (now : Z) (u : val) (patch st : obj) : obj :=
  <["startedAt" := or_else (get st "startedAt") (Iso now)]>
    (<["slackUserId" := u]> (patch ∪ st)).

(** The patch [advanceToNextProject] writes when it moves to [next]. *)
Definition advancePatch (now : Z) (state : obj) (nextIndex : Z) (next : val) : obj :=
  SlackEvents.overlay state
    [ ("step", Str "awaiting_status");
      ("currentIndex", Num nextIndex);
      ("currentProjectGid", prop next "gid");
      ("currentProjectName", prop next "name");
      ("currentProjectPmoId", or_else (prop next "pmoId") Null);
      ("status", Null);
      ("hasBlockers", Null);
      ("blockerDescription", Null);
      ("lastPromptAt", Iso now);
      ("snoozeUntil", Null) ].

(** A queue of two projects at index 0, and the two cycle ends that
    exhaust it. *)
Definition alpha : val :=
  Obj {[ "gid" := Str "111"; "name" := Str "Alpha"; "pmoId" := Str "PMO-12";
         "status" := Null ]}.

Definition beta : val :=
  Obj {[ "gid" := Str "222"; "name" := Str "Beta"; "pmoId" := Null;
         "status" := Str "On track" ]}.

Definition twoQueued : obj :=
  {[ "pk" := Str "CONV#U1"; "slackUserId" := Str "U1";
     "step" := Str "awaiting_status";
     "pendingProjects" := Arr [alpha; beta]; "currentIndex" := Num 0;
     "currentProjectGid" := Str "111"; "currentProjectName" := Str "Alpha";
     "currentProjectPmoId" := Str "PMO-12"; "lastPromptAt" := Iso 1000 ]}.

Definition emptyWorld : world :=
  {| updates := ∅; conversations := ∅; cache := ∅; outbox := [];
     unavailable := ∅ |}.

Definition worldTwoQueued : world :=
  set_conversations {[ "CONV#U1" := twoQueued ]} emptyWorld.

(** A user whose only queued project awaits its narrative, reported
    at_risk without blockers; the project has no update yet. *)
Definition atRiskAwaitingAdvances : obj :=
  {[ "pk" := Str "CONV#U1"; "slackUserId" := Str "U1";
     "step" := Str "awaiting_advances";
     "pendingProjects" := Arr [alpha]; "currentIndex" := Num 0;
     "currentProjectGid" := Str "111"; "currentProjectName" := Str "Alpha";
     "currentProjectPmoId" := Str "PMO-12";
     "status" := Str "at_risk"; "hasBlockers" := Bool false;
     "lastPromptAt" := Iso 1000 ]}.

Definition worldFirstReport : world :=
  set_conversations {[ "CONV#U1" := atRiskAwaitingAdvances ]} emptyWorld.



Definition alerts (w : world) : list effect :=
  List.filter (fun e => match e with SendAlertToPMO _ _ _ _ _ => true | _ => false end)
    (outbox w).

Definition staleStatus (user gid name : string) : obj :=
  {[ "pk" := Str ("CONV#" ++ user); "slackUserId" := Str user;
     "step" := Str "awaiting_status";
     "pendingProjects" :=
       Arr [Obj {[ "gid" := Str gid; "name" := Str name; "pmoId" := Null;
                   "status" := Null ]}];
     "currentIndex" := Num 0;
     "currentProjectGid" := Str gid; "currentProjectName" := Str name;
     "currentProjectPmoId" := Null; "lastPromptAt" := Iso 0 ]}.

Definition twoStale : list obj :=
  [staleStatus "U1" "111" "Alpha"; staleStatus "U2" "222" "Beta"].

Definition worldTwoStale (down : gset string) : world :=
  {| updates := ∅;
     conversations := {[ "CONV#U1" := staleStatus "U1" "111" "Alpha";
                         "CONV#U2" := staleStatus "U2" "222" "Beta" ]};
     cache := ∅; outbox := []; unavailable := down |}.






(** The patch a status click writes. *)
Definition statusPatch (now : Z) (g : string) (name pmoId status : val) : obj :=
  {[ "step" := Str "awaiting_blockers";
     "currentProjectGid" := Str g;
     "currentProjectName" := name;
     "currentProjectPmoId" := pmoId;
     "status" := status;
     "lastPromptAt" := Iso now ]}.


Definition alphaCached : val :=
  Obj {[ "gid" := Str "111"; "name" := Str "Alpha"; "responsable" := Str "Ana Perez";
         "status" := Str "On track"; "pmoId" := Str "PMO-12" ]}.

Definition betaCached : val :=
  Obj {[ "gid" := Str "222"; "name" := Str "Beta"; "responsable" := Str "Ana Perez";
         "status" := Null; "pmoId" := Str "PMO-7" ]}.



Definition clickOther : SlackEvents.block_action :=
  {| SlackEvents.user_id := Str "U1";
     SlackEvents.action_id := "status_111_at_risk";
     SlackEvents.value := Str "at_risk" |}.


(** The status label of a project record ([string|null] in the source's
    own words), the empty text when there is none. *)
Definition statusLabel (project : val) : string :=
  match prop project "status" with
  | Str s => s
  | _ => EmptyString
  end.

(** Equal up to the case of letters. *)
Definition equalIgnoringCase (a b : string) : bool :=
  String.eqb (toLowerCase a) (toLowerCase b).

(** The classification in the words of the specification. *)
Definition verdictOf (project : val) : CacheRefresh.verdict :=
  if equalIgnoringCase (statusLabel project) "completed" then CacheRefresh.Delete
  else if negb (truthy (prop project "responsable")) && negb (truthy (prop project "pmoId"))
  then CacheRefresh.Skip
  else CacheRefresh.Upsert.

(** A project record as [getAllActiveProjectsWithResponsable] documents
    it: an object whose status is a string or [null]. *)
Definition typed (project : val) : Prop :=
  is_object project
  /\ (prop project "status" = Null \/ exists s, prop project "status" = Str s).

Definition cacheKey (project : val) : string := to_string (prop project "gid").

Definition verdictEqb (a b : CacheRefresh.verdict) : bool :=
  match a, b with
  | CacheRefresh.Delete, CacheRefresh.Delete
  | CacheRefresh.Skip, CacheRefresh.Skip
  | CacheRefresh.Upsert, CacheRefresh.Upsert => true
  | _, _ => false
  end.

(** How many projects of a list get a verdict. *)
Definition tally (v : CacheRefresh.verdict) (projects : list val) : nat :=
  length (List.filter (fun p => verdictEqb (verdictOf p) v) projects).

(** What one project does to the cache. *)
Definition cacheStep (c : gmap string obj) (project : val) : gmap string obj :=
  match verdictOf project with
  | CacheRefresh.Delete => delete (cacheKey project) c
  | CacheRefresh.Skip => c
  | CacheRefresh.Upsert => <[cacheKey project := spread project]> c
  end.

(** A source with one workspace and one page of four projects: a
    completed one, one without owner and business ID, a regular one, and
    one whose detail is denied; a fifth is archived. *)
Definition customField (name : string) (display : val) : val :=
  Obj {[ "name" := Str name; "display_value" := display ]}.

Definition detailResponse (status responsable pmoId : val) : val :=
  Obj {[ "data" :=
           Obj {[ "custom_fields" :=
                    Arr [ customField "Status" status;
                          customField "Responsable Proyecto" responsable;
                          customField "PMO ID" pmoId ] ]} ]}.

Definition listed (gid name : string) (archived : bool) : val :=
  Obj {[ "gid" := Str gid; "name" := Str name; "archived" := Bool archived ]}.

Definition sampleSource : Asana.source :=
  {| Asana.getWorkspaces := Asana.Returned [Obj {[ "gid" := Str "W1" ]}];
     Asana.pages := fun _ =>
       [[ listed "111" "Alpha" false; listed "222" "Beta" false;
          listed "333" "Gamma" false; listed "444" "Delta" false;
          listed "555" "Omega" true ]];
     Asana.listingError := fun _ _ _ => None;
     Asana.getProject := fun gid _ =>
       if String.eqb gid "111" then
         Asana.Returned (detailResponse (Str "Completed") (Str "Ana Perez") (Str "PMO-12"))
       else if String.eqb gid "222" then
         Asana.Returned (detailResponse Null Null Null)
       else if String.eqb gid "333" then
         Asana.Returned (detailResponse (Str "On track") (Str "Ana Perez") (Str "PMO-7"))
       else Asana.Thrown (Obj {[ "status" := Num 403 ]}) |}.

Definition fetched (gid name : string) (responsable status pmoId : val) : val :=
  Obj {[ "gid" := Str gid; "name" := Str name; "responsable" := responsable;
         "status" := status; "pmoId" := pmoId ]}.

Definition sampleProjects : list val :=
  [ fetched "111" "Alpha" (Str "Ana Perez") (Str "Completed") (Str "PMO-12");
    fetched "222" "Beta" Null Null Null;
    fetched "333" "Gamma" (Str "Ana Perez") (Str "On track") (Str "PMO-7") ].

(** A cache that holds the first project from an earlier cycle. *)
Definition worldAlphaCached : world :=
  set_cache {[ "111" := spread (fetched "111" "Alpha" (Str "Ana Perez") (Str "On track")
                                  (Str "PMO-12")) ]} emptyWorld.

(** A write to the cache: a key with its new record, or with nothing. *)
Definition applyWrites (ws : list (string * option obj)) (c : gmap string obj)
  : gmap string obj :=
  foldl (fun c kv => match snd kv with
                     | Some v => <[fst kv := v]> c
                     | None => delete (fst kv) c
                     end) c ws.

Definition resolve (k : string) (ws : list (string * option obj)) (cur : option obj)
  : option obj :=
  foldl (fun cur kv => if decide (fst kv = k) then snd kv else cur) cur ws.

Definition finish {A} (out : A + val) (w : world) : result A :=
  match out with
  | inl a => Ok a w
  | inr e => Throw e w
  end.


Definition retryAfter (error : val) : option Z :=
  Asana.to_number
    (or_else (prop (prop (prop error "response") "headers") "retry-after") (Num 0)).



(** Two rate-limit errors, the second with a retry-after of seven
    seconds, then the answer. *)
Definition limitedTwice (attempt : nat) : Asana.outcome val :=
  match attempt with
  | 0%nat => Asana.Thrown (Obj {[ "status" := Num 429 ]})
  | 1%nat =>
      Asana.Thrown
        (Obj {[ "response" :=
                  Obj {[ "status" := Num 429;
                         "headers" := Obj {[ "retry-after" := Str "7" ]} ]} ]})
  | _ => Asana.Returned (Str "detail")
  end.

(** The stored record of a user, [{}] when there is none. *)
Definition recordOf (w : world) (u : val) : obj :=
  default ∅ (conversations w !! ("CONV#" ++ to_string u)).

(** A project passes the filter of the pulse when its status is not
    "completed" up to letter case and it has no update today. *)
Definition keepb (updatedToday : list val) (project : val) : bool :=
  negb (equalIgnoringCase (statusLabel project) "completed")
  && negb (existsb (strict_eq (prop project "gid")) updatedToday).

Definition ordinalOf (project : val) : ScheduledPulse.number :=
  ScheduledPulse.parsePmoIdNumber (prop project "pmoId").

(** Ascending order of the ordinals, the unparseable ones last. *)
Definition ordinalLeb (a b : ScheduledPulse.number) : bool :=
  match a, b with
  | ScheduledPulse.Finite x, ScheduledPulse.Finite y => (x <=? y)%Z
  | _, ScheduledPulse.PosInfinity => true
  | _, _ => false
  end.


(** What [getConversationState] reads for a user. *)
Definition storedState (w : world) (u : val) : val :=
  match conversations w !! ("CONV#" ++ to_string u) with
  | Some item => Obj item
  | None => Null
  end.

(** ** Vocabulary of the further properties *)

(** The text before the first underscore. *)
Fixpoint untilUnderscore (s : string) : string :=
  match s with
  | EmptyString => EmptyString
  | String c r =>
      if Ascii.eqb c "_"%char then EmptyString else String c (untilUnderscore r)
  end.

Fixpoint hasUnderscore (s : string) : bool :=
  match s with
  | EmptyString => false
  | String c r => Ascii.eqb c "_"%char || hasUnderscore r
  end.

(** The click Slack reports when user [u] presses button [b]. *)
Definition click (u : val) (b : Messages.button) : SlackEvents.block_action :=
  {| SlackEvents.user_id := u;
     SlackEvents.action_id := Messages.button_action_id b;
     SlackEvents.value := Str (Messages.button_value b) |}.

(** Every conversation record sits under its own partition key. *)
Definition keyedTable (w : world) : Prop :=
  forall k st, conversations w !! k = Some st -> get st "pk" = Str k.

(** The history of every project is kept newest first, no two items
    under one sort key, each item stamped with its sort key and its
    partition key. *)
Definition newestFirst (l : list (Z * obj)) : Prop :=
  StronglySorted (fun a b => (fst b < fst a)%Z) l.

Definition historyOrdered (w : world) : Prop :=
  forall pk l,
    updates w !! pk = Some l ->
    newestFirst l
    /\ Forall (fun p => get (snd p) "timestamp" = Iso (fst p)
                        /\ get (snd p) "pk" = Str pk) l.

(** The instants of a list of updates decrease strictly. *)
Definition stampsDecrease (items : list val) : Prop :=
  StronglySorted
    (fun a b => exists s t, prop a "timestamp" = Iso s /\ prop b "timestamp" = Iso t
                            /\ (t < s)%Z)
    items.

(** The partition of a project in the table of updates. *)
Definition historyOf (w : world) (projectGid : val) : list (Z * obj) :=
  default [] (updates w !! ("PROJECT#" ++ to_string projectGid)).

(** What the reminder sends for a state that is due, by its step. *)
Definition reminderFor (state : obj) : list effect :=
  if is_str "awaiting_status" (get state "step") then
    [SendUpdateRequest (get state "slackUserId")
       (or_else (get state "currentProjectName") (Str "Proyecto"))
       (get state "currentProjectGid")]
  else if is_str "awaiting_blockers" (get state "step") then
    [SendMessage (get state "slackUserId")
       (ReminderBlockers (or_else (get state "currentProjectName") (Str "el proyecto")))]
  else if is_str "awaiting_advances" (get state "step") then
    [SendMessage (get state "slackUserId")
       (ReminderAdvances (or_else (get state "currentProjectName") (Str "el proyecto")))]
  else [].

(** The newest stored update of a project, if any, is not later than
    instant [t]. *)
Definition noUpdateSince (w : world) (projectGid : val) (t : Z) : Prop :=
  forall p, head (historyOf w projectGid) = Some p ->
            exists s, get (snd p) "timestamp" = Iso s /\ (s <= t)%Z.

(** The snooze of a state, if it has one, has run out at [now]. *)
Definition notSnoozed (state : obj) (now : Z) : Prop :=
  truthy (get state "snoozeUntil") = false
  \/ exists s, get state "snoozeUntil" = Iso s /\ (s <= now)%Z.

(** An attribute read off a custom field: [null] or a truthy value. *)
Definition nullOrTruthy (v : val) : Prop := v = Null \/ truthy v = true.

(** A project record comes from a listed entry that is not archived. *)
Definition listedActive (src : Asana.source) (project : val) : Prop :=
  exists ws entry,
    entry ∈ mjoin (Asana.pages src ws)
    /\ truthy (prop entry "archived") = false
    /\ prop project "gid" = prop entry "gid"
    /\ prop project "name" = prop entry "name".

Definition numberEqb (a b : ScheduledPulse.number) : bool :=
  match a, b with
  | ScheduledPulse.Finite x, ScheduledPulse.Finite y => (x =? y)%Z
  | ScheduledPulse.PosInfinity, ScheduledPulse.PosInfinity
  | ScheduledPulse.NegInfinity, ScheduledPulse.NegInfinity
  | ScheduledPulse.NaN, ScheduledPulse.NaN => true
  | _, _ => false
  end.

(** The projects of a list whose ordinal is [n], in the order of the
    list. *)
Definition withOrdinal (n : ScheduledPulse.number) (l : list val) : list val :=
  List.filter (fun p => numberEqb (ordinalOf p) n) l.

(** The statuses of a list of updates, none of them [null] or
    [undefined]. *)
Fixpoint statusList (l : list val) : option (list val) :=
  match l with
  | [] => Some []
  | u :: rest =>
      match u, statusList rest with
      | (Undefined | Null), _ => None
      | _, Some others => Some (prop u "status" :: others)
      | _, None => None
      end
  end.

(** The scores of a list of statuses, each of them a number. *)
Definition scored (statuses : list val) : Prop :=
  Forall (fun s => is_Some (RiskAnalysis.getRiskScore s)) statuses.

Definition scoreOf (status : val) : Z := default 0%Z (RiskAnalysis.getRiskScore status).

(** From the newest update to the oldest the scores never go down. *)
Definition olderScoreNoLess (statuses : list val) : Prop :=
  forall (i : nat) a b,
    statuses !! i = Some a -> statuses !! S i = Some b -> (scoreOf a <= scoreOf b)%Z.

(** How many analyses a summary counts at a level. *)
Definition levelCount (s : RiskAnalysis.summary) (level : string) : Z :=
  default 0%Z (RiskAnalysis.byRiskLevel s !! level).

Definition riskLevels : list val :=
  [Str "high"; Str "medium"; Str "low"; Str "unknown"; Str "error"].

(** [null] and [undefined], on which reading a property throws. *)
Definition nullish (v : val) : bool :=
  match v with
  | Undefined | Null => true
  | _ => false
  end.

(** The answer of the analysis when anything in it throws. *)
Definition failedAnalysis : obj :=
  {[ "riskLevel" := Str "error";
     "reason" := Str "Error al analizar";
     "alerts" := Arr [Str "Error de análisis"] ]}.

(** The level and the alerts the analysis derives from the latest status
    and blocker flag alone. *)
Definition levelOf (status hasBlockers : val) : string :=
  if is_str "off_track" status then "high"
  else if is_str "at_risk" status then "medium"
  else if truthy hasBlockers then "medium"
  else "low".

Definition alertsOf (status hasBlockers : val) : list val :=
  ((if is_str "off_track" status then [Str "Estado Off Track"]
    else if is_str "at_risk" status then [Str "Estado At Risk"]
    else [])
   ++ (if truthy hasBlockers then [Str "Tiene bloqueos activos"] else []))%list.

(** The trend alert, given the statuses from the newest to the oldest. *)
Definition trendAlert (status : val) (earlier : list val) : list val :=
  if RiskAnalysis.riskProgression (status :: earlier)
     && match RiskAnalysis.getRiskScore status with
        | Some score => (0 <? score)%Z
        | None => false
        end
  then [Str "Tendencia de riesgo creciente"]
  else [].

(** The analysis as a function of the updates the store answered. *)
Definition analysisOf (updates : list val) : obj :=
  match updates with
  | [] =>
      {[ "riskLevel" := Str "unknown";
         "reason" := Str "Sin historial de updates";
         "alerts" := Arr [] ]}
  | latestUpdate :: previousUpdates =>
      let status := prop latestUpdate "status" in
      let hasBlockers := prop latestUpdate "hasBlockers" in
      match nullish latestUpdate, statusList previousUpdates with
      | false, Some earlier =>
          let alertResult :=
            RiskDetector.shouldAlert
              {[ "status" := status; "hasBlockers" := hasBlockers ]} previousUpdates in
          {[ "riskLevel" := Str (levelOf status hasBlockers);
             "reason" := RiskDetector.reason alertResult;
             "alerts" :=
               Arr (alertsOf status hasBlockers
                      ++ match previousUpdates with
                         | [] => []
                         | _ :: _ => trendAlert status earlier
                         end)%list;
             "shouldAlert" := Bool (RiskDetector.shouldAlert_flag alertResult);
             "latestStatus" := status;
             "hasBlockers" := hasBlockers;
             "lastUpdateAt" := prop latestUpdate "timestamp" ]}
      | _, _ => failedAnalysis
      end
  end.

(** A project reported off_track and then at_risk, and one reported
    on_track and then off_track. *)
Definition reported (gid : string) (statuses : list (Z * string)) : world :=
  foldl (fun w ts =>
           world_of (Dynamo.saveUpdate (fst ts)
                       {[ "projectGid" := Str gid; "status" := Str (snd ts);
                          "hasBlockers" := Bool false ]} w))
    emptyWorld statuses.

Definition worldImproving : world :=
  reported "111" [(1000%Z, "off_track"); (2000%Z, "at_risk")].

Definition worldWorsening : world :=
  reported "111" [(1000%Z, "on_track"); (2000%Z, "off_track")].

Definition trendText : val := Str "Tendencia de riesgo creciente".

(** The alerts of an analysis. *)
Definition alertsIn (analysis : obj) : list val :=
  match get analysis "alerts" with
  | Arr l => l
  | _ => []
  end.

(** The alerts the analysis of a project lists. *)
Definition alertsFor (w : world) (projectGid : val) : list val :=
  match RiskAnalysis.analyzeProjectRisk projectGid Dynamo.getLastUpdates w with
  | Ok analysis _ => alertsIn analysis
  | Throw _ _ => []
  end.

(** The analyses a summary counts, over the five levels the analysis
    gives. *)
Definition countedLevels (s : RiskAnalysis.summary) : Z :=
  (levelCount s "high" + levelCount s "medium" + levelCount s "low"
   + levelCount s "unknown" + levelCount s "error")%Z.

(** The entry of [needingAlert] for an analysis. *)
Definition alertEntry (project : val) : val :=
  Obj {[ "projectGid" := prop project "projectGid"; "reason" := prop project "reason" ]}.

(** An analysis as [analyzeProjectRisk] returns it: an object at one of
    the five levels. *)
Definition analysed (project : val) : Prop :=
  nullish project = false /\ prop project "riskLevel" ∈ riskLevels.

(** ** Properties *)

Lemma is_str_spec s v : is_str s v = true <-> v = Str s.
Proof.
  destruct v; simpl; try (split; [discriminate | congruence]).
  rewrite String.eqb_eq. split; congruence.
Qed.

Lemma is_str_false s v : is_str s v = false <-> v <> Str s.
Proof.
  rewrite <- is_str_spec. destruct (is_str s v); split; congruence.
Qed.

Lemma prop_str_truthy u k s : prop u k = Str s -> truthy u = true.
Proof. destruct u; simpl; try discriminate; reflexivity. Qed.

(** C1. [shouldAlert] answers true exactly when the current status is
    off_track, or it is at_risk and the first (most recent) prior update
    exists and is at_risk too, or the blocker flag is set (truthy, so
    [true] for a boolean flag) and the status is not on_track; it answers
    false in every other case. *)
Theorem shouldAlert_iff (currentUpdate : obj) (previousUpdates : list val) :
  RiskDetector.shouldAlert_flag
    (RiskDetector.shouldAlert currentUpdate previousUpdates) = true
  <->
  get currentUpdate "status" = Str "off_track"
  \/ (get currentUpdate "status" = Str "at_risk"
      /\ exists u, previousUpdates !! 0%nat = Some u
                   /\ prop u "status" = Str "at_risk")
  \/ (truthy (get currentUpdate "hasBlockers") = true
      /\ get currentUpdate "status" <> Str "on_track").
Proof.
  unfold RiskDetector.shouldAlert.
  set (status := get currentUpdate "status").
  set (hb := get currentUpdate "hasBlockers").
  destruct (is_str "off_track" status) eqn:Hoff.
  { simpl. apply is_str_spec in Hoff. tauto. }
  apply is_str_false in Hoff.
  destruct (is_str "at_risk" status) eqn:Hrisk.
  - apply is_str_spec in Hrisk.
    destruct previousUpdates as [|u rest]; simpl.
    + destruct (truthy hb) eqn:Hb; simpl.
      * rewrite Hrisk. simpl. split; [intros _|reflexivity].
        right; right. split; [reflexivity|discriminate].
      * split; [discriminate|].
        intros [H|[[_ (u & Hu & _)]|[H _]]]; congruence.
    + destruct (truthy u && is_str "at_risk" (prop u "status")) eqn:Hu; simpl.
      * apply andb_true_iff in Hu as [_ Hu]. apply is_str_spec in Hu.
        split; [intros _|reflexivity]. right; left. eauto.
      * destruct (truthy hb) eqn:Hb; simpl.
        -- rewrite Hrisk. simpl. split; [intros _|reflexivity].
           right; right. split; [reflexivity|discriminate].
        -- split; [discriminate|].
           intros [H|[[_ (u' & Hu' & Hs)]|[H _]]]; try congruence.
           injection Hu' as <-.
           rewrite (prop_str_truthy _ _ _ Hs) in Hu. simpl in Hu.
           apply is_str_false in Hu. congruence.
  - apply is_str_false in Hrisk. simpl.
    destruct (truthy hb) eqn:Hb; simpl.
    + destruct (is_str "on_track" status) eqn:Hon; simpl.
      * apply is_str_spec in Hon. split; [discriminate|].
        intros [H|[[H _]|[_ H]]]; congruence.
      * apply is_str_false in Hon. tauto.
    + split; [discriminate|].
      intros [H|[[H _]|[H _]]]; congruence.
Qed.

(** ** Reading objects *)

Lemma get_insert_eq (o : obj) k v : get (<[k := v]> o) k = v.
Proof. unfold get. by rewrite lookup_insert_eq. Qed.

Lemma get_insert_ne (o : obj) k k' v : k <> k' -> get (<[k := v]> o) k' = get o k'.
Proof. intros H. unfold get. by rewrite lookup_insert_ne. Qed.

Lemma get_union_l (a b : obj) k : is_Some (a !! k) -> get (a ∪ b) k = get a k.
Proof.
  intros [v Hv]. unfold get. by rewrite (lookup_union_Some_l a b k v Hv), Hv.
Qed.

Lemma get_union_r (a b : obj) k : a !! k = None -> get (a ∪ b) k = get b k.
Proof. intros H. unfold get. by rewrite lookup_union_r. Qed.

(** ** The expiry of a conversation record (C10) *)

Lemma conversationItem_expiry now u (state : obj) :
  get (Dynamo.conversationItem now u state) "expiresAt" = Num (now / 1000 + 3600)
  /\ get (Dynamo.conversationItem now u state) "updatedAt" = Iso now.
Proof.
  unfold Dynamo.conversationItem. split.
  - apply get_insert_eq.
  - rewrite get_insert_ne by discriminate. apply get_insert_eq.
Qed.





Lemma clear_stores now u w :
  Dynamo.clearConversationState now u w
  = Ok tt (set_conversations
             (<["CONV#" ++ to_string u :=
                  Dynamo.conversationItem now u {[ "cleared" := Bool true ]}]>
                (conversations w)) w).
Proof.
  unfold Dynamo.clearConversationState, try_catch, Dynamo.setConversationState.
  assert (get (Dynamo.conversationItem now u {[ "cleared" := Bool true ]}) "pk"
          = Str ("CONV#" ++ to_string u)) as ->; [|reflexivity].
  unfold Dynamo.conversationItem.
  rewrite !get_insert_ne by discriminate.
  rewrite get_union_r by (by apply lookup_singleton_ne).
  unfold get. by rewrite lookup_singleton_eq.
Qed.


(** ** The queue of pending projects (C3) *)

Ltac get_simpl :=
  repeat first
    [ rewrite get_insert_eq
    | rewrite get_insert_ne by discriminate ].

Lemma overlay_lookup_mono (st : obj) fields k :
  is_Some (st !! k) -> is_Some (SlackEvents.overlay st fields !! k).
Proof.
  unfold SlackEvents.overlay. revert st.
  induction fields as [|[k' v'] fields IH]; intros st H; simpl; [exact H|].
  apply IH. destruct (decide (k' = k)) as [->|Hne].
  - rewrite lookup_insert_eq. eauto.
  - by rewrite lookup_insert_ne.
Qed.

Lemma overlay_union_self (st : obj) fields :
  SlackEvents.overlay st fields ∪ st = SlackEvents.overlay st fields.
Proof.
  apply map_eq. intros k. rewrite lookup_union.
  destruct (st !! k) as [v|] eqn:Hst.
  - destruct (overlay_lookup_mono st fields k (ltac:(eauto))) as [v' ->]. reflexivity.
  - destruct (SlackEvents.overlay st fields !! k); reflexivity.
Qed.

Lemma get_Str_lookup (o : obj) k s : get o k = Str s -> o !! k = Some (Str s).
Proof. unfold get. destruct (o !! k); simpl; congruence. Qed.

Lemma stored_read w u st :
  stored w u st -> ConversationState.getConversationState u w = Ok (Obj st) w.
Proof.
  intros [H _]. unfold ConversationState.getConversationState,
    Dynamo.getConversationState. by rewrite H.
Qed.

Lemma lib_set_stored now u patch w st :
  stored w u st ->
  get (patch ∪ st) "pk" = Str ("CONV#" ++ to_string u) ->
  ConversationState.setConversationState now u patch w
  = Ok (merged now u patch st)
       (set_conversations
          (<["CONV#" ++ to_string u := Dynamo.conversationItem now u (merged now u patch st)]>
             (conversations w)) w).
Proof.
  intros Hst Hpk.
  unfold ConversationState.setConversationState, bind.
  rewrite (stored_read _ _ _ Hst). simpl.
  fold (merged now u patch st).
  unfold Dynamo.setConversationState.
  assert (get (Dynamo.conversationItem now u (merged now u patch st)) "pk"
          = Str ("CONV#" ++ to_string u)) as ->; [|reflexivity].
  unfold Dynamo.conversationItem, merged. get_simpl.
  rewrite get_union_l.
  - get_simpl. exact Hpk.
  - rewrite !lookup_insert_ne by discriminate.
    apply get_Str_lookup in Hpk. rewrite Hpk. eauto.
Qed.

Lemma stored_after now u patch w st :
  get (patch ∪ st) "pk" = Str ("CONV#" ++ to_string u) ->
  stored
    (set_conversations
       (<["CONV#" ++ to_string u := Dynamo.conversationItem now u (merged now u patch st)]>
          (conversations w)) w)
    u (Dynamo.conversationItem now u (merged now u patch st)).
Proof.
  intros Hpk. split; simpl.
  - by rewrite lookup_insert_eq.
  - unfold Dynamo.conversationItem, merged. get_simpl.
    rewrite get_union_l.
    + get_simpl. exact Hpk.
    + rewrite !lookup_insert_ne by discriminate.
      apply get_Str_lookup in Hpk. rewrite Hpk. eauto.
Qed.

(** Fields of a stored item other than the four the writes stamp. *)
Lemma item_field now u patch st k :
  k <> "expiresAt" -> k <> "updatedAt" -> k <> "startedAt" -> k <> "slackUserId" ->
  get (Dynamo.conversationItem now u (merged now u patch st)) k
  = get ((patch ∪ st) ∪ {[ "pk" := Str ("CONV#" ++ to_string u) ]}) k.
Proof.
  intros H1 H2 H3 H4. unfold Dynamo.conversationItem.
  rewrite !get_insert_ne by congruence.
  unfold get. rewrite !lookup_union. unfold merged.
  rewrite !lookup_insert_ne by congruence. rewrite lookup_union. reflexivity.
Qed.

Lemma advancePatch_pk now st i next :
  get (advancePatch now st i next ∪ st) "pk" = get st "pk".
Proof.
  unfold advancePatch. rewrite overlay_union_self.
  unfold SlackEvents.overlay. simpl. by get_simpl.
Qed.

Lemma index_object queue (i : Z) :
  Forall is_object queue -> (0 <= i < Z.of_nat (length queue))%Z ->
  exists e, SlackEvents.index queue i = Obj e /\ queue !! Z.to_nat i = Some (Obj e).
Proof.
  intros Hq Hi. unfold SlackEvents.index.
  destruct (Z.ltb_spec i 0) as [?|_]; [lia|].
  destruct (lookup_lt_is_Some_2 queue (Z.to_nat i) ltac:(lia)) as [v Hv].
  rewrite nth_lookup, Hv. simpl.
  rewrite Forall_lookup in Hq. destruct (Hq _ _ Hv) as [e ->]. eauto.
Qed.

(** A successful advance: the next entry exists. *)
Lemma advance_moves now u w st queue (i : Z) :
  stored w u st ->
  get st "pendingProjects" = Arr queue ->
  get st "currentIndex" = Num i ->
  Forall is_object queue ->
  (0 <= i)%Z -> (i + 1 < Z.of_nat (length queue))%Z ->
  exists next,
    queue !! Z.to_nat (i + 1) = Some next
    /\ SlackEvents.advanceOrClear now u st w
       = Ok true
           (set_outbox
              (outbox w ++ [SendUpdateRequest u (prop next "name") (prop next "gid")])
              (set_conversations
                 (<["CONV#" ++ to_string u :=
                      Dynamo.conversationItem now u
                        (merged now u (advancePatch now st (i + 1) next) st)]>
                    (conversations w)) w)).
Proof.
  intros Hst Hq Hi Hobj H0 HK.
  destruct (index_object queue (i + 1) Hobj ltac:(lia)) as (e & Hidx & Hlook).
  exists (Obj e). split; [exact Hlook|].
  unfold SlackEvents.advanceOrClear, SlackEvents.advanceToNextProject, bind.
  rewrite Hq, Hi.
  destruct (Z.leb_spec (Z.of_nat (length queue)) (i + 1)) as [?|_]; [lia|].
  rewrite Hidx. simpl.
  erewrite (lib_set_stored now u _ w st Hst);
    [reflexivity | exact (eq_trans (advancePatch_pk now st (i + 1) (Obj e)) (proj2 Hst))].
Qed.

(** An advance past the end: the caller clears. *)
Lemma advance_clears now u w st queue (i : Z) :
  get st "pendingProjects" = Arr queue ->
  get st "currentIndex" = Num i ->
  (Z.of_nat (length queue) <= i + 1)%Z ->
  SlackEvents.advanceOrClear now u st w
  = Ok false
      (set_conversations
         (<["CONV#" ++ to_string u :=
              Dynamo.conversationItem now u {[ "cleared" := Bool true ]}]>
            (conversations w)) w).
Proof.
  intros Hq Hi HK.
  unfold SlackEvents.advanceOrClear, SlackEvents.advanceToNextProject, bind.
  rewrite Hq, Hi.
  destruct (Z.leb_spec (Z.of_nat (length queue)) (i + 1)) as [_|?]; [|lia].
  simpl. unfold ConversationState.clearConversationState.
  rewrite clear_stores. reflexivity.
Qed.

Lemma get_union_singleton_ne (a : obj) k k' v :
  k <> k' -> get (a ∪ {[ k := v ]}) k' = get a k'.
Proof.
  intros H. unfold get. rewrite lookup_union, lookup_singleton_ne by exact H.
  destruct (a !! k'); reflexivity.
Qed.

(** What the stored record says after a successful advance to [next]. *)
Lemma advanced_fields now u st queue (i : Z) next :
  get st "pendingProjects" = Arr queue ->
  let st' := Dynamo.conversationItem now u (merged now u (advancePatch now st i next) st) in
  get st' "pendingProjects" = Arr queue
  /\ get st' "currentIndex" = Num i
  /\ get st' "step" = Str "awaiting_status"
  /\ get st' "currentProjectGid" = prop next "gid"
  /\ get st' "currentProjectName" = prop next "name"
  /\ get st' "currentProjectPmoId" = or_else (prop next "pmoId") Null.
Proof.
  intros Hq st'. subst st'.
  rewrite !item_field by discriminate.
  rewrite overlay_union_self || (unfold advancePatch; rewrite overlay_union_self).
  rewrite !get_union_singleton_ne by discriminate.
  unfold SlackEvents.overlay. simpl. get_simpl. repeat split; try reflexivity; exact Hq.
Qed.

Lemma cycles_advance u times :
  forall w st queue (i : Z),
    stored w u st ->
    get st "pendingProjects" = Arr queue ->
    get st "currentIndex" = Num i ->
    Forall is_object queue ->
    (0 <= i)%Z -> (i + Z.of_nat (length times) < Z.of_nat (length queue))%Z ->
    exists w' st',
      cycleEnds u times w = Ok (repeat true (length times)) w'
      /\ stored w' u st'
      /\ get st' "pendingProjects" = Arr queue
      /\ get st' "currentIndex" = Num (i + Z.of_nat (length times))
      /\ (times <> [] ->
          get st' "step" = Str "awaiting_status"
          /\ exists entry,
               queue !! Z.to_nat (i + Z.of_nat (length times)) = Some entry
               /\ get st' "currentProjectGid" = prop entry "gid"
               /\ get st' "currentProjectName" = prop entry "name"
               /\ get st' "currentProjectPmoId" = or_else (prop entry "pmoId") Null).
Proof.
  induction times as [|now later IH]; intros w st queue i Hst Hq Hi Hobj H0 HK.
  - exists w, st. simpl. rewrite Z.add_0_r.
    split; [reflexivity|]. split; [exact Hst|]. split; [exact Hq|].
    split; [exact Hi|]. intros Hne. congruence.
  - simpl length in *.
    destruct (advance_moves now u w st queue i Hst Hq Hi Hobj H0 ltac:(lia))
      as (next & Hnext & Hrun).
    pose proof (advanced_fields now u st queue (i + 1) next Hq) as Hf.
    simpl in Hf. destruct Hf as (Hq1 & Hi1 & Hstep1 & Hg1 & Hn1 & Hp1).
    set (st1 := Dynamo.conversationItem now u
                  (merged now u (advancePatch now st (i + 1) next) st)) in *.
    assert (stored
              (set_outbox
                 (outbox w ++ [SendUpdateRequest u (prop next "name") (prop next "gid")])
                 (set_conversations
                    (<["CONV#" ++ to_string u := st1]> (conversations w)) w)) u st1) as Hst1.
    { pose proof (stored_after now u (advancePatch now st (i + 1) next) w st
                    (eq_trans (advancePatch_pk now st (i + 1) next) (proj2 Hst))) as H.
      exact H. }
    destruct (IH _ st1 queue (i + 1)%Z Hst1 Hq1 Hi1 Hobj ltac:(lia) ltac:(lia))
      as (w' & st' & Hrun' & Hst' & Hq' & Hi' & Hact').
    exists w', st'.
    split.
    { simpl. unfold bind. rewrite (stored_read _ _ _ Hst). simpl.
      rewrite Hrun. fold (cycleEnds u later). rewrite Hrun'. reflexivity. }
    split; [exact Hst'|]. split; [exact Hq'|].
    replace (i + Z.of_nat (S (length later)))%Z
      with (i + 1 + Z.of_nat (length later))%Z by lia.
    split; [exact Hi'|].
    intros _. destruct later as [|t later'].
    + simpl in Hrun'. injection Hrun' as <-.
      destruct Hst' as [Hlk' _]. destruct Hst1 as [Hlk1 _].
      rewrite Hlk1 in Hlk'. injection Hlk' as <-.
      simpl. rewrite Z.add_0_r. split; [exact Hstep1|].
      exists next. auto.
    + apply Hact'. discriminate.
Qed.

Lemma cycles_finish u times :
  forall w st queue (i : Z),
    stored w u st ->
    get st "pendingProjects" = Arr queue ->
    get st "currentIndex" = Num i ->
    Forall is_object queue ->
    (0 <= i)%Z -> times <> [] ->
    (i + Z.of_nat (length times) = Z.max (Z.of_nat (length queue)) (i + 1))%Z ->
    exists w' t,
      cycleEnds u times w = Ok (repeat true (length times - 1) ++ [false])%list w'
      /\ last times = Some t
      /\ conversations w' !! ("CONV#" ++ to_string u)
         = Some (Dynamo.conversationItem t u {[ "cleared" := Bool true ]}).
Proof.
  induction times as [|now later IH]; intros w st queue i Hst Hq Hi Hobj H0 Hne HK;
    [congruence|].
  simpl length in *.
  destruct later as [|t later'].
  - simpl in HK.
    pose proof (advance_clears now u w st queue i Hq Hi ltac:(lia)) as Hrun.
    eexists _, now. split; [|split; [reflexivity|]].
    + simpl. unfold bind. rewrite (stored_read _ _ _ Hst). simpl.
      rewrite Hrun. reflexivity.
    + simpl. by rewrite lookup_insert_eq.
  - simpl length in *.
    destruct (advance_moves now u w st queue i Hst Hq Hi Hobj H0 ltac:(lia))
      as (next & Hnext & Hrun).
    pose proof (advanced_fields now u st queue (i + 1) next Hq) as Hf.
    simpl in Hf. destruct Hf as (Hq1 & Hi1 & _).
    set (st1 := Dynamo.conversationItem now u
                  (merged now u (advancePatch now st (i + 1) next) st)) in *.
    assert (stored
              (set_outbox
                 (outbox w ++ [SendUpdateRequest u (prop next "name") (prop next "gid")])
                 (set_conversations
                    (<["CONV#" ++ to_string u := st1]> (conversations w)) w)) u st1) as Hst1.
    { exact (stored_after now u (advancePatch now st (i + 1) next) w st
               (eq_trans (advancePatch_pk now st (i + 1) next) (proj2 Hst))). }
    destruct (IH _ st1 queue (i + 1)%Z Hst1 Hq1 Hi1 Hobj ltac:(lia) ltac:(discriminate)
                ltac:(simpl length; lia))
      as (w' & t' & Hrun' & Hlast & Hclr).
    exists w', t'. split; [|split; [exact Hlast|exact Hclr]].
    change (cycleEnds u (now :: t :: later') w) with
      (bind (ConversationState.getConversationState u)
         (fun state => bind (SlackEvents.advanceOrClear now u (spread state))
            (fun advanced => bind (cycleEnds u (t :: later'))
               (fun rest => ret (advanced :: rest)))) w).
    unfold bind at 1. rewrite (stored_read _ _ _ Hst). simpl spread.
    unfold bind at 1. rewrite Hrun.
    unfold bind at 1. rewrite Hrun'. simpl. rewrite Nat.sub_0_r. reflexivity.
Qed.

(** C3. On a stored state whose queue has [K] entries and whose
    [currentIndex] is 0, the cycle ends of calls number 1 to K-1 all
    advance (call [n] leaves the stored state at step awaiting_status on
    entry [n] of the unchanged queue), and call number K is the first, and
    the only one, to return false, whereupon the caller overwrites the
    record with the cleared marker. (An empty queue gives false at the
    first call.) *)
Theorem advance_exhausts_queue_at_K
    (w : world) (u : val) (st : obj) (queue : list val) (times : list Z) :
  stored w u st ->
  get st "pendingProjects" = Arr queue ->
  get st "currentIndex" = Num 0 ->
  Forall is_object queue ->
  let K := length queue in
  let n := length times in
  ((n < K)%nat ->
   exists w' st',
     cycleEnds u times w = Ok (repeat true n) w'
     /\ stored w' u st'
     /\ get st' "pendingProjects" = Arr queue
     /\ get st' "currentIndex" = Num (Z.of_nat n)
     /\ ((1 <= n)%nat ->
         get st' "step" = Str "awaiting_status"
         /\ exists entry,
              queue !! n = Some entry
              /\ get st' "currentProjectGid" = prop entry "gid"
              /\ get st' "currentProjectName" = prop entry "name"
              /\ get st' "currentProjectPmoId" = or_else (prop entry "pmoId") Null))
  /\ (n = Nat.max K 1 ->
      exists w' t,
        cycleEnds u times w = Ok (repeat true (n - 1) ++ [false])%list w'
        /\ last times = Some t
        /\ conversations w' !! ("CONV#" ++ to_string u)
           = Some (Dynamo.conversationItem t u {[ "cleared" := Bool true ]})).
Proof.
  intros Hst Hq Hi Hobj K n. split.
  - intros Hn.
    destruct (cycles_advance u times w st queue 0 Hst Hq Hi Hobj ltac:(lia)
                ltac:(subst K n; lia))
      as (w' & st' & Hrun & Hst' & Hq' & Hi' & Hact).
    exists w', st'. rewrite Z.add_0_l in Hi', Hact. rewrite Nat2Z.id in Hact.
    split; [exact Hrun|]. split; [exact Hst'|]. split; [exact Hq'|].
    split; [exact Hi'|].
    intros H1. apply Hact. destruct times; [subst n; simpl in H1; lia|discriminate].
  - intros Hn.
    apply (cycles_finish u times w st queue 0 Hst Hq Hi Hobj ltac:(lia)).
    + destruct times; [subst n; simpl in Hn; lia|discriminate].
    + subst K n. lia.
Qed.

Lemma advance_exhausts_queue_at_K_witness :
  ((2 < 2)%nat ->
   exists w' st',
     cycleEnds (Str "U1") [5000; 9000]%Z worldTwoQueued = Ok (repeat true 2) w'
     /\ stored w' (Str "U1") st'
     /\ get st' "pendingProjects" = Arr [alpha; beta]
     /\ get st' "currentIndex" = Num 2
     /\ ((1 <= 2)%nat ->
         get st' "step" = Str "awaiting_status"
         /\ exists entry,
              [alpha; beta] !! 2%nat = Some entry
              /\ get st' "currentProjectGid" = prop entry "gid"
              /\ get st' "currentProjectName" = prop entry "name"
              /\ get st' "currentProjectPmoId" = or_else (prop entry "pmoId") Null))
  /\ (2%nat = Nat.max 2 1 ->
      exists w' t,
        cycleEnds (Str "U1") [5000; 9000]%Z worldTwoQueued
        = Ok (repeat true (2 - 1) ++ [false])%list w'
        /\ last [5000; 9000]%Z = Some t
        /\ conversations w' !! ("CONV#" ++ to_string (Str "U1"))
           = Some (Dynamo.conversationItem t (Str "U1") {[ "cleared" := Bool true ]})).
Proof.
  apply (advance_exhausts_queue_at_K worldTwoQueued (Str "U1") twoQueued
           [alpha; beta] [5000; 9000]%Z).
  - split; vm_compute; reflexivity.
  - vm_compute; reflexivity.
  - vm_compute; reflexivity.
  - repeat constructor; eexists; reflexivity.
Defined.

(** ** Escalation on closing a cycle (C2) *)

Lemma put_sorted_newest sk item l :
  Forall (fun p => (fst p < sk)%Z) l -> Dynamo.put_sorted sk item l = (sk, item) :: l.
Proof.
  destruct l as [|[sk' it] rest]; simpl; [reflexivity|].
  intros H. inversion H as [|? ? Hlt _]; subst. simpl in Hlt.
  destruct (Z.ltb_spec sk' sk); [reflexivity|lia].
Qed.

(** After [saveUpdate] at an instant later than every item of the
    project's partition, the newest item [getLastUpdates] returns is the
    one just written. *)
Lemma saved_update_is_first now (updateData : obj) w item w' :
  Forall (fun p => (fst p < now)%Z)
         (default [] (updates w !! ("PROJECT#" ++ to_string (get updateData "projectGid")))) ->
  "PROJECT#" ++ to_string (get updateData "projectGid") ∉ unavailable w ->
  Dynamo.saveUpdate now updateData w = Ok item w' ->
  exists older,
    Dynamo.getLastUpdates (get updateData "projectGid") 2 w' = Ok (Obj item :: older) w'
    /\ get item "status" = get updateData "status".
Proof.
  intros Hold Hup Hsave. unfold Dynamo.saveUpdate in Hsave.
  injection Hsave as <- <-.
  unfold Dynamo.getLastUpdates. simpl.
  destruct (decide _) as [Hin|_]; [contradiction|].
  rewrite lookup_insert_eq. simpl.
  rewrite put_sorted_newest by exact Hold.
  simpl. eexists. split; [reflexivity|]. by get_simpl.
Qed.


(** ** The reminder sweep (C8) *)

(** C8 (the code departs from the specification). The loop of the sweep has no
    [try] around a state: when the history query of the first state's
    project fails, the handler rejects, and the second state, as overdue
    as the first, gets no reminder and keeps its old [lastPromptAt]; with
    the store available both are reminded. *)
Theorem sweep_stops_at_first_failure :
  Reminder.handler 7200000 twoStale (worldTwoStale {[ "PROJECT#111" ]})
  = Throw (Str "ServiceUnavailable") (worldTwoStale {[ "PROJECT#111" ]})
  /\ outbox (world_of (Reminder.handler 7200000 twoStale (worldTwoStale ∅)))
     = [SendUpdateRequest (Str "U1") (Str "Alpha") (Str "111");
        SendUpdateRequest (Str "U2") (Str "Beta") (Str "222")].
Proof. split; vm_compute; reflexivity. Qed.

(** ** The active project and the queue (C4) *)

Ltac lookup_simpl :=
  repeat first
    [ rewrite lookup_insert_eq
    | rewrite lookup_insert_ne by discriminate
    | rewrite lookup_singleton_eq
    | rewrite lookup_singleton_ne by discriminate
    | rewrite lookup_empty ].



Lemma get_union_patch (patch st s : obj) k :
  get ((patch ∪ st) ∪ s) k
  = match patch !! k with
    | Some v => v
    | None => get (st ∪ s) k
    end.
Proof.
  unfold get. rewrite !lookup_union.
  destruct (patch !! k), (st !! k), (s !! k); reflexivity.
Qed.











(** ** Classification in a cache refresh (C5) *)

Lemma classify_typed project w :
  typed project -> CacheRefresh.classify project w = Ok (verdictOf project) w.
Proof.
  intros [[o ->] Hs]. unfold CacheRefresh.classify, verdictOf, statusLabel,
    equalIgnoringCase, bind.
  change (toLowerCase "completed") with "completed".
  rewrite (andb_comm (negb (truthy (prop (Obj o) "responsable")))).
  assert (or_else (prop (Obj o) "status") (Str EmptyString)
          = Str (match prop (Obj o) "status" with Str s => s | _ => EmptyString end)) as ->.
  { destruct Hs as [->|[s ->]]; [reflexivity|]. destruct s; reflexivity. }
  unfold ret. destruct (String.eqb _ _); [reflexivity|].
  destruct (_ && _); reflexivity.
Qed.

Lemma refreshLoop_typed projects :
  forall u d s w,
    Forall typed projects ->
    CacheRefresh.refreshLoop projects u d s w
    = Ok (u + tally CacheRefresh.Upsert projects,
          d + tally CacheRefresh.Delete projects,
          s + tally CacheRefresh.Skip projects)%nat
         (set_cache (foldl cacheStep (cache w) projects) w).
Proof.
  induction projects as [|p projects IH]; intros u d s w Hty.
  - simpl. unfold ret, tally. simpl. rewrite !Nat.add_0_r. by destruct w.
  - inversion Hty as [|? ? Hp Hrest]; subst.
    simpl CacheRefresh.refreshLoop. unfold bind at 1.
    rewrite (classify_typed p w Hp). destruct Hp as [[o ->] _].
    unfold tally. simpl List.filter. simpl foldl. unfold cacheStep at 2.
    destruct (verdictOf (Obj o)) eqn:Hv; simpl verdictEqb; cbv iota.
    + unfold bind. simpl. rewrite IH by exact Hrest. unfold tally. simpl.
      rewrite ?Nat.add_succ_r. reflexivity.
    + rewrite IH by exact Hrest. unfold tally. simpl.
      rewrite ?Nat.add_succ_r. reflexivity.
    + unfold bind. simpl. rewrite IH by exact Hrest. unfold tally. simpl.
      rewrite ?Nat.add_succ_r. reflexivity.
Qed.

Lemma cacheStep_other c p k : cacheKey p <> k -> cacheStep c p !! k = c !! k.
Proof.
  intros H. unfold cacheStep. destruct (verdictOf p).
  - by rewrite lookup_delete_ne.
  - reflexivity.
  - by rewrite lookup_insert_ne.
Qed.

Lemma cacheSteps_other projects :
  forall c k, k ∉ (cacheKey <$> projects) -> foldl cacheStep c projects !! k = c !! k.
Proof.
  induction projects as [|p projects IH]; intros c k Hk; [reflexivity|].
  simpl. rewrite fmap_cons, not_elem_of_cons in Hk. destruct Hk as [Hne Hk].
  rewrite IH by exact Hk. apply cacheStep_other. congruence.
Qed.

Lemma cacheSteps_own projects :
  forall c p,
    NoDup (cacheKey <$> projects) -> p ∈ projects ->
    foldl cacheStep c projects !! cacheKey p
    = match verdictOf p with
      | CacheRefresh.Delete => None
      | CacheRefresh.Skip => c !! cacheKey p
      | CacheRefresh.Upsert => Some (spread p)
      end.
Proof.
  induction projects as [|q projects IH]; intros c p Hnd Hin; [by apply elem_of_nil in Hin|].
  rewrite fmap_cons in Hnd. apply NoDup_cons in Hnd as [Hq Hnd].
  simpl. apply elem_of_cons in Hin as [->|Hin].
  - rewrite cacheSteps_other by exact Hq.
    unfold cacheStep. destruct (verdictOf q).
    + apply lookup_delete_eq.
    + reflexivity.
    + apply lookup_insert_eq.
  - rewrite IH by assumption.
    destruct (verdictOf p); try reflexivity.
    apply cacheStep_other. intros Heq. apply Hq. rewrite Heq.
    apply list_elem_of_fmap. eauto.
Qed.

(** C5. One refresh cycle over the fetched project records counts and
    treats each of them by its classification: a status that equals
    "completed" up to letter case deletes the project's cache record and
    counts as deleted; otherwise a project with neither owner nor business
    ID leaves the cache as it is and counts as skipped; any other project
    is upserted and counts as updated. So a project whose status is
    "Completed" in any letter case is absent from the cache after the
    cycle, whether or not it was cached before. *)
Theorem refresh_classifies_each_project
    (src : Asana.source) (allProjects : list val) (w : world) :
  Asana.getAllActiveProjectsWithResponsable src = Asana.Returned allProjects ->
  Forall typed allProjects ->
  NoDup (cacheKey <$> allProjects) ->
  exists w',
    CacheRefresh.handler src w
    = Ok (CacheRefresh.Status200
            {| CacheRefresh.totalProjects := length allProjects;
               CacheRefresh.updated := tally CacheRefresh.Upsert allProjects;
               CacheRefresh.deleted := tally CacheRefresh.Delete allProjects;
               CacheRefresh.skipped := tally CacheRefresh.Skip allProjects |}) w'
    /\ (forall p, p ∈ allProjects ->
          match verdictOf p with
          | CacheRefresh.Delete => cache w' !! cacheKey p = None
          | CacheRefresh.Skip => cache w' !! cacheKey p = cache w !! cacheKey p
          | CacheRefresh.Upsert => cache w' !! cacheKey p = Some (spread p)
          end)
    /\ (forall p s, p ∈ allProjects -> prop p "status" = Str s ->
          toLowerCase s = "completed" -> cache w' !! cacheKey p = None).
Proof.
  intros Hsrc Hty Hnd.
  exists (set_cache (foldl cacheStep (cache w) allProjects) w).
  split; [|split].
  - unfold CacheRefresh.handler, try_catch, bind. rewrite Hsrc. simpl.
    rewrite (refreshLoop_typed allProjects 0 0 0 w Hty). reflexivity.
  - intros p Hp. simpl. rewrite (cacheSteps_own allProjects (cache w) p Hnd Hp).
    destruct (verdictOf p); reflexivity.
  - intros p s Hp Hs Hlow. simpl.
    rewrite (cacheSteps_own allProjects (cache w) p Hnd Hp).
    unfold verdictOf, statusLabel, equalIgnoringCase. rewrite Hs, Hlow. reflexivity.
Qed.

Lemma refresh_classifies_each_project_witness :
  exists w',
    CacheRefresh.handler sampleSource worldAlphaCached
    = Ok (CacheRefresh.Status200
            {| CacheRefresh.totalProjects := length sampleProjects;
               CacheRefresh.updated := tally CacheRefresh.Upsert sampleProjects;
               CacheRefresh.deleted := tally CacheRefresh.Delete sampleProjects;
               CacheRefresh.skipped := tally CacheRefresh.Skip sampleProjects |}) w'
    /\ (forall p, p ∈ sampleProjects ->
          match verdictOf p with
          | CacheRefresh.Delete => cache w' !! cacheKey p = None
          | CacheRefresh.Skip =>
              cache w' !! cacheKey p = cache worldAlphaCached !! cacheKey p
          | CacheRefresh.Upsert => cache w' !! cacheKey p = Some (spread p)
          end)
    /\ (forall p s, p ∈ sampleProjects -> prop p "status" = Str s ->
          toLowerCase s = "completed" -> cache w' !! cacheKey p = None).
Proof.
  apply (refresh_classifies_each_project sampleSource sampleProjects worldAlphaCached).
  - vm_compute; reflexivity.
  - repeat constructor; try (eexists; reflexivity);
      first [ left; vm_compute; reflexivity | right; eexists; vm_compute; reflexivity ].
  - vm_compute. repeat constructor; rewrite ?elem_of_cons, ?elem_of_nil;
      intuition discriminate.
Defined.

(** ** Refreshing twice (C6) *)

Lemma applyWrites_cons k v ws c :
  applyWrites ((k, v) :: ws) c
  = applyWrites ws (match v with Some x => <[k := x]> c | None => delete k c end).
Proof. reflexivity. Qed.

Lemma resolve_cons k k' v ws cur :
  resolve k ((k', v) :: ws) cur = resolve k ws (if decide (k' = k) then v else cur).
Proof. reflexivity. Qed.

Lemma applyWrites_lookup ws :
  forall c k, applyWrites ws c !! k = resolve k ws (c !! k).
Proof.
  induction ws as [|[k' v] ws IH]; intros c k; [reflexivity|].
  rewrite applyWrites_cons, resolve_cons, IH. f_equal.
  destruct (decide (k' = k)) as [->|Hne]; destruct v; simpl.
  - apply lookup_insert_eq.
  - apply lookup_delete_eq.
  - by apply lookup_insert_ne.
  - by apply lookup_delete_ne.
Qed.

Lemma resolve_cases k ws :
  (forall x, resolve k ws x = x) \/ (exists v, forall x, resolve k ws x = v).
Proof.
  induction ws as [|[k' v] ws IH]; [left; reflexivity|].
  destruct IH as [IH|[v' IH]].
  - destruct (decide (k' = k)) as [Heq|Hne].
    + right. exists v. intros x. rewrite resolve_cons, IH.
      destruct (decide (k' = k)); [reflexivity|contradiction].
    + left. intros x. rewrite resolve_cons, IH.
      destruct (decide (k' = k)); [contradiction|reflexivity].
  - right. exists v'. intros x. rewrite resolve_cons. apply IH.
Qed.

Lemma applyWrites_idempotent ws c : applyWrites ws (applyWrites ws c) = applyWrites ws c.
Proof.
  apply map_eq. intros k. rewrite !applyWrites_lookup.
  destruct (resolve_cases k ws) as [H|[v H]]; rewrite !H; reflexivity.
Qed.

Lemma classify_pure project :
  exists out, forall w, CacheRefresh.classify project w = finish out w.
Proof.
  unfold CacheRefresh.classify, bind.
  destruct (or_else (prop project "status") (Str EmptyString));
    try (exists (inr (Str "TypeError")); intros w; reflexivity).
  unfold ret. destruct (String.eqb _ _); [exists (inl CacheRefresh.Delete); reflexivity|].
  destruct (_ && _); [exists (inl CacheRefresh.Skip)|exists (inl CacheRefresh.Upsert)];
    reflexivity.
Qed.

Lemma refreshLoop_shape projects :
  forall u d s,
  exists ws out, forall w,
    CacheRefresh.refreshLoop projects u d s w
    = finish out (set_cache (applyWrites ws (cache w)) w).
Proof.
  induction projects as [|p projects IH]; intros u d s.
  - exists [], (inl (u, d, s)). intros w. by destruct w.
  - destruct (classify_pure p) as [[v|e] Hc].
    + destruct v.
      * destruct (IH u (S d) s) as (ws & out & H).
        exists ((to_string (prop p "gid"), None) :: ws), out. intros w.
        simpl. unfold bind. rewrite Hc. simpl. rewrite H. reflexivity.
      * destruct (IH u d (S s)) as (ws & out & H).
        exists ws, out. intros w.
        simpl. unfold bind. rewrite Hc. simpl. apply H.
      * destruct (IH (S u) d s) as (ws & out & H).
        exists ((to_string (get (spread p) "gid"), Some (spread p)) :: ws), out. intros w.
        simpl. unfold bind. rewrite Hc. simpl. rewrite H. reflexivity.
    + exists [], (inr e). intros w.
      simpl. unfold bind. rewrite Hc. by destruct w.
Qed.

Lemma handler_shape src :
  exists ws answer, forall w,
    CacheRefresh.handler src w = Ok answer (set_cache (applyWrites ws (cache w)) w).
Proof.
  unfold CacheRefresh.handler, try_catch, bind.
  destruct (Asana.getAllActiveProjectsWithResponsable src) as [l|e].
  - destruct (refreshLoop_shape l 0 0 0) as (ws & [c|e] & H).
    + eexists ws, _. intros w. simpl. rewrite H. reflexivity.
    + eexists ws, _. intros w. simpl. rewrite H. reflexivity.
  - exists [], (CacheRefresh.Status500 e). intros w. by destruct w.
Qed.

(** C6 (amended). Run twice in a row against the same source, the
    refresh gives the same answer both times, with the same counts
    (deleted included: a completed project of the source is counted by
    every run), and the second run leaves the cache, and the whole world,
    as the first run left it. *)
Theorem refresh_twice_same_answer_same_cache (src : Asana.source) (w : world) :
  exists answer w1,
    CacheRefresh.handler src w = Ok answer w1
    /\ CacheRefresh.handler src w1 = Ok answer w1.
Proof.
  destruct (handler_shape src) as (ws & answer & H).
  exists answer, (set_cache (applyWrites ws (cache w)) w).
  split; [apply H|].
  rewrite H. simpl. rewrite applyWrites_idempotent. reflexivity.
Qed.

(** C6 (counterexample). The sample source has a completed project: the
    first run reports one deletion, and so does the second. *)
Lemma second_refresh_counts_deleted_again :
  exists s w1 w2,
    CacheRefresh.handler sampleSource worldAlphaCached = Ok (CacheRefresh.Status200 s) w1
    /\ CacheRefresh.handler sampleSource w1 = Ok (CacheRefresh.Status200 s) w2
    /\ cache w2 = cache w1
    /\ CacheRefresh.deleted s = 1%nat
    /\ CacheRefresh.deleted s <> 0%nat.
Proof.
  eexists _, _, _.
  split; [vm_compute; reflexivity|].
  split; [vm_compute; reflexivity|].
  split; [vm_compute; reflexivity|].
  split; [reflexivity|discriminate].
Qed.

(** ** Retry with backoff (C7) *)




(** The batch loop runs through the whole list: every project is
    fetched on its own, and those that came back [null] are left out. *)
Lemma detailBatches_all src projectList :
  forall fuel i,
    (length projectList - i <= fuel)%nat ->
    Asana.detailBatches src fuel i projectList
    = List.filter Asana.notNull (Asana.projectWithDetail src <$> drop i projectList).
Proof.
  intros fuel. induction fuel as [|fuel IH]; intros i Hfuel.
  - simpl. rewrite drop_ge by lia. reflexivity.
  - simpl. destruct (Nat.ltb_spec i (length projectList)) as [Hi|Hi].
    + rewrite IH by (unfold Asana.BATCH_SIZE; lia).
      rewrite <- List.filter_app, <- fmap_app.
      rewrite <- drop_drop, take_drop. reflexivity.
    + rewrite drop_ge by lia. reflexivity.
Qed.




Example limitedTwice_delays :
  Asana.retryLoop limitedTwice 0 3 = ([1000; 7000]%Z, Asana.Returned (Str "detail")).
Proof. vm_compute. reflexivity. Qed.

Example always_limited_gives_up :
  Asana.retryLoop (fun _ => Asana.Thrown (Obj {[ "status" := Num 429 ]})) 0 3
  = ([1000; 2000; 4000]%Z, @Asana.Thrown val (Obj {[ "status" := Num 429 ]})).
Proof. vm_compute. reflexivity. Qed.

(** ** The scheduled outreach (C9) *)

Lemma lib_set_record now u patch w :
  get ((patch ∪ recordOf w u) ∪ {[ "pk" := Str ("CONV#" ++ to_string u) ]}) "pk"
  = Str ("CONV#" ++ to_string u) ->
  ConversationState.setConversationState now u patch w
  = Ok (merged now u patch (recordOf w u))
       (set_conversations
          (<["CONV#" ++ to_string u :=
               Dynamo.conversationItem now u (merged now u patch (recordOf w u))]>
             (conversations w)) w).
Proof.
  intros Hpk.
  unfold ConversationState.setConversationState, bind,
    ConversationState.getConversationState, Dynamo.getConversationState.
  assert (spread (or_else
                    match conversations w !! ("CONV#" ++ to_string u) with
                    | Some item => Obj item
                    | None => Null
                    end (Obj ∅)) = recordOf w u) as Hrec.
  { unfold recordOf. destruct (conversations w !! _); reflexivity. }
  destruct (conversations w !! ("CONV#" ++ to_string u)) eqn:Hlk;
    rewrite Hrec; fold (merged now u patch (recordOf w u));
    unfold Dynamo.setConversationState;
    (assert (get (Dynamo.conversationItem now u (merged now u patch (recordOf w u))) "pk"
             = Str ("CONV#" ++ to_string u)) as ->; [|reflexivity]);
    rewrite item_field by discriminate; exact Hpk.
Qed.



Lemma ordinal_shape v :
  (exists z, ScheduledPulse.parsePmoIdNumber v = ScheduledPulse.Finite z)
  \/ ScheduledPulse.parsePmoIdNumber v = ScheduledPulse.PosInfinity.
Proof.
  unfold ScheduledPulse.parsePmoIdNumber.
  destruct (negb (truthy v)); [right; reflexivity|].
  destruct (ScheduledPulse.firstDigits (to_string v)); eauto.
Qed.

Lemma positive_compare p q :
  ScheduledPulse.positive (ScheduledPulse.compareFn p q)
  = negb (ordinalLeb (ordinalOf p) (ordinalOf q)).
Proof.
  unfold ScheduledPulse.compareFn, ordinalOf.
  destruct (ordinal_shape (prop p "pmoId")) as [[x ->]| ->],
           (ordinal_shape (prop q "pmoId")) as [[y ->]| ->]; simpl; try reflexivity.
  destruct (Z.ltb_spec 0 (x - y)), (Z.leb_spec x y); simpl; try reflexivity; lia.
Qed.







Lemma read_storedState u w :
  ConversationState.getConversationState u w = Ok (storedState w u) w.
Proof.
  unfold ConversationState.getConversationState, Dynamo.getConversationState, storedState.
  destruct (conversations w !! _); reflexivity.
Qed.



Example pulsed_queue_order :
  ScheduledPulse.sort ScheduledPulse.compareFn
    (List.filter (keepb []) [alphaCached; betaCached])
  = [betaCached; alphaCached].
Proof. vm_compute. reflexivity. Qed.


(** ** The buttons of a prompt and the clicks they produce *)

Lemma split_underscore_nonempty s : SlackEvents.split_underscore s <> [].
Proof.
  destruct s as [|c r]; simpl; [discriminate|].
  destruct (Ascii.eqb c "_"); [discriminate|].
  destruct (SlackEvents.split_underscore r); discriminate.
Qed.

Lemma split_underscore_app a b :
  SlackEvents.split_underscore (a ++ String "_" b)
  = (SlackEvents.split_underscore a ++ SlackEvents.split_underscore b)%list.
Proof.
  induction a as [|c a IH]; simpl; [reflexivity|].
  destruct (Ascii.eqb c "_"); [by rewrite IH|].
  rewrite IH.
  destruct (SlackEvents.split_underscore a) as [|p ps] eqn:Hs; [|reflexivity].
  by destruct (split_underscore_nonempty a).
Qed.

Lemma split_underscore_head s :
  head (SlackEvents.split_underscore s) = Some (untilUnderscore s).
Proof.
  induction s as [|c r IH]; simpl; [reflexivity|].
  destruct (Ascii.eqb c "_"); [reflexivity|].
  destruct (SlackEvents.split_underscore r); simpl in *; congruence.
Qed.

Lemma untilUnderscore_whole s : hasUnderscore s = false -> untilUnderscore s = s.
Proof.
  induction s as [|c r IH]; simpl; [reflexivity|].
  destruct (Ascii.eqb c "_"); simpl; [discriminate|].
  intros H. by rewrite IH.
Qed.

Lemma action_id_parts kind gid tail :
  hasUnderscore kind = false ->
  SlackEvents.split_underscore (kind ++ String "_" (gid ++ String "_" tail))
  = (kind :: SlackEvents.split_underscore gid ++ SlackEvents.split_underscore tail)%list.
Proof.
  intros Hk. rewrite !split_underscore_app. f_equal.
  pose proof (split_underscore_head kind) as Hh.
  rewrite (untilUnderscore_whole _ Hk) in Hh.
  assert (length (SlackEvents.split_underscore kind) = 1%nat) as Hl.
  { clear Hh. induction kind as [|c r IH]; simpl; [reflexivity|].
    simpl in Hk. destruct (Ascii.eqb c "_"); [discriminate|].
    specialize (IH Hk). destruct (SlackEvents.split_underscore r) as [|p [|q qs]];
      simpl in *; congruence. }
  destruct (SlackEvents.split_underscore kind) as [|p [|q qs]]; simpl in *; congruence.
Qed.

(** X1. Every button of the prompt [getUpdateRequestBlocks] builds for a
    project is read back by the parse of [handleBlockActions]
    ([action_id.split('_')]) as a status button carrying one of the three
    statuses, or as a blockers button carrying yes or no, and the project
    identifier the parse extracts ([parts[1]]) is the project's identifier
    up to its first underscore: the identifier itself when it contains
    none. *)
Theorem prompt_buttons_parse_back (projectName projectGid : val) :
  Forall
    (fun b =>
       let parts := SlackEvents.split_underscore (Messages.button_action_id b) in
       parts !! 1%nat = Some (untilUnderscore (to_string projectGid))
       /\ ((parts !! 0%nat = Some "status"
            /\ Messages.button_value b ∈ ["on_track"; "at_risk"; "off_track"])
           \/ (parts !! 0%nat = Some "blockers"
               /\ Messages.button_value b ∈ ["yes"; "no"])))
    (Messages.getUpdateRequestBlocks projectName projectGid)
  /\ (hasUnderscore (to_string projectGid) = false ->
      untilUnderscore (to_string projectGid) = to_string projectGid).
Proof.
  split; [|apply untilUnderscore_whole].
  assert (forall kind tail,
            hasUnderscore kind = false ->
            let parts := SlackEvents.split_underscore
                           (kind ++ String "_" (to_string projectGid ++ String "_" tail)) in
            parts !! 0%nat = Some kind
            /\ parts !! 1%nat = Some (untilUnderscore (to_string projectGid))) as Hparts.
  { intros kind tail Hk. cbv zeta. rewrite (action_id_parts _ _ _ Hk).
    split; [reflexivity|]. simpl.
    pose proof (split_underscore_head (to_string projectGid)) as Hh.
    destruct (SlackEvents.split_underscore (to_string projectGid)); simpl in *;
      [discriminate|exact Hh]. }
  unfold Messages.getUpdateRequestBlocks.
  repeat apply List.Forall_cons; try apply List.Forall_nil; cbv zeta; cbn [Messages.button_action_id
    Messages.button_value].
  - destruct (Hparts "status" "on_track" eq_refl) as [H0 H1].
    split; [exact H1|left; split; [exact H0|repeat constructor]].
  - destruct (Hparts "status" "at_risk" eq_refl) as [H0 H1].
    split; [exact H1|left; split; [exact H0|repeat constructor]].
  - destruct (Hparts "status" "off_track" eq_refl) as [H0 H1].
    split; [exact H1|left; split; [exact H0|repeat constructor]].
  - destruct (Hparts "blockers" "yes" eq_refl) as [H0 H1].
    split; [exact H1|right; split; [exact H0|repeat constructor]].
  - destruct (Hparts "blockers" "no" eq_refl) as [H0 H1].
    split; [exact H1|right; split; [exact H0|repeat constructor]].
Qed.

(** ** The steps of a conversation *)

Lemma is_str_cases s v : {v = Str s} + {is_str s v = false}.
Proof.
  destruct (is_str s v) eqn:H; [left; by apply is_str_spec|right; reflexivity].
Qed.

(** X2. [getNextUpdateStep] never leads back to the first step: it
    answers awaiting_blockers, awaiting_advances or update_complete;
    update_complete is where it stays, and from any step whatever three
    applications arrive there. The step awaiting_blocker_description, which
    [isInUpdateFlow] counts as part of the flow, is outside the sequence
    and goes straight to update_complete. No state is at once in onboarding
    and in an update flow. *)
Theorem next_step_reaches_completion (currentStep state : val) :
  let next := ConversationSteps.getNextUpdateStep in
  (next currentStep = Str "awaiting_blockers"
   \/ next currentStep = Str "awaiting_advances"
   \/ next currentStep = Str "update_complete")
  /\ next (Str "update_complete") = Str "update_complete"
  /\ next (next (next currentStep)) = Str "update_complete"
  /\ (ConversationState.isInUpdateFlow
        (Obj {[ "step" := Str "awaiting_blocker_description" ]}) = true
      /\ next (Str "awaiting_blocker_description") = Str "update_complete")
  /\ ConversationSteps.isInOnboarding state && ConversationState.isInUpdateFlow state
     = false.
Proof.
  cbv zeta.
  assert (ConversationSteps.getNextUpdateStep currentStep = Str "awaiting_blockers"
          \/ ConversationSteps.getNextUpdateStep currentStep = Str "awaiting_advances"
          \/ ConversationSteps.getNextUpdateStep currentStep = Str "update_complete") as H.
  { unfold ConversationSteps.getNextUpdateStep, ConversationSteps.flow,
      ConversationSteps.indexOf.
    destruct (is_str "awaiting_status" currentStep); [left; reflexivity|].
    destruct (is_str "awaiting_blockers" currentStep); [right; left; reflexivity|].
    destruct (is_str "awaiting_advances" currentStep); [right; right; reflexivity|].
    destruct (is_str "update_complete" currentStep); right; right; reflexivity. }
  split; [exact H|]. split; [reflexivity|].
  split; [destruct H as [-> | [-> | ->]]; reflexivity|].
  split; [split; reflexivity|].
  unfold ConversationSteps.isInOnboarding, ConversationState.isInUpdateFlow.
  destruct (truthy state); [|reflexivity]. cbn [negb].
  destruct (is_str_cases "awaiting_email" (prop state "step")) as [-> | ->];
    [reflexivity|].
  destruct (is_str_cases "awaiting_timezone" (prop state "step")) as [-> | ->];
    reflexivity.
Qed.

(** ** Button clicks in the queued variant *)

Lemma lib_set_eq now u patch w :
  ConversationState.setConversationState now u patch w
  = let newState := merged now u patch (recordOf w u) in
    let item := Dynamo.conversationItem now u newState in
    match get item "pk" with
    | Str pk => Ok newState (set_conversations (<[pk := item]> (conversations w)) w)
    | _ => Throw (Str "ValidationException") w
    end.
Proof.
  unfold ConversationState.setConversationState, bind,
    ConversationState.getConversationState, Dynamo.getConversationState.
  assert (spread (or_else
                    match conversations w !! ("CONV#" ++ to_string u) with
                    | Some item => Obj item
                    | None => Null
                    end (Obj ∅)) = recordOf w u) as Hrec.
  { unfold recordOf. destruct (conversations w !! _); reflexivity. }
  destruct (conversations w !! ("CONV#" ++ to_string u)) eqn:Hlk;
    rewrite Hrec; fold (merged now u patch (recordOf w u));
    unfold Dynamo.setConversationState; cbv zeta;
    destruct (get (Dynamo.conversationItem now u (merged now u patch (recordOf w u))) "pk");
    reflexivity.
Qed.

Lemma find_gid_world g queue :
  forall w, world_of (SlackEvents.find_gid g queue w) = w.
Proof.
  induction queue as [|p rest IH]; intros w; [reflexivity|].
  cbn [SlackEvents.find_gid]. unfold bind.
  destruct p; cbn [member throw ret world_of]; try reflexivity;
    match goal with
    | |- context [if ?c then _ else _] => destruct c; [reflexivity|apply IH]
    end.
Qed.

(** What the status branch leaves behind: the world as it was, or one
    record written at step awaiting_blockers. *)
Lemma status_branch_writes now u patch w :
  get patch "step" = Str "awaiting_blockers" ->
  patch !! "step" = Some (Str "awaiting_blockers") ->
  let w' := world_of (ConversationState.setConversationState now u patch w) in
  w' = w
  \/ exists pk item,
       w' = set_conversations (<[pk := item]> (conversations w)) w
       /\ get item "step" = Str "awaiting_blockers".
Proof.
  intros Hg Hp. cbv zeta. rewrite lib_set_eq. cbv zeta.
  destruct (get (Dynamo.conversationItem now u (merged now u patch (recordOf w u))) "pk")
    eqn:Hpk; try (left; reflexivity).
  right. eexists _, _. split; [reflexivity|].
  rewrite item_field by discriminate. rewrite get_union_patch. by rewrite Hp.
Qed.

(** X3. In the queued variant of [handleBlockActions] the test for a
    blockers button comes twice, the first time with an empty body: a
    click on a blockers button changes nothing and sends nothing. So no
    click of any kind ever puts a conversation at step awaiting_advances: a
    record found there after a click was there, unchanged, before it. *)
Theorem queued_click_never_awaits_advances
    (now : Z) (payload : SlackEvents.block_action) (w : world) :
  let w' := world_of (SlackEvents.handleBlockActions now payload w) in
  (SlackEvents.split_underscore (SlackEvents.action_id payload) !! 0%nat = Some "blockers" ->
   SlackEvents.handleBlockActions now payload w = Ok tt w)
  /\ (forall k st,
        conversations w' !! k = Some st ->
        get st "step" = Str "awaiting_advances" ->
        conversations w !! k = Some st).
Proof.
  cbv zeta. split.
  { intros H. unfold SlackEvents.handleBlockActions.
    rewrite nth_lookup, H. reflexivity. }
  intros k st.
  unfold SlackEvents.handleBlockActions.
  destruct (String.eqb (nth 0 (SlackEvents.split_underscore (SlackEvents.action_id payload))
                          EmptyString) "status") eqn:Hstatus.
  - unfold bind at 1. rewrite read_storedState.
    set (u := SlackEvents.user_id payload).
    set (gid := match SlackEvents.split_underscore (SlackEvents.action_id payload) !! 1%nat with
                | Some g => Str g
                | None => Undefined
                end).
    set (resolving := match prop (storedState w u) "pendingProjects" with
                      | Arr ((_ :: _) as pendingProjects) => _
                      | _ => _
                      end).
    assert (world_of (resolving w) = w) as Hres.
    { subst resolving. destruct (prop (storedState w u) "pendingProjects") as [| | | | | |l|];
        try reflexivity.
      destruct l as [|p ps]; [reflexivity|].
      unfold bind. pose proof (find_gid_world gid (p :: ps) w) as Hw.
      destruct (SlackEvents.find_gid gid (p :: ps) w) as [found w1|e w1]; simpl in Hw;
        subst w1; [|reflexivity].
      destruct (truthy found); reflexivity. }
    unfold bind at 1.
    destruct (resolving w) as [resolved w1|e w1]; simpl in Hres; subst w1;
      [|simpl; tauto].
    unfold bind.
    match goal with
    | |- context [ConversationState.setConversationState now u ?patch w] =>
        destruct (status_branch_writes now u patch w) as [Hw | (pk & item & Hw & Hstep)];
          [reflexivity | reflexivity | | ];
          destruct (ConversationState.setConversationState now u patch w) as [a w1|e w1];
          simpl in Hw; subst w1; simpl; try tauto
    end.
    all: intros Hk Hadv;
      destruct (decide (pk = k)) as [->|Hne];
      [ rewrite lookup_insert_eq in Hk; injection Hk as <-; congruence
      | by rewrite lookup_insert_ne in Hk ].
  - destruct (String.eqb (nth 0 (SlackEvents.split_underscore (SlackEvents.action_id payload))
                            EmptyString) "blockers");
      [simpl; tauto|].
    destruct (String.eqb (nth 0 (SlackEvents.split_underscore (SlackEvents.action_id payload))
                            EmptyString) "timezone");
      simpl; tauto.
Qed.

(** A status click that finds no stored state: the record is rebuilt
    from the payload. *)
Lemma get_empty k : get (∅ : obj) k = Undefined.
Proof. reflexivity. Qed.

Lemma recordOf_none w u :
  conversations w !! ("CONV#" ++ to_string u) = None -> recordOf w u = ∅.
Proof. intros H. unfold recordOf. by rewrite H. Qed.

Lemma storedState_none w u :
  conversations w !! ("CONV#" ++ to_string u) = None -> storedState w u = Null.
Proof. intros H. unfold storedState. by rewrite H. Qed.

(** X4. A status click by a user of whom the store holds no conversation
    record (it expired, say) is not refused: [handleBlockActions] writes a
    record at step awaiting_blockers whose active project is the identifier
    parsed from the button, with the status of the click, no project name,
    no business ID and no queue, started at the instant of the click; it
    sends nothing and writes no update. *)
Theorem status_click_without_state
    (now : Z) (payload : SlackEvents.block_action) (g : string) (w : world) :
  let u := SlackEvents.user_id payload in
  SlackEvents.split_underscore (SlackEvents.action_id payload) !! 0%nat = Some "status" ->
  SlackEvents.split_underscore (SlackEvents.action_id payload) !! 1%nat = Some g ->
  conversations w !! ("CONV#" ++ to_string u) = None ->
  exists w' st',
    SlackEvents.handleBlockActions now payload w = Ok tt w'
    /\ stored w' u st'
    /\ get st' "step" = Str "awaiting_blockers"
    /\ get st' "currentProjectGid" = Str g
    /\ get st' "status" = SlackEvents.value payload
    /\ get st' "currentProjectName" = Null
    /\ get st' "currentProjectPmoId" = Null
    /\ get st' "pendingProjects" = Undefined
    /\ get st' "currentIndex" = Undefined
    /\ get st' "startedAt" = Iso now
    /\ get st' "lastPromptAt" = Iso now
    /\ outbox w' = outbox w
    /\ updates w' = updates w.
Proof.
  cbv zeta. intros H0 H1 Hnone.
  set (u := SlackEvents.user_id payload) in *.
  set (patch := statusPatch now g Null Null (SlackEvents.value payload)).
  assert (get ((patch ∪ recordOf w u) ∪ {[ "pk" := Str ("CONV#" ++ to_string u) ]}) "pk"
          = Str ("CONV#" ++ to_string u)) as Hpk.
  { rewrite (recordOf_none _ _ Hnone). rewrite get_union_patch.
    subst patch. unfold statusPatch. lookup_simpl.
    rewrite get_union_r by reflexivity. unfold get. by lookup_simpl. }
  exists (set_conversations
            (<["CONV#" ++ to_string u :=
                 Dynamo.conversationItem now u (merged now u patch (recordOf w u))]>
               (conversations w)) w),
         (Dynamo.conversationItem now u (merged now u patch (recordOf w u))).
  split.
  { unfold SlackEvents.handleBlockActions.
    rewrite nth_lookup, H0, H1. fold u. simpl.
    unfold bind at 1. rewrite read_storedState.
    rewrite (storedState_none _ _ Hnone).
    cbn [prop or_else truthy ret fst snd]. unfold bind at 1. cbn [ret fst snd].
    unfold bind.
    erewrite (lib_set_record now u _ w); [reflexivity|exact Hpk]. }
  split.
  { split; simpl; [by rewrite lookup_insert_eq|].
    rewrite item_field by discriminate. exact Hpk. }
  rewrite !item_field by discriminate.
  rewrite !get_union_patch. subst patch. unfold statusPatch. lookup_simpl.
  rewrite (recordOf_none _ _ Hnone).
  rewrite !get_union_r by reflexivity.
  repeat split; reflexivity.
Qed.

Lemma status_click_without_state_witness :
  exists w' st',
    SlackEvents.handleBlockActions 2000 clickOther emptyWorld = Ok tt w'
    /\ stored w' (Str "U1") st'
    /\ get st' "step" = Str "awaiting_blockers"
    /\ get st' "currentProjectGid" = Str "111"
    /\ get st' "status" = Str "at_risk"
    /\ get st' "currentProjectName" = Null
    /\ get st' "currentProjectPmoId" = Null
    /\ get st' "pendingProjects" = Undefined
    /\ get st' "currentIndex" = Undefined
    /\ get st' "startedAt" = Iso 2000
    /\ get st' "lastPromptAt" = Iso 2000
    /\ outbox w' = outbox emptyWorld
    /\ updates w' = updates emptyWorld.
Proof.
  apply (status_click_without_state 2000 clickOther "111" emptyWorld); reflexivity.
Defined.

(** ** Writing and clearing a conversation record *)

Lemma keyed_record w u (patch : obj) :
  keyedTable w -> patch !! "pk" = None ->
  get ((patch ∪ recordOf w u) ∪ {[ "pk" := Str ("CONV#" ++ to_string u) ]}) "pk"
  = Str ("CONV#" ++ to_string u).
Proof.
  intros Hk Hp. rewrite get_union_patch, Hp. unfold recordOf.
  destruct (conversations w !! ("CONV#" ++ to_string u)) as [st|] eqn:Hlk; simpl.
  - pose proof (Hk _ _ Hlk) as Hpk. rewrite get_union_l; [exact Hpk|].
    apply get_Str_lookup in Hpk. rewrite Hpk. eauto.
  - rewrite get_union_r by reflexivity. unfold get. by rewrite lookup_singleton_eq.
Qed.

Lemma keyed_insert w pk item :
  keyedTable w -> get item "pk" = Str pk ->
  keyedTable (set_conversations (<[pk := item]> (conversations w)) w).
Proof.
  intros Hk Hpk k st. simpl. destruct (decide (pk = k)) as [->|Hne].
  - rewrite lookup_insert_eq. by intros [= <-].
  - rewrite lookup_insert_ne by exact Hne. apply Hk.
Qed.

Lemma or_else_truthy a b : truthy b = true -> truthy (or_else a b) = true.
Proof. intros H. unfold or_else. by destruct (truthy a) eqn:Ha. Qed.

(** X5. [setConversationState] of the library merges: over a table whose
    records sit under their own keys, a write that does not name the key
    succeeds and stores, under the user's key, the fields of the patch
    over those of the stored record; fields the patch does not name
    survive, the user's identifier is set, and the start of the
    conversation is stamped once: a truthy [startedAt] already stored is
    kept, whatever the patch says. The records of the other users are not
    touched, and nothing is sent. *)
Theorem set_state_merges (now : Z) (u : val) (patch : obj) (w : world) :
  keyedTable w ->
  patch !! "pk" = None ->
  exists newState w',
    ConversationState.setConversationState now u patch w = Ok newState w'
    /\ stored w' u (Dynamo.conversationItem now u newState)
    /\ (forall k v, patch !! k = Some v -> k <> "slackUserId" -> k <> "startedAt" ->
          get newState k = v)
    /\ (forall k, patch !! k = None -> k <> "slackUserId" -> k <> "startedAt" ->
          get newState k = get (recordOf w u) k)
    /\ get newState "slackUserId" = u
    /\ get newState "startedAt" = or_else (get (recordOf w u) "startedAt") (Iso now)
    /\ truthy (get newState "startedAt") = true
    /\ (forall k, k <> "CONV#" ++ to_string u -> conversations w' !! k = conversations w !! k)
    /\ keyedTable w'
    /\ outbox w' = outbox w
    /\ updates w' = updates w.
Proof.
  intros Hk Hp.
  pose proof (keyed_record w u patch Hk Hp) as Hpk.
  eexists _, _. split; [exact (lib_set_record now u patch w Hpk)|].
  assert (get (Dynamo.conversationItem now u (merged now u patch (recordOf w u))) "pk"
          = Str ("CONV#" ++ to_string u)) as Hitem.
  { rewrite item_field by discriminate. exact Hpk. }
  split; [split; simpl; [by rewrite lookup_insert_eq|exact Hitem]|].
  split.
  { intros k v Hv H1 H2. unfold merged. rewrite !get_insert_ne by congruence.
    unfold get. by rewrite (lookup_union_Some_l _ _ _ _ Hv). }
  split.
  { intros k Hv H1 H2. unfold merged. rewrite !get_insert_ne by congruence.
    by rewrite get_union_r. }
  split; [unfold merged; by get_simpl|].
  split; [unfold merged; by get_simpl|].
  split; [unfold merged; get_simpl; by apply or_else_truthy|].
  split; [intros k Hne; simpl; by rewrite lookup_insert_ne|].
  split; [by apply keyed_insert|].
  split; reflexivity.
Qed.

Lemma keyedTable_twoQueued : keyedTable worldTwoQueued.
Proof.
  intros k st. unfold worldTwoQueued. simpl.
  destruct (decide (k = "CONV#U1")) as [->|Hne].
  - rewrite lookup_singleton_eq. by intros [= <-].
  - by rewrite lookup_singleton_ne.
Qed.

Lemma set_state_merges_witness :
  exists newState w',
    ConversationState.setConversationState 5000 (Str "U1") {[ "step" := Str "awaiting_blockers" ]}
      worldTwoQueued = Ok newState w'
    /\ stored w' (Str "U1") (Dynamo.conversationItem 5000 (Str "U1") newState)
    /\ (forall k v, ({[ "step" := Str "awaiting_blockers" ]} : obj) !! k = Some v ->
          k <> "slackUserId" -> k <> "startedAt" -> get newState k = v)
    /\ (forall k, ({[ "step" := Str "awaiting_blockers" ]} : obj) !! k = None ->
          k <> "slackUserId" -> k <> "startedAt" ->
          get newState k = get (recordOf worldTwoQueued (Str "U1")) k)
    /\ get newState "slackUserId" = Str "U1"
    /\ get newState "startedAt"
       = or_else (get (recordOf worldTwoQueued (Str "U1")) "startedAt") (Iso 5000)
    /\ truthy (get newState "startedAt") = true
    /\ (forall k, k <> "CONV#" ++ to_string (Str "U1") ->
          conversations w' !! k = conversations worldTwoQueued !! k)
    /\ keyedTable w'
    /\ outbox w' = outbox worldTwoQueued
    /\ updates w' = updates worldTwoQueued.
Proof.
  apply (set_state_merges 5000 (Str "U1") {[ "step" := Str "awaiting_blockers" ]}
           worldTwoQueued keyedTable_twoQueued).
  reflexivity.
Defined.

(** X6. [clearConversationState] does not delete the record: it
    overwrites it with a marker, so that a later read returns an object
    (truthy), not [null]. The marker is in no update flow and in no
    onboarding, names no project and carries no queue; the reminder sweep
    passes over it without a query, and the table stays keyed. Clearing
    never throws. *)
Theorem cleared_state_is_out_of_flow (now later : Z) (u : val) (w w2 : world) :
  let w' := world_of (ConversationState.clearConversationState now u w) in
  let marker := recordOf w' u in
  ConversationState.clearConversationState now u w = Ok tt w'
  /\ ConversationState.getConversationState u w' = Ok (Obj marker) w'
  /\ get marker "cleared" = Bool true
  /\ ConversationState.isInUpdateFlow (Obj marker) = false
  /\ ConversationSteps.isInOnboarding (Obj marker) = false
  /\ get marker "pendingProjects" = Undefined
  /\ get marker "currentProjectGid" = Undefined
  /\ get marker "expiresAt" = Num (now / 1000 + 3600)
  /\ Reminder.remind later marker w2 = Ok tt w2
  /\ (keyedTable w -> keyedTable w')
  /\ outbox w' = outbox w.
Proof.
  cbv zeta. unfold ConversationState.clearConversationState.
  rewrite clear_stores. cbn [world_of].
  assert (recordOf
            (set_conversations
               (<["CONV#" ++ to_string u :=
                    Dynamo.conversationItem now u {[ "cleared" := Bool true ]}]>
                  (conversations w)) w) u
          = Dynamo.conversationItem now u {[ "cleared" := Bool true ]}) as ->.
  { unfold recordOf. simpl. by rewrite lookup_insert_eq. }
  split; [reflexivity|].
  split.
  { unfold ConversationState.getConversationState, Dynamo.getConversationState.
    simpl. by rewrite lookup_insert_eq. }
  assert (forall k, k <> "expiresAt" -> k <> "updatedAt" -> k <> "cleared" -> k <> "pk" ->
            get (Dynamo.conversationItem now u {[ "cleared" := Bool true ]}) k = Undefined)
    as Hother.
  { intros k H1 H2 H3 H4. unfold Dynamo.conversationItem.
    rewrite !get_insert_ne by congruence. unfold get.
    rewrite lookup_union, !lookup_singleton_ne by congruence. reflexivity. }
  assert (get (Dynamo.conversationItem now u {[ "cleared" := Bool true ]}) "cleared"
          = Bool true) as Hc.
  { unfold Dynamo.conversationItem. get_simpl. by rewrite get_union_l by (by eexists). }
  split; [exact Hc|].
  split.
  { unfold ConversationState.isInUpdateFlow. cbn [truthy negb prop].
    rewrite Hother by discriminate. reflexivity. }
  split.
  { unfold ConversationSteps.isInOnboarding. cbn [truthy negb prop].
    rewrite Hother by discriminate. reflexivity. }
  split; [by apply Hother|]. split; [by apply Hother|].
  split; [apply conversationItem_expiry|].
  split.
  { unfold Reminder.remind. rewrite (Hother "slackUserId") by discriminate. reflexivity. }
  split; [|reflexivity].
  intros Hk. apply keyed_insert; [exact Hk|].
  unfold Dynamo.conversationItem. get_simpl.
  rewrite get_union_r by reflexivity. unfold get. by rewrite lookup_singleton_eq.
Qed.

(** ** The history of updates *)

Lemma put_sorted_elem sk item l p :
  p ∈ Dynamo.put_sorted sk item l -> p = (sk, item) \/ p ∈ l.
Proof.
  induction l as [|[sk' item'] rest IH]; simpl.
  - intros H. apply list_elem_of_singleton in H. by left.
  - destruct (sk' <? sk)%Z; [|destruct (sk' =? sk)%Z].
    + intros H. apply elem_of_cons in H as [->|H]; [by left|by right].
    + intros H. apply elem_of_cons in H as [->|H]; [by left|].
      right. by apply list_elem_of_further.
    + intros H. apply elem_of_cons in H as [->|H]; [right; by left|].
      destruct (IH H) as [->|H']; [by left|right; by apply list_elem_of_further].
Qed.

Lemma put_sorted_has sk item l : (sk, item) ∈ Dynamo.put_sorted sk item l.
Proof.
  induction l as [|[sk' item'] rest IH]; simpl; [by left|].
  destruct (sk' <? sk)%Z; [by left|]. destruct (sk' =? sk)%Z; [by left|].
  by apply list_elem_of_further.
Qed.

Lemma put_sorted_newestFirst sk item l :
  newestFirst l -> newestFirst (Dynamo.put_sorted sk item l).
Proof.
  unfold newestFirst. induction l as [|[sk' item'] rest IH]; simpl; intros Hs.
  - repeat constructor.
  - apply StronglySorted_inv in Hs as [Hrest Hall].
    destruct (sk' <? sk)%Z eqn:Hlt; [|destruct (sk' =? sk)%Z eqn:Heq].
    + apply Z.ltb_lt in Hlt. constructor; [by constructor|].
      constructor; [exact Hlt|].
      eapply Forall_impl; [exact Hall|]. simpl. intros p Hp. lia.
    + apply Z.eqb_eq in Heq. subst sk'. by constructor.
    + apply Z.ltb_ge in Hlt. apply Z.eqb_neq in Heq.
      constructor; [by apply IH|].
      apply Forall_forall. intros p Hp.
      destruct (put_sorted_elem _ _ _ _ Hp) as [->|Hin]; [simpl; lia|].
      rewrite Forall_forall in Hall. by apply Hall.
Qed.

Lemma saveUpdate_eq now (updateData : obj) w :
  exists item,
    Dynamo.saveUpdate now updateData w
    = Ok item
        (set_updates
           (<["PROJECT#" ++ to_string (get updateData "projectGid") :=
                Dynamo.put_sorted now item
                  (historyOf w (get updateData "projectGid"))]> (updates w)) w)
    /\ get item "pk" = Str ("PROJECT#" ++ to_string (get updateData "projectGid"))
    /\ get item "timestamp" = Iso now
    /\ get item "projectGid" = get updateData "projectGid"
    /\ get item "projectName" = get updateData "projectName"
    /\ get item "pmSlackId" = get updateData "pmSlackId"
    /\ get item "status" = get updateData "status"
    /\ get item "advances" = get updateData "advances"
    /\ get item "hasBlockers" = get updateData "hasBlockers"
    /\ get item "blockerDescription" = or_else (get updateData "blockerDescription") Null.
Proof.
  eexists. split; [reflexivity|].
  repeat split; unfold get at 1; by lookup_simpl.
Qed.

Lemma take_stampsDecrease l :
  forall n,
    newestFirst l ->
    Forall (fun p => get (snd p) "timestamp" = Iso (fst p)) l ->
    stampsDecrease (take n ((fun p => Obj (snd p)) <$> l)).
Proof.
  unfold newestFirst, stampsDecrease.
  induction l as [|p rest IH]; intros n Hs Hst.
  - destruct n; constructor.
  - destruct n; [constructor|]. simpl.
    apply StronglySorted_inv in Hs as [Hrest Hall].
    apply Forall_cons in Hst as [Hp Hst].
    constructor; [by apply IH|].
    apply Forall_forall. intros x Hx.
    apply elem_of_take in Hx as (i & Hx & _).
    apply list_lookup_fmap_Some in Hx as (q & -> & Hq).
    exists (fst p), (fst q). simpl.
    rewrite Forall_forall in Hst, Hall.
    pose proof (list_elem_of_lookup_2 _ _ _ Hq) as Hin.
    repeat split; [exact Hp|by apply Hst|by apply Hall].
Qed.

(** X7. The table of updates keeps every project's history newest
    first, one item per instant, each item stamped with the instant it is
    stored under: [saveUpdate] preserves this, and over such a table
    [getLastUpdates(projectGid, limit)] answers at most [limit] updates,
    all of that project, their timestamps strictly decreasing. *)
Theorem history_stays_newest_first
    (now : Z) (updateData : obj) (projectGid : val) (limit : nat) (w : world) :
  historyOrdered w ->
  historyOrdered (world_of (Dynamo.saveUpdate now updateData w))
  /\ forall items w',
       Dynamo.getLastUpdates projectGid limit w = Ok items w' ->
       w' = w
       /\ (length items <= limit)%nat
       /\ stampsDecrease items
       /\ Forall (fun i => prop i "pk" = Str ("PROJECT#" ++ to_string projectGid)) items.
Proof.
  intros Hw. split.
  - destruct (saveUpdate_eq now updateData w) as (item & -> & Hpk & Hts & _).
    cbn [world_of]. intros pk l. simpl.
    destruct (decide ("PROJECT#" ++ to_string (get updateData "projectGid") = pk))
      as [<-|Hne].
    + rewrite lookup_insert_eq. intros [= <-].
      assert (newestFirst (historyOf w (get updateData "projectGid"))
              /\ Forall (fun p => get (snd p) "timestamp" = Iso (fst p)
                                  /\ get (snd p) "pk"
                                     = Str ("PROJECT#" ++ to_string (get updateData "projectGid")))
                   (historyOf w (get updateData "projectGid"))) as [Hs Hst].
      { unfold historyOf.
        destruct (updates w !! ("PROJECT#" ++ to_string (get updateData "projectGid")))
          as [l|] eqn:Hl; simpl; [by apply Hw|].
        split; constructor. }
      split; [by apply put_sorted_newestFirst|].
      apply Forall_forall. intros p Hp.
      destruct (put_sorted_elem _ _ _ _ Hp) as [->|Hin]; [by split|].
      rewrite Forall_forall in Hst. by apply Hst.
    + rewrite lookup_insert_ne by exact Hne. apply Hw.
  - intros items w'. unfold Dynamo.getLastUpdates.
    destruct (decide _); [discriminate|]. intros [= <- <-].
    split; [reflexivity|].
    assert (newestFirst (historyOf w projectGid)
            /\ Forall (fun p => get (snd p) "timestamp" = Iso (fst p)
                                /\ get (snd p) "pk" = Str ("PROJECT#" ++ to_string projectGid))
                 (historyOf w projectGid)) as [Hs Hst].
    { unfold historyOf.
      destruct (updates w !! ("PROJECT#" ++ to_string projectGid)) as [l|] eqn:Hl;
        simpl; [by apply Hw|].
      split; constructor. }
    fold (historyOf w projectGid).
    split; [rewrite length_take; lia|].
    split.
    { apply take_stampsDecrease; [exact Hs|].
      eapply Forall_impl; [exact Hst|]. simpl. tauto. }
    apply Forall_forall. intros x Hx.
    apply elem_of_take in Hx as (i & Hx & _).
    apply list_lookup_fmap_Some in Hx as (q & -> & Hq).
    rewrite Forall_forall in Hst. simpl.
    apply (Hst q). by eapply list_elem_of_lookup_2.
Qed.

Lemma historyOrdered_empty : historyOrdered emptyWorld.
Proof. intros pk l. simpl. by rewrite lookup_empty. Qed.

Lemma history_stays_newest_first_witness :
  let first := {[ "projectGid" := Str "111"; "status" := Str "at_risk" ]} in
  let w1 := world_of (Dynamo.saveUpdate 5000 first emptyWorld) in
  historyOrdered
    (world_of (Dynamo.saveUpdate 9000 {[ "projectGid" := Str "111";
                                         "status" := Str "on_track" ]} w1))
  /\ forall items w',
       Dynamo.getLastUpdates (Str "111") 2 w1 = Ok items w' ->
       w' = w1
       /\ (length items <= 2)%nat
       /\ stampsDecrease items
       /\ Forall (fun i => prop i "pk" = Str ("PROJECT#" ++ to_string (Str "111"))) items.
Proof.
  intros first w1.
  apply (history_stays_newest_first 9000 {[ "projectGid" := Str "111";
                                            "status" := Str "on_track" ]}
           (Str "111") 2 w1).
  apply (history_stays_newest_first 5000 first (Str "111") 2 emptyWorld
           historyOrdered_empty).
Defined.

Lemma put_sorted_same sk item old rest :
  Dynamo.put_sorted sk item ((sk, old) :: rest) = (sk, item) :: rest.
Proof. simpl. rewrite Z.ltb_irrefl, Z.eqb_refl. reflexivity. Qed.

(** X8. An update saved at an instant later than every stored one of its
    project is what [getLastUpdates] answers first from then on, with the
    status, narrative, blocker flag, project name and author it was saved
    with (a missing blocker description stored as [null]), the earlier
    updates following it; the histories of the other projects are what
    they were. An update saved at the very instant of the newest stored one
    takes its place: the table holds one item per project and instant. *)
Theorem saved_update_is_read_back
    (now : Z) (updateData : obj) (n : nat) (w : world) :
  let projectGid := get updateData "projectGid" in
  "PROJECT#" ++ to_string projectGid ∉ unavailable w ->
  Forall (fun p => (fst p < now)%Z) (historyOf w projectGid) ->
  exists item w',
    Dynamo.saveUpdate now updateData w = Ok item w'
    /\ Dynamo.getLastUpdates projectGid (S n) w'
       = Ok (Obj item :: take n ((fun p => Obj (snd p)) <$> historyOf w projectGid)) w'
    /\ get item "status" = get updateData "status"
    /\ get item "advances" = get updateData "advances"
    /\ get item "hasBlockers" = get updateData "hasBlockers"
    /\ get item "projectName" = get updateData "projectName"
    /\ get item "pmSlackId" = get updateData "pmSlackId"
    /\ get item "blockerDescription" = or_else (get updateData "blockerDescription") Null
    /\ get item "timestamp" = Iso now
    /\ (forall other,
          "PROJECT#" ++ to_string other <> "PROJECT#" ++ to_string projectGid ->
          historyOf w' other = historyOf w other)
    /\ (forall again item2 w2,
          get again "projectGid" = projectGid ->
          Dynamo.saveUpdate now again w' = Ok item2 w2 ->
          historyOf w2 projectGid = (now, item2) :: historyOf w projectGid)
    /\ conversations w' = conversations w
    /\ outbox w' = outbox w.
Proof.
  cbv zeta. intros Hav Hnew.
  destruct (saveUpdate_eq now updateData w)
    as (item & Heq & Hpk & Hts & Hgid & Hname & Hpm & Hstatus & Hadv & Hb & Hdesc).
  eexists item, _. split; [exact Heq|].
  rewrite (put_sorted_newest _ _ _ Hnew).
  split.
  { unfold Dynamo.getLastUpdates. cbn [unavailable set_updates updates].
    destruct (decide _) as [Hin|_]; [by destruct (Hav Hin)|].
    rewrite lookup_insert_eq. reflexivity. }
  repeat (split; [assumption|]).
  split.
  { intros other Hne. unfold historyOf. cbn [updates set_updates].
    by rewrite lookup_insert_ne. }
  split; [|split; reflexivity].
  intros again item2 w2 Hg Hsave.
  destruct (saveUpdate_eq now again (set_updates
              (<["PROJECT#" ++ to_string (get updateData "projectGid") :=
                   (now, item) :: historyOf w (get updateData "projectGid")]> (updates w)) w))
    as (item2' & Heq2 & _).
  rewrite Heq2 in Hsave. injection Hsave as <- <-.
  rewrite Hg. unfold historyOf at 1 2. cbn [updates set_updates].
  rewrite !lookup_insert_eq. cbn [default].
  apply put_sorted_same.
Qed.

Lemma saved_update_is_read_back_witness :
  let updateData : obj :=
    {[ "projectGid" := Str "111"; "projectName" := Str "Alpha"; "pmSlackId" := Str "U1";
       "status" := Str "on_track"; "advances" := Str "entregado";
       "hasBlockers" := Bool false ]} in
  let w := world_of (SlackEvents.handleAdvancesText 5000 (Str "U1") "retrasos menores"
                       worldFirstReport) in
  exists item w',
    Dynamo.saveUpdate 9000 updateData w = Ok item w'
    /\ Dynamo.getLastUpdates (Str "111") 2 w'
       = Ok (Obj item :: take 1 ((fun p => Obj (snd p)) <$> historyOf w (Str "111"))) w'
    /\ get item "status" = Str "on_track"
    /\ get item "advances" = Str "entregado"
    /\ get item "hasBlockers" = Bool false
    /\ get item "projectName" = Str "Alpha"
    /\ get item "pmSlackId" = Str "U1"
    /\ get item "blockerDescription" = Null
    /\ get item "timestamp" = Iso 9000
    /\ (forall other,
          "PROJECT#" ++ to_string other <> "PROJECT#" ++ to_string (Str "111") ->
          historyOf w' other = historyOf w other)
    /\ (forall again item2 w2,
          get again "projectGid" = Str "111" ->
          Dynamo.saveUpdate 9000 again w' = Ok item2 w2 ->
          historyOf w2 (Str "111") = (9000%Z, item2) :: historyOf w (Str "111"))
    /\ conversations w' = conversations w
    /\ outbox w' = outbox w.
Proof.
  intros updateData w.
  apply (saved_update_is_read_back 9000 updateData 1 w).
  - vm_compute. intros H. inversion H.
  - vm_compute. repeat constructor.
Defined.

Lemma updatedToday_elem now w g :
  g ∈ match Dynamo.getProjectsUpdatedToday now w with Ok l _ => l | Throw _ _ => [] end
  <-> exists pk l p,
        updates w !! pk = Some l /\ p ∈ l
        /\ Dynamo.utc_day (fst p) = Dynamo.utc_day now
        /\ g = get (snd p) "projectGid".
Proof.
  unfold Dynamo.getProjectsUpdatedToday. cbv zeta.
  rewrite list_elem_of_fmap. split.
  - intros (p & -> & Hp). apply list_elem_of_filter in Hp as [Hday Hp].
    apply list_elem_of_join in Hp as (l & Hp & Hl).
    apply list_elem_of_fmap in Hl as ([pk l'] & -> & Hl).
    apply elem_of_map_to_list in Hl. by exists pk, l', p.
  - intros (pk & l & p & Hl & Hp & Hday & ->). exists p. split; [reflexivity|].
    apply list_elem_of_filter. split; [exact Hday|].
    apply list_elem_of_join. exists l. split; [exact Hp|].
    apply list_elem_of_fmap. exists (pk, l). split; [reflexivity|].
    by apply elem_of_map_to_list.
Qed.

Lemma existsb_elem (f : val -> bool) l x : x ∈ l -> f x = true -> existsb f l = true.
Proof.
  intros Hx Hf. apply existsb_exists. exists x. split; [|exact Hf].
  by apply list_elem_of_In.
Qed.

(** X9. [getProjectsUpdatedToday] never throws and lists exactly the
    project identifiers of the items stored under a sort key of today's
    UTC date. So a project whose update was saved earlier the same UTC day
    is listed, and the filter of the scheduled pulse then drops every
    cached project with that identifier; an item of another UTC day does
    not make its project listed. *)
Theorem saved_project_is_updated_today
    (now later : Z) (updateData : obj) (w : world) :
  let w' := world_of (Dynamo.saveUpdate now updateData w) in
  exists updatedToday,
    Dynamo.getProjectsUpdatedToday later w' = Ok updatedToday w'
    /\ (forall g,
          g ∈ updatedToday
          <-> exists pk l p,
                updates w' !! pk = Some l /\ p ∈ l
                /\ Dynamo.utc_day (fst p) = Dynamo.utc_day later
                /\ g = get (snd p) "projectGid")
    /\ (Dynamo.utc_day later = Dynamo.utc_day now ->
        get updateData "projectGid" ∈ updatedToday
        /\ forall project,
             strict_eq (prop project "gid") (get updateData "projectGid") = true ->
             keepb updatedToday project = false).
Proof.
  cbv zeta.
  pose proof (updatedToday_elem later (world_of (Dynamo.saveUpdate now updateData w)))
    as Helem.
  destruct (Dynamo.getProjectsUpdatedToday later
              (world_of (Dynamo.saveUpdate now updateData w))) as [l w1|e w1] eqn:Hget;
    [|discriminate].
  assert (w1 = world_of (Dynamo.saveUpdate now updateData w)) as ->.
  { unfold Dynamo.getProjectsUpdatedToday in Hget. by injection Hget as _ <-. }
  exists l. split; [reflexivity|]. split; [exact Helem|].
  intros Hday.
  assert (get updateData "projectGid" ∈ l) as Hin.
  { apply Helem.
    destruct (saveUpdate_eq now updateData w) as (item & -> & _ & _ & Hgid & _).
    cbn [world_of updates set_updates].
    eexists _, _, (now, item). rewrite lookup_insert_eq.
    split; [reflexivity|]. split; [apply put_sorted_has|].
    split; [by symmetry|by symmetry]. }
  split; [exact Hin|].
  intros project Hp. unfold keepb.
  rewrite (existsb_elem _ _ _ Hin Hp). apply andb_false_r.
Qed.

(** ** The reminder sweep, state by state *)

Lemma remind_skips now (state : obj) w :
  truthy (get state "slackUserId") = false
  \/ truthy (get state "currentProjectGid") = false
  \/ (exists t, get state "snoozeUntil" = Iso t /\ (now < t)%Z)
  \/ truthy (get state "lastPromptAt") = false
  \/ (exists t, get state "lastPromptAt" = Iso t /\ (now - t < 3600000)%Z) ->
  Reminder.remind now state w = Ok tt w.
Proof.
  intros H. unfold Reminder.remind.
  destruct (truthy (get state "slackUserId")) eqn:Hu; [|reflexivity].
  destruct (truthy (get state "currentProjectGid")) eqn:Hg; [|reflexivity].
  cbn [negb orb].
  destruct H as [H|[H|[(t & Ht & Hlt)|H]]]; try discriminate.
  { rewrite Ht. cbn [truthy date_of andb].
    apply Z.ltb_lt in Hlt. rewrite Hlt. reflexivity. }
  match goal with
  | |- (if ?c then _ else _) w = _ => destruct c; [reflexivity|]
  end.
  destruct H as [H|(t & Ht & Hlt)].
  { rewrite H. reflexivity. }
  rewrite Ht. cbn [truthy negb date_of].
  change (60 * 60 * 1000)%Z with 3600000%Z.
  apply Z.ltb_lt in Hlt. rewrite Hlt. reflexivity.
Qed.

(** X10. The reminder passes over a state without a word and without a
    query to the store (so also while the store is failing) when the state
    names no user or no active project, when its snooze has not run out,
    when it was never prompted, or when the last prompt is less than an
    hour old. *)
Theorem reminder_passes_over_quiet_states (now : Z) (state : obj) (w : world) :
  truthy (get state "slackUserId") = false
  \/ truthy (get state "currentProjectGid") = false
  \/ (exists t, get state "snoozeUntil" = Iso t /\ (now < t)%Z)
  \/ truthy (get state "lastPromptAt") = false
  \/ (exists t, get state "lastPromptAt" = Iso t /\ (now - t < 3600000)%Z) ->
  Reminder.remind now state w = Ok tt w.
Proof. apply remind_skips. Qed.

Lemma reminder_passes_over_quiet_states_witness :
  Reminder.remind 3000000 (staleStatus "U1" "111" "Alpha") (worldTwoStale {[ "PROJECT#111" ]})
  = Ok tt (worldTwoStale {[ "PROJECT#111" ]}).
Proof.
  apply (reminder_passes_over_quiet_states 3000000 (staleStatus "U1" "111" "Alpha")
           (worldTwoStale {[ "PROJECT#111" ]})).
  right; right; right; right. exists 0%Z. split; [reflexivity|lia].
Defined.

Lemma remind_due now (st : obj) t w :
  truthy (get st "slackUserId") = true ->
  truthy (get st "currentProjectGid") = true ->
  notSnoozed st now ->
  get st "lastPromptAt" = Iso t ->
  (3600000 <= now - t)%Z ->
  "PROJECT#" ++ to_string (get st "currentProjectGid") ∉ unavailable w ->
  Reminder.remind now st w
  = (let stamp :=
       prop (nth 0 (take 1 ((fun p => Obj (snd p))
                              <$> historyOf w (get st "currentProjectGid"))) Undefined)
         "timestamp" in
     if truthy stamp
        && match date_of stamp with Some s => (t <? s)%Z | None => false end
     then SlackEvents.advanceOrClear now (get st "slackUserId") st ;;; ret tt
     else
       (if is_str "awaiting_status" (get st "step") then
          send (SendUpdateRequest (get st "slackUserId")
                  (or_else (get st "currentProjectName") (Str "Proyecto"))
                  (get st "currentProjectGid"))
        else if is_str "awaiting_blockers" (get st "step") then
          send (SendMessage (get st "slackUserId")
                  (ReminderBlockers
                     (or_else (get st "currentProjectName") (Str "el proyecto"))))
        else if is_str "awaiting_advances" (get st "step") then
          send (SendMessage (get st "slackUserId")
                  (ReminderAdvances
                     (or_else (get st "currentProjectName") (Str "el proyecto"))))
        else ret tt) ;;;
       ConversationState.setConversationState now (get st "slackUserId")
         (SlackEvents.overlay st [ ("lastPromptAt", Iso now) ]) ;;;
       ret tt) w.
Proof.
  intros Hu Hg Hsn Ht Hold Hav. unfold Reminder.remind.
  rewrite Hu, Hg. cbn [negb orb].
  assert (truthy (get st "snoozeUntil")
          && match date_of (get st "snoozeUntil") with
             | Some t0 => (now <? t0)%Z
             | None => false
             end = false) as ->.
  { destruct Hsn as [->|(s & -> & Hs)]; [reflexivity|].
    cbn [truthy date_of andb]. apply Z.ltb_ge. exact Hs. }
  rewrite Ht. cbn [truthy negb date_of].
  change (60 * 60 * 1000)%Z with 3600000%Z.
  assert ((now - t <? 3600000)%Z = false) as -> by (apply Z.ltb_ge; exact Hold).
  unfold bind at 1. unfold Dynamo.getLastUpdates.
  destruct (decide _) as [Hin|_]; [by destruct (Hav Hin)|].
  fold (historyOf w (get st "currentProjectGid")).
  reflexivity.
Qed.

Lemma stamp_of_history w g :
  prop (nth 0 (take 1 ((fun p => Obj (snd p)) <$> historyOf w g)) Undefined) "timestamp"
  = match head (historyOf w g) with
    | Some p => get (snd p) "timestamp"
    | None => Undefined
    end.
Proof. destruct (historyOf w g) as [|p rest]; reflexivity. Qed.

Lemma refreshed_pk now (st : obj) u :
  get st "pk" = Str ("CONV#" ++ to_string u) ->
  get (SlackEvents.overlay st [ ("lastPromptAt", Iso now) ] ∪ st) "pk"
  = Str ("CONV#" ++ to_string u).
Proof.
  intros Hpk. rewrite overlay_union_self. unfold SlackEvents.overlay. simpl.
  by get_simpl.
Qed.

Lemma send_eq e w : send e w = Ok tt (set_outbox (outbox w ++ [e]) w).
Proof. reflexivity. Qed.

(** X11. A state that is due (last prompted an hour or more ago, not
    snoozed, its project without a newer update) gets the reminder of its
    step exactly once: the interactive prompt at awaiting_status, a text at
    awaiting_blockers and awaiting_advances, nothing at any other step; its
    record is rewritten with the last prompt moved to the instant of the
    sweep and every conversation field kept, so that a second sweep within
    the hour passes over it. *)
Theorem due_state_is_reminded_once (now t : Z) (u : val) (st : obj) (w : world) :
  stored w u st ->
  get st "slackUserId" = u ->
  truthy u = true ->
  truthy (get st "currentProjectGid") = true ->
  notSnoozed st now ->
  get st "lastPromptAt" = Iso t ->
  (3600000 <= now - t)%Z ->
  "PROJECT#" ++ to_string (get st "currentProjectGid") ∉ unavailable w ->
  noUpdateSince w (get st "currentProjectGid") t ->
  exists w' st',
    Reminder.remind now st w = Ok tt w'
    /\ outbox w' = (outbox w ++ reminderFor st)%list
    /\ stored w' u st'
    /\ get st' "lastPromptAt" = Iso now
    /\ (forall k, k <> "lastPromptAt" -> k <> "expiresAt" -> k <> "updatedAt" ->
          k <> "startedAt" -> get st' k = get st k)
    /\ updates w' = updates w
    /\ (forall later w2, (later - now < 3600000)%Z -> Reminder.remind later st' w2 = Ok tt w2).
Proof.
  intros Hst Hu Htr Hg Hsn Ht Hold Hav Hno.
  set (patch := SlackEvents.overlay st [ ("lastPromptAt", Iso now) ]).
  pose proof (refreshed_pk now st u (proj2 Hst)) as Hpk. fold patch in Hpk.
  set (item := Dynamo.conversationItem now u (merged now u patch st)).
  assert (forall k, k <> "expiresAt" -> k <> "updatedAt" -> k <> "startedAt" ->
            get item k = if decide (k = "lastPromptAt") then Iso now else get st k)
    as Hfield.
  { intros k H1 H2 H3. subst item.
    destruct (decide (k = "slackUserId")) as [->|H4].
    - unfold Dynamo.conversationItem, merged. get_simpl.
      rewrite get_union_l; [get_simpl; by rewrite Hu|].
      rewrite lookup_insert_ne by discriminate. rewrite lookup_insert_eq. eauto.
    - rewrite item_field by assumption. rewrite get_union_patch.
      subst patch. unfold SlackEvents.overlay. simpl.
      destruct (decide (k = "lastPromptAt")) as [->|Hne].
      + by rewrite lookup_insert_eq.
      + rewrite lookup_insert_ne by congruence.
        destruct (st !! k) as [v|] eqn:Hk; [unfold get; by rewrite Hk|].
        rewrite get_union_r by exact Hk.
        unfold get. rewrite Hk.
        destruct (decide (k = "pk")) as [->|Hpkne].
        * destruct Hst as [_ Hp]. apply get_Str_lookup in Hp. congruence.
        * by rewrite lookup_singleton_ne. }
  exists (set_conversations (<["CONV#" ++ to_string u := item]> (conversations w))
            (set_outbox (outbox w ++ reminderFor st)%list w)), item.
  split.
  { rewrite (remind_due now st t w) by (rewrite ?Hu; assumption).
    cbv zeta. rewrite stamp_of_history.
    assert (truthy match head (historyOf w (get st "currentProjectGid")) with
                   | Some p => get (snd p) "timestamp"
                   | None => Undefined
                   end
            && match date_of match head (historyOf w (get st "currentProjectGid")) with
                             | Some p => get (snd p) "timestamp"
                             | None => Undefined
                             end with
               | Some s => (t <? s)%Z
               | None => false
               end = false) as ->.
    { destruct (head (historyOf w (get st "currentProjectGid"))) as [p|] eqn:Hh;
        [|reflexivity].
      destruct (Hno p Hh) as (s & -> & Hs). cbn [truthy date_of andb].
      apply Z.ltb_ge. exact Hs. }
    rewrite Hu. unfold reminderFor. rewrite Hu.
    assert (forall w1, conversations w1 = conversations w ->
              (ConversationState.setConversationState now u patch ;;; ret tt) w1
              = Ok tt (set_conversations
                         (<["CONV#" ++ to_string u := item]> (conversations w1)) w1))
      as Hset.
    { intros w1 Hc. unfold bind.
      erewrite (lib_set_stored now u patch w1 st); [reflexivity| |exact Hpk].
      destruct Hst as [Hl Hp]. split; [by rewrite Hc|exact Hp]. }
    fold patch.
    destruct (is_str "awaiting_status" (get st "step")).
    { unfold bind at 1. rewrite send_eq. rewrite Hset by reflexivity. reflexivity. }
    destruct (is_str "awaiting_blockers" (get st "step")).
    { unfold bind at 1. rewrite send_eq. rewrite Hset by reflexivity. reflexivity. }
    destruct (is_str "awaiting_advances" (get st "step")).
    { unfold bind at 1. rewrite send_eq. rewrite Hset by reflexivity. reflexivity. }
    unfold bind at 1. cbn [ret]. rewrite Hset by reflexivity.
    rewrite app_nil_r. by destruct w. }
  split; [reflexivity|].
  split.
  { split; simpl; [by rewrite lookup_insert_eq|].
    rewrite Hfield by discriminate. rewrite decide_False by discriminate. apply Hst. }
  split; [rewrite Hfield by discriminate; by rewrite decide_True|].
  split.
  { intros k H1 H2 H3 H4. rewrite Hfield by assumption. by rewrite decide_False. }
  split; [reflexivity|].
  intros later w2 Hlater. apply remind_skips.
  right; right; right; right. exists now. split; [|exact Hlater].
  rewrite Hfield by discriminate. by rewrite decide_True.
Qed.

Lemma due_state_is_reminded_once_witness :
  exists w' st',
    Reminder.remind 7200000 (staleStatus "U1" "111" "Alpha") (worldTwoStale ∅) = Ok tt w'
    /\ outbox w'
       = (outbox (worldTwoStale ∅) ++ reminderFor (staleStatus "U1" "111" "Alpha"))%list
    /\ stored w' (Str "U1") st'
    /\ get st' "lastPromptAt" = Iso 7200000
    /\ (forall k, k <> "lastPromptAt" -> k <> "expiresAt" -> k <> "updatedAt" ->
          k <> "startedAt" -> get st' k = get (staleStatus "U1" "111" "Alpha") k)
    /\ updates w' = updates (worldTwoStale ∅)
    /\ (forall later w2, (later - 7200000 < 3600000)%Z ->
          Reminder.remind later st' w2 = Ok tt w2).
Proof.
  apply (due_state_is_reminded_once 7200000 0 (Str "U1") (staleStatus "U1" "111" "Alpha")
           (worldTwoStale ∅)).
  - split; reflexivity.
  - reflexivity.
  - reflexivity.
  - reflexivity.
  - left. reflexivity.
  - reflexivity.
  - lia.
  - vm_compute. intros H. inversion H.
  - intros p Hp. vm_compute in Hp. discriminate.
Defined.

(** X12. When the active project of a due state has received an update
    after the last prompt (reported by another way), the reminder does not
    insist: it moves the conversation to the next project of the queue and
    prompts for that one, or, the queue being exhausted, overwrites the
    record with the cleared marker and sends nothing. *)
Theorem updated_elsewhere_moves_on
    (now t s i : Z) (u : val) (st : obj) (queue : list val) (p : Z * obj) (w : world) :
  stored w u st ->
  get st "slackUserId" = u ->
  truthy u = true ->
  truthy (get st "currentProjectGid") = true ->
  notSnoozed st now ->
  get st "lastPromptAt" = Iso t ->
  (3600000 <= now - t)%Z ->
  "PROJECT#" ++ to_string (get st "currentProjectGid") ∉ unavailable w ->
  head (historyOf w (get st "currentProjectGid")) = Some p ->
  get (snd p) "timestamp" = Iso s ->
  (t < s)%Z ->
  get st "pendingProjects" = Arr queue ->
  get st "currentIndex" = Num i ->
  Forall is_object queue ->
  (0 <= i)%Z ->
  ((i + 1 < Z.of_nat (length queue))%Z ->
   exists next,
     queue !! Z.to_nat (i + 1) = Some next
     /\ Reminder.remind now st w
        = Ok tt
            (set_outbox
               (outbox w ++ [SendUpdateRequest u (prop next "name") (prop next "gid")])
               (set_conversations
                  (<["CONV#" ++ to_string u :=
                       Dynamo.conversationItem now u
                         (merged now u (advancePatch now st (i + 1) next) st)]>
                     (conversations w)) w)))
  /\ ((Z.of_nat (length queue) <= i + 1)%Z ->
      Reminder.remind now st w
      = Ok tt
          (set_conversations
             (<["CONV#" ++ to_string u :=
                  Dynamo.conversationItem now u {[ "cleared" := Bool true ]}]>
                (conversations w)) w)).
Proof.
  intros Hst Hu Htr Hg Hsn Ht Hold Hav Hhead Hstamp Hnewer Hq Hi Hobj Hi0.
  assert (Reminder.remind now st w
          = (SlackEvents.advanceOrClear now u st ;;; ret tt) w) as Heq.
  { rewrite (remind_due now st t w) by (rewrite ?Hu; assumption).
    cbv zeta. rewrite stamp_of_history, Hhead, Hstamp. cbn [truthy date_of andb].
    apply Z.ltb_lt in Hnewer. rewrite Hnewer, Hu. reflexivity. }
  rewrite Heq. split.
  - intros Hlt. unfold bind at 1.
    destruct (advance_moves now u w st queue i Hst Hq Hi Hobj Hi0 Hlt) as (next & Hn & ->).
    by exists next.
  - intros Hge. unfold bind at 1. by rewrite (advance_clears now u w st queue i Hq Hi Hge).
Qed.

(** The first of two stale states again, its project updated at instant
    5000, after the prompt at 0. *)
Lemma updated_elsewhere_moves_on_witness :
  let st := staleStatus "U1" "111" "Alpha" in
  let w := world_of (Dynamo.saveUpdate 5000 {[ "projectGid" := Str "111" ]}
                       (worldTwoStale ∅)) in
  let queue := [Obj {[ "gid" := Str "111"; "name" := Str "Alpha"; "pmoId" := Null;
                       "status" := Null ]}] in
  ((0 + 1 < Z.of_nat (length queue))%Z ->
   exists next,
     queue !! Z.to_nat (0 + 1) = Some next
     /\ Reminder.remind 7200000 st w
        = Ok tt
            (set_outbox
               (outbox w ++ [SendUpdateRequest (Str "U1") (prop next "name") (prop next "gid")])
               (set_conversations
                  (<["CONV#" ++ to_string (Str "U1") :=
                       Dynamo.conversationItem 7200000 (Str "U1")
                         (merged 7200000 (Str "U1") (advancePatch 7200000 st (0 + 1) next) st)]>
                     (conversations w)) w)))
  /\ ((Z.of_nat (length queue) <= 0 + 1)%Z ->
      Reminder.remind 7200000 st w
      = Ok tt
          (set_conversations
             (<["CONV#" ++ to_string (Str "U1") :=
                  Dynamo.conversationItem 7200000 (Str "U1") {[ "cleared" := Bool true ]}]>
                (conversations w)) w)).
Proof.
  intros st w queue.
  apply (updated_elsewhere_moves_on 7200000 0 5000 0 (Str "U1") st queue
           (5000%Z, snd (default (0%Z, ∅) (head (historyOf w (Str "111"))))) w).
  - split; reflexivity.
  - reflexivity.
  - reflexivity.
  - reflexivity.
  - left. reflexivity.
  - reflexivity.
  - lia.
  - vm_compute. intros H. inversion H.
  - vm_compute. reflexivity.
  - vm_compute. reflexivity.
  - lia.
  - reflexivity.
  - reflexivity.
  - repeat constructor. eexists. reflexivity.
  - lia.
Defined.

(** ** The cache refresh as a whole *)

Lemma refreshLoop_counts projects :
  forall u d s w c w',
    CacheRefresh.refreshLoop projects u d s w = Ok c w' ->
    (fst (fst c) + snd (fst c) + snd c = u + d + s + length projects)%nat.
Proof.
  induction projects as [|p rest IH]; intros u d s w c w'.
  - simpl. intros [= <- _]. simpl. lia.
  - cbn [CacheRefresh.refreshLoop]. unfold bind at 1.
    destruct (classify_pure p) as (out & Hout). rewrite Hout.
    destruct out as [v|e]; simpl; [|discriminate].
    destruct v; unfold bind; simpl; intros H; apply IH in H; simpl; lia.
Qed.

(** X13. The cache-refresh handler always answers, with a 200 or a 500,
    and never throws. In a 200 the three counters add up to the number of
    projects fetched: every project is counted exactly once, as updated,
    deleted or skipped. Whatever the answer, the handler touches nothing
    but the cache: no update, no conversation, no message. *)
Theorem refresh_counts_every_project_once (src : Asana.source) (w : world) :
  exists answer w',
    CacheRefresh.handler src w = Ok answer w'
    /\ (forall s, answer = CacheRefresh.Status200 s ->
          (CacheRefresh.updated s + CacheRefresh.deleted s + CacheRefresh.skipped s
           = CacheRefresh.totalProjects s)%nat)
    /\ updates w' = updates w
    /\ conversations w' = conversations w
    /\ outbox w' = outbox w.
Proof.
  destruct (handler_shape src) as (ws & answer & Hshape).
  exists answer, (set_cache (applyWrites ws (cache w)) w).
  split; [apply Hshape|]. split; [|repeat split].
  intros s ->. specialize (Hshape w).
  unfold CacheRefresh.handler, try_catch in Hshape.
  unfold bind at 1 in Hshape.
  destruct (Asana.getAllActiveProjectsWithResponsable src) as [l|e];
    [|simpl in Hshape; discriminate].
  cbn [ret] in Hshape. unfold bind at 1 in Hshape.
  destruct (CacheRefresh.refreshLoop l 0 0 0 w) as [c w1|e w1] eqn:Hloop;
    [|simpl in Hshape; discriminate].
  cbn [ret] in Hshape. injection Hshape as <- _. simpl.
  apply refreshLoop_counts in Hloop. lia.
Qed.

(** ** The records the project source yields *)

Lemma retryLoop_returned {A} (call : nat -> Asana.outcome A) remaining :
  forall attempt x,
    snd (Asana.retryLoop call attempt remaining) = Asana.Returned x ->
    exists k, call k = Asana.Returned x.
Proof.
  induction remaining as [|remaining IH]; intros attempt x; simpl.
  - destruct (call attempt) as [r|e] eqn:Hc; simpl; [|discriminate].
    intros [= <-]. eauto.
  - destruct (call attempt) as [r|e] eqn:Hc; simpl.
    + intros [= <-]. eauto.
    + destruct (strict_eq _ _); simpl; [apply IH|discriminate].
Qed.

Lemma page_returned src ws page data retries r :
  snd (Asana.getProjectsPageWithRetry src ws page data retries) = Asana.Returned r ->
  r = data.
Proof.
  unfold Asana.getProjectsPageWithRetry. intros H.
  apply retryLoop_returned in H as (k & Hk).
  destruct (Asana.listingError src (to_string ws) page k); congruence.
Qed.

Lemma filter_active_elem p projects :
  p ∈ List.filter (fun p => negb (truthy (prop p "archived"))) projects ->
  p ∈ projects /\ truthy (prop p "archived") = false.
Proof.
  intros H. apply list_elem_of_In, filter_In in H as [Hin Hp].
  split; [by apply list_elem_of_In|]. by apply negb_true_iff.
Qed.

Lemma listPages_elems src ws more :
  forall page data l p,
    Asana.listPages src ws page data more = Asana.Returned l ->
    p ∈ l ->
    p ∈ mjoin (data :: more) /\ truthy (prop p "archived") = false.
Proof.
  induction more as [|next more IH]; intros page data l p; cbn [Asana.listPages].
  - destruct (snd (Asana.getProjectsPageWithRetry src ws page data 3)) as [r|e] eqn:Hr;
      simpl; [|discriminate].
    apply page_returned in Hr as ->. intros [= <-] Hp.
    apply filter_active_elem in Hp as [Hin Ha]. split; [|exact Ha].
    simpl. rewrite app_nil_r. exact Hin.
  - destruct (snd (Asana.getProjectsPageWithRetry src ws page data 3)) as [r|e] eqn:Hr;
      simpl; [|discriminate].
    apply page_returned in Hr as ->.
    destruct (Asana.listPages src ws (S page) next more) as [rest|e] eqn:Hrest;
      simpl; [|discriminate].
    intros [= <-] Hp. apply elem_of_app in Hp as [Hp|Hp].
    + apply filter_active_elem in Hp as [Hin Ha]. split; [|exact Ha].
      change (mjoin (data :: next :: more)) with (data ++ mjoin (next :: more))%list.
      apply elem_of_app. by left.
    + destruct (IH _ _ _ _ Hrest Hp) as [Hin Ha]. split; [|exact Ha].
      change (mjoin (data :: next :: more)) with (data ++ mjoin (next :: more))%list.
      apply elem_of_app. by right.
Qed.

Lemma or_else_nullOrTruthy v : nullOrTruthy (or_else v Null).
Proof.
  unfold nullOrTruthy, or_else. destruct (truthy v) eqn:H; [by right|by left].
Qed.

Lemma projectWithDetail_shape src project :
  Asana.projectWithDetail src project = Null
  \/ exists o,
       Asana.projectWithDetail src project = Obj o
       /\ get o "gid" = prop project "gid"
       /\ get o "name" = prop project "name"
       /\ nullOrTruthy (get o "responsable")
       /\ nullOrTruthy (get o "status")
       /\ nullOrTruthy (get o "pmoId")
       /\ dom o = {[ "gid"; "name"; "responsable"; "status"; "pmoId" ]}.
Proof.
  unfold Asana.projectWithDetail.
  destruct (Asana.field project "gid") as [gid|e] eqn:Hgid; [|by left].
  cbn [Asana.andThen].
  destruct (snd (Asana.getProjectDetailWithRetry src gid 3)) as [detail|e]; [|by left].
  cbn [Asana.andThen].
  destruct (Asana.field detail "data") as [data|e]; [|by left].
  cbn [Asana.andThen].
  destruct (or_else (prop data "custom_fields") (Arr [])) as [| | | | | |customFields|];
    try by left.
  cbn [Asana.andThen].
  destruct (Asana.findField Asana.isStatusField customFields) as [sf|e]; [|by left].
  cbn [Asana.andThen].
  destruct (Asana.findField Asana.isResponsableField customFields) as [rf|e]; [|by left].
  cbn [Asana.andThen].
  destruct (Asana.findField Asana.isPmoIdField customFields) as [pf|e]; [|by left].
  cbn [Asana.andThen].
  destruct (Asana.field project "name") as [name|e] eqn:Hname; [|by left].
  cbn [Asana.andThen].
  right. eexists. split; [reflexivity|].
  assert (gid = prop project "gid") as ->.
  { unfold Asana.field in Hgid. destruct project; congruence. }
  assert (name = prop project "name") as ->.
  { unfold Asana.field in Hname. destruct project; congruence. }
  split; [unfold get; by lookup_simpl|].
  split; [unfold get; by lookup_simpl|].
  split; [unfold get; lookup_simpl; apply or_else_nullOrTruthy|].
  split; [unfold get; lookup_simpl; apply or_else_nullOrTruthy|].
  split; [unfold get; lookup_simpl; apply or_else_nullOrTruthy|].
  rewrite !dom_insert_L, dom_singleton_L. set_solver.
Qed.

Lemma eachWorkspace_elems src workspacesList :
  forall l p,
    Asana.eachWorkspace src workspacesList = Asana.Returned l ->
    p ∈ l ->
    exists o entry ws,
      p = Obj o
      /\ entry ∈ mjoin (Asana.pages src ws)
      /\ truthy (prop entry "archived") = false
      /\ Asana.projectWithDetail src entry = Obj o.
Proof.
  induction workspacesList as [|workspace rest IH]; intros l p; cbn [Asana.eachWorkspace].
  - intros [= <-] Hp. by apply elem_of_nil in Hp.
  - destruct (Asana.field workspace "gid") as [gid|e]; [|discriminate].
    cbn [Asana.andThen].
    set (listing := match Asana.pages src (to_string gid) with
                    | [] => Asana.listPages src gid 0 [] []
                    | data :: more => Asana.listPages src gid 0 data more
                    end).
    assert (forall projectList q,
              listing = Asana.Returned projectList -> q ∈ projectList ->
              q ∈ mjoin (Asana.pages src (to_string gid))
              /\ truthy (prop q "archived") = false) as Hlisting.
    { intros projectList q. subst listing.
      destruct (Asana.pages src (to_string gid)) as [|data more].
      - intros H Hq. destruct (listPages_elems _ _ _ _ _ _ _ H Hq) as [Hin _].
        simpl in Hin. by apply elem_of_nil in Hin.
      - apply listPages_elems. }
    destruct listing as [projectList|e]; [|discriminate]. cbn [Asana.andThen].
    destruct (Asana.eachWorkspace src rest) as [others|e] eqn:Hrest; [|discriminate].
    cbn [Asana.andThen]. intros [= <-] Hp.
    apply elem_of_app in Hp as [Hp|Hp]; [|by eapply IH].
    rewrite detailBatches_all in Hp by lia. rewrite drop_0 in Hp.
    apply list_elem_of_In, filter_In in Hp as [Hp Hnn].
    apply list_elem_of_In, list_elem_of_fmap in Hp as (entry & -> & Hentry).
    destruct (Hlisting projectList entry eq_refl Hentry) as [Hin Ha].
    destruct (projectWithDetail_shape src entry) as [Hnull|(o & Ho & _)].
    + rewrite Hnull in Hnn. discriminate.
    + exists o, entry, (to_string gid). by rewrite Ho.
Qed.

(** X14. Every record [getAllActiveProjectsWithResponsable] returns is
    an object with exactly the five fields gid, name, responsable, status
    and pmoId; its gid and name are those of an entry of some workspace
    listing that is not archived (an archived project is never returned),
    and each of the three attributes read off the custom fields is [null]
    or a truthy value, never an empty text. *)
Theorem fetched_projects_are_listed_and_active (src : Asana.source) :
  forall allProjects,
    Asana.getAllActiveProjectsWithResponsable src = Asana.Returned allProjects ->
    Forall
      (fun project =>
         exists o,
           project = Obj o
           /\ dom o = {[ "gid"; "name"; "responsable"; "status"; "pmoId" ]}
           /\ listedActive src project
           /\ nullOrTruthy (prop project "responsable")
           /\ nullOrTruthy (prop project "status")
           /\ nullOrTruthy (prop project "pmoId"))
      allProjects.
Proof.
  intros allProjects. unfold Asana.getAllActiveProjectsWithResponsable.
  destruct (Asana.getWorkspaces src) as [workspacesList|e]; [|discriminate].
  cbn [Asana.andThen]. intros Hall. apply Forall_forall. intros p Hp.
  destruct (eachWorkspace_elems _ _ _ _ Hall Hp) as (o & entry & ws & -> & Hin & Ha & Ho).
  destruct (projectWithDetail_shape src entry)
    as [Hnull|(o' & Ho' & Hgid & Hname & Hr & Hs & Hi & Hdom)]; [congruence|].
  assert (o' = o) as -> by congruence.
  exists o. split; [reflexivity|]. split; [exact Hdom|].
  split; [by exists ws, entry|]. by repeat split.
Qed.

Lemma fetched_projects_are_listed_and_active_witness :
  Forall
    (fun project =>
       exists o,
         project = Obj o
         /\ dom o = {[ "gid"; "name"; "responsable"; "status"; "pmoId" ]}
         /\ listedActive sampleSource project
         /\ nullOrTruthy (prop project "responsable")
         /\ nullOrTruthy (prop project "status")
         /\ nullOrTruthy (prop project "pmoId"))
    sampleProjects.
Proof.
  apply (fetched_projects_are_listed_and_active sampleSource sampleProjects).
  vm_compute. reflexivity.
Defined.

(** ** The order of the queue among equal ordinals *)

Lemma numberEqb_eq a b : numberEqb a b = true -> a = b.
Proof.
  destruct a, b; simpl; try discriminate; try reflexivity.
  intros H. apply Z.eqb_eq in H. by subst.
Qed.

Lemma ordinalLeb_refl p : ordinalLeb (ordinalOf p) (ordinalOf p) = true.
Proof.
  unfold ordinalOf.
  destruct (ordinal_shape (prop p "pmoId")) as [[z ->]| ->]; simpl;
    [apply Z.leb_refl|reflexivity].
Qed.

Lemma insertSorted_withOrdinal n x l :
  withOrdinal n (ScheduledPulse.insertSorted ScheduledPulse.compareFn x l)
  = withOrdinal n (x :: l).
Proof.
  unfold withOrdinal. induction l as [|y rest IH]; [reflexivity|].
  cbn [ScheduledPulse.insertSorted].
  destruct (ScheduledPulse.positive (ScheduledPulse.compareFn x y)) eqn:Hpos;
    [|reflexivity].
  rewrite positive_compare in Hpos. apply negb_true_iff in Hpos.
  cbn [List.filter]. rewrite IH. cbn [List.filter].
  destruct (numberEqb (ordinalOf y) n) eqn:Hy; [|reflexivity].
  destruct (numberEqb (ordinalOf x) n) eqn:Hx; [|reflexivity].
  apply numberEqb_eq in Hx, Hy. rewrite Hx, <- Hy, ordinalLeb_refl in Hpos.
  discriminate.
Qed.

(** X15. The sort of the pulse is stable: among the projects that share
    an ordinal the order of the cache is kept. In particular the projects
    without a parseable business ID, which all sort last, stay in the
    order the cache gave them. *)
Theorem pulse_sort_is_stable (n : ScheduledPulse.number) (projects : list val) :
  withOrdinal n (ScheduledPulse.sort ScheduledPulse.compareFn projects)
  = withOrdinal n projects.
Proof.
  induction projects as [|x rest IH]; [reflexivity|].
  cbn [ScheduledPulse.sort]. rewrite insertSorted_withOrdinal.
  unfold withOrdinal in *. cbn [List.filter]. by rewrite IH.
Qed.

(** ** The analysis of a project's history *)

Lemma statusesOf_eq l w :
  RiskAnalysis.statusesOf l w
  = match statusList l with
    | Some statuses => Ok statuses w
    | None => Throw (Str "TypeError") w
    end.
Proof.
  induction l as [|u rest IH]; [reflexivity|].
  cbn [RiskAnalysis.statusesOf statusList]. unfold bind at 1.
  destruct u; cbn [member throw ret]; try reflexivity;
    unfold bind; rewrite IH; destruct (statusList rest); reflexivity.
Qed.

Lemma member_eq v k w :
  member v k w = if nullish v then Throw (Str "TypeError") w else Ok (prop v k) w.
Proof. destruct v; reflexivity. Qed.

Lemma analyze_eq projectGid (getLastUpdates : val -> nat -> M (list val)) w :
  RiskAnalysis.analyzeProjectRisk projectGid getLastUpdates w
  = match getLastUpdates projectGid 3%nat w with
    | Ok updates w1 => Ok (analysisOf updates) w1
    | Throw _ w1 => Ok failedAnalysis w1
    end.
Proof.
  unfold RiskAnalysis.analyzeProjectRisk, try_catch. unfold bind at 1.
  destruct (getLastUpdates projectGid 3%nat w) as [updates w1|e w1]; [|reflexivity].
  destruct updates as [|latestUpdate previousUpdates]; [reflexivity|].
  cbn [analysisOf]. unfold bind at 1. rewrite member_eq.
  destruct (nullish latestUpdate) eqn:Hnull; [reflexivity|].
  unfold bind at 1. rewrite member_eq, Hnull.
  destruct previousUpdates as [|previous older].
  { cbn [length Nat.ltb Nat.leb statusList]. unfold bind at 1. cbn [ret].
    unfold bind at 1. rewrite member_eq, Hnull. cbn [ret].
    unfold levelOf, alertsOf.
    destruct (is_str "off_track" (prop latestUpdate "status"));
      [|destruct (is_str "at_risk" (prop latestUpdate "status"))];
      destruct (truthy (prop latestUpdate "hasBlockers")); reflexivity. }
  change (0 <? length (previous :: older))%nat with true. cbv iota.
  unfold bind at 1. unfold bind at 1. rewrite statusesOf_eq.
  destruct (statusList (previous :: older)) as [earlier|]; [|reflexivity].
  unfold trendAlert.
  destruct (RiskAnalysis.riskProgression (prop latestUpdate "status" :: earlier)
            && match RiskAnalysis.getRiskScore (prop latestUpdate "status") with
               | Some score => (0 <? score)%Z
               | None => false
               end);
    cbn [ret]; unfold bind at 1; rewrite member_eq, Hnull; cbn [ret];
    unfold levelOf, alertsOf;
    (destruct (is_str "off_track" (prop latestUpdate "status"));
      [|destruct (is_str "at_risk" (prop latestUpdate "status"))];
      destruct (truthy (prop latestUpdate "hasBlockers")); reflexivity).
Qed.

Lemma levelOf_cases status hasBlockers :
  levelOf status hasBlockers = "high" \/ levelOf status hasBlockers = "medium"
  \/ levelOf status hasBlockers = "low".
Proof.
  unfold levelOf. destruct (is_str "off_track" status); [by left|].
  destruct (is_str "at_risk" status); [right; by left|].
  destruct (truthy hasBlockers); [right; by left|right; by right].
Qed.

(** X16. [analyzeProjectRisk] never throws, whatever the store does: a
    failed query, or a history it cannot read, gives the level error, an
    empty history the level unknown, and otherwise the level is high,
    medium or low. The analysis changes nothing beyond what the query
    itself did. At the levels error and unknown the result carries no
    [shouldAlert] field, and at no level does it carry the project's
    identifier. *)
Theorem analysis_never_throws
    (projectGid : val) (getLastUpdates : val -> nat -> M (list val)) (w : world) :
  exists analysis,
    RiskAnalysis.analyzeProjectRisk projectGid getLastUpdates w
    = Ok analysis (world_of (getLastUpdates projectGid 3%nat w))
    /\ get analysis "riskLevel" ∈ riskLevels
    /\ get analysis "projectGid" = Undefined
    /\ (forall e w1, getLastUpdates projectGid 3%nat w = Throw e w1 ->
          get analysis "riskLevel" = Str "error")
    /\ (forall w1, getLastUpdates projectGid 3%nat w = Ok [] w1 ->
          get analysis "riskLevel" = Str "unknown")
    /\ (get analysis "riskLevel" = Str "error" \/ get analysis "riskLevel" = Str "unknown" ->
        get analysis "shouldAlert" = Undefined).
Proof.
  rewrite analyze_eq.
  destruct (getLastUpdates projectGid 3%nat w) as [updates w1|e w1]; cbn [world_of].
  2:{ eexists. split; [reflexivity|]. unfold riskLevels.
      repeat split; try reflexivity; try discriminate.
      vm_compute. repeat constructor. }
  eexists. split; [reflexivity|].
  destruct updates as [|latestUpdate previousUpdates].
  { unfold riskLevels. repeat split; try reflexivity; try discriminate.
    vm_compute. repeat constructor. }
  cbn [analysisOf].
  destruct (nullish latestUpdate);
    [|destruct (statusList previousUpdates) as [earlier|]].
  1,3: unfold riskLevels; repeat split; try reflexivity; try discriminate;
       vm_compute; repeat constructor.
  split.
  { unfold get. lookup_simpl. cbn [default from_option id]. unfold riskLevels.
    destruct (levelOf_cases (prop latestUpdate "status") (prop latestUpdate "hasBlockers"))
      as [-> | [-> | ->]]; repeat constructor. }
  split; [unfold get; by lookup_simpl|].
  split; [discriminate|]. split; [discriminate|].
  unfold get at 1 2. lookup_simpl. cbn [default from_option id].
  destruct (levelOf_cases (prop latestUpdate "status") (prop latestUpdate "hasBlockers"))
    as [-> | [-> | ->]]; intros [H|H]; discriminate.
Qed.

Lemma statusList_items (l : list (Z * obj)) :
  statusList ((fun p => Obj (snd p)) <$> l) = Some ((fun p => get (snd p) "status") <$> l).
Proof.
  induction l as [|p rest IH]; [reflexivity|].
  rewrite !fmap_cons. cbn [statusList]. by rewrite IH.
Qed.

Lemma getLastUpdates_history g n w :
  "PROJECT#" ++ to_string g ∉ unavailable w ->
  Dynamo.getLastUpdates g n w = Ok (take n ((fun p => Obj (snd p)) <$> historyOf w g)) w.
Proof.
  intros Hav. unfold Dynamo.getLastUpdates.
  destruct (decide _) as [Hin|_]; [by destruct (Hav Hin)|]. reflexivity.
Qed.

Lemma analysis_of_history projectGid w t item older :
  historyOf w projectGid = (t, item) :: older ->
  "PROJECT#" ++ to_string projectGid ∉ unavailable w ->
  let status := get item "status" in
  let hasBlockers := get item "hasBlockers" in
  let previousUpdates := (fun p => Obj (snd p)) <$> take 2 older in
  let alertResult :=
    RiskDetector.shouldAlert {[ "status" := status; "hasBlockers" := hasBlockers ]}
      previousUpdates in
  RiskAnalysis.analyzeProjectRisk projectGid Dynamo.getLastUpdates w
  = Ok {[ "riskLevel" := Str (levelOf status hasBlockers);
          "reason" := RiskDetector.reason alertResult;
          "alerts" :=
            Arr (alertsOf status hasBlockers
                   ++ match previousUpdates with
                      | [] => []
                      | _ :: _ =>
                          trendAlert status ((fun p => get (snd p) "status") <$> take 2 older)
                      end)%list;
          "shouldAlert" := Bool (RiskDetector.shouldAlert_flag alertResult);
          "latestStatus" := status;
          "hasBlockers" := hasBlockers;
          "lastUpdateAt" := get item "timestamp" ]} w.
Proof.
  intros Hh Hav. cbv zeta. rewrite analyze_eq, (getLastUpdates_history _ _ _ Hav), Hh.
  cbn [fmap list_fmap take snd analysisOf nullish prop].
  rewrite <- fmap_take. change (list_fmap _ _ ?f ?l) with (f <$> l).
  rewrite statusList_items. reflexivity.
Qed.

Lemma at_risk_after_other_no_alert (status hasBlockers : val) previousUpdates :
  status = Str "at_risk" ->
  truthy hasBlockers = false ->
  (forall u, head previousUpdates = Some u -> prop u "status" <> Str "at_risk") ->
  RiskDetector.shouldAlert_flag
    (RiskDetector.shouldAlert {[ "status" := status; "hasBlockers" := hasBlockers ]}
       previousUpdates) = false.
Proof.
  intros -> Hb Hold. unfold RiskDetector.shouldAlert.
  assert (get ({[ "status" := Str "at_risk"; "hasBlockers" := hasBlockers ]} : obj) "status"
          = Str "at_risk") as -> by (unfold get; by lookup_simpl).
  assert (get ({[ "status" := Str "at_risk"; "hasBlockers" := hasBlockers ]} : obj)
            "hasBlockers" = hasBlockers) as -> by (unfold get; by lookup_simpl).
  rewrite Hb. cbn [is_str String.eqb Ascii.eqb Bool.eqb andb].
  destruct previousUpdates as [|u rest]; [reflexivity|].
  specialize (Hold u eq_refl). apply is_str_false in Hold.
  cbn [length Nat.ltb Nat.leb nth]. rewrite Hold, andb_false_r. reflexivity.
Qed.

(** X17. Over the stored history of a project the analysis sets the
    latest update against the ones before it: the latest is the current
    report and only the older ones are prior reports, so that a single
    at_risk update without blockers, alone or after an update that was not
    at_risk, raises no alert. The level is high exactly for off_track and
    low exactly when the status is neither off_track nor at_risk and no
    blocker is flagged. *)
Theorem analysis_sets_latest_against_older
    (projectGid : val) (t : Z) (item : obj) (older : list (Z * obj)) (w : world) :
  historyOf w projectGid = (t, item) :: older ->
  "PROJECT#" ++ to_string projectGid ∉ unavailable w ->
  exists analysis,
    RiskAnalysis.analyzeProjectRisk projectGid Dynamo.getLastUpdates w = Ok analysis w
    /\ get analysis "latestStatus" = get item "status"
    /\ get analysis "hasBlockers" = get item "hasBlockers"
    /\ get analysis "lastUpdateAt" = get item "timestamp"
    /\ get analysis "shouldAlert"
       = Bool (RiskDetector.shouldAlert_flag
                 (RiskDetector.shouldAlert
                    {[ "status" := get item "status";
                       "hasBlockers" := get item "hasBlockers" ]}
                    ((fun p => Obj (snd p)) <$> take 2 older)))
    /\ (get item "status" = Str "at_risk" ->
        truthy (get item "hasBlockers") = false ->
        (forall p, head older = Some p -> get (snd p) "status" <> Str "at_risk") ->
        get analysis "shouldAlert" = Bool false)
    /\ (get analysis "riskLevel" = Str "high" <-> get item "status" = Str "off_track")
    /\ (get analysis "riskLevel" = Str "low"
        <-> get item "status" <> Str "off_track" /\ get item "status" <> Str "at_risk"
            /\ truthy (get item "hasBlockers") = false).
Proof.
  intros Hh Hav. eexists. split; [exact (analysis_of_history _ _ _ _ _ Hh Hav)|].
  unfold get at 1. lookup_simpl. split; [reflexivity|].
  unfold get at 1. lookup_simpl. split; [reflexivity|].
  unfold get at 1. lookup_simpl. split; [reflexivity|].
  unfold get at 1. lookup_simpl. split; [reflexivity|].
  split.
  { intros Hs Hb Hold. unfold get at 1. lookup_simpl. cbn [default from_option id]. f_equal.
    apply at_risk_after_other_no_alert; [exact Hs|exact Hb|].
    intros u Hu. destruct older as [|p rest]; [discriminate|].
    injection Hu as <-. exact (Hold p eq_refl). }
  rewrite !get_insert_eq. unfold levelOf.
  destruct (is_str_cases "off_track" (get item "status")) as [Hoff|Hoff].
  { rewrite Hoff. cbn [is_str String.eqb Ascii.eqb Bool.eqb].
    split; [tauto|]. split; [discriminate|]. intros (H & _). congruence. }
  rewrite Hoff. apply is_str_false in Hoff.
  destruct (is_str_cases "at_risk" (get item "status")) as [Hrisk|Hrisk].
  { rewrite Hrisk. cbn [is_str String.eqb Ascii.eqb Bool.eqb].
    split; [split; [discriminate|congruence]|].
    split; [discriminate|]. intros (_ & H & _). congruence. }
  rewrite Hrisk. apply is_str_false in Hrisk.
  destruct (truthy (get item "hasBlockers")).
  - split; [split; [discriminate|congruence]|].
    split; [discriminate|]. intros (_ & _ & H). discriminate.
  - split; [split; [discriminate|congruence]|]. tauto.
Qed.

Lemma analysis_sets_latest_against_older_witness :
  let item := snd (default (0%Z, ∅) (head (historyOf worldImproving (Str "111")))) in
  let older := tail (historyOf worldImproving (Str "111")) in
  exists analysis,
    RiskAnalysis.analyzeProjectRisk (Str "111") Dynamo.getLastUpdates worldImproving
    = Ok analysis worldImproving
    /\ get analysis "latestStatus" = get item "status"
    /\ get analysis "hasBlockers" = get item "hasBlockers"
    /\ get analysis "lastUpdateAt" = get item "timestamp"
    /\ get analysis "shouldAlert"
       = Bool (RiskDetector.shouldAlert_flag
                 (RiskDetector.shouldAlert
                    {[ "status" := get item "status";
                       "hasBlockers" := get item "hasBlockers" ]}
                    ((fun p => Obj (snd p)) <$> take 2 older)))
    /\ (get item "status" = Str "at_risk" ->
        truthy (get item "hasBlockers") = false ->
        (forall p, head older = Some p -> get (snd p) "status" <> Str "at_risk") ->
        get analysis "shouldAlert" = Bool false)
    /\ (get analysis "riskLevel" = Str "high" <-> get item "status" = Str "off_track")
    /\ (get analysis "riskLevel" = Str "low"
        <-> get item "status" <> Str "off_track" /\ get item "status" <> Str "at_risk"
            /\ truthy (get item "hasBlockers") = false).
Proof.
  intros item older.
  apply (analysis_sets_latest_against_older (Str "111") 2000 item older worldImproving).
  - vm_compute. reflexivity.
  - vm_compute. intros H. inversion H.
Defined.

Lemma olderScoreNoLess_cons a b l :
  olderScoreNoLess (a :: b :: l) <-> (scoreOf a <= scoreOf b)%Z /\ olderScoreNoLess (b :: l).
Proof.
  unfold olderScoreNoLess. split.
  - intros H. split; [exact (H 0%nat a b eq_refl eq_refl)|].
    intros i x y Hx Hy. exact (H (S i) x y Hx Hy).
  - intros [Hab H] i x y Hx Hy. destruct i as [|i].
    + simpl in Hx, Hy. injection Hx as <-. injection Hy as <-. exact Hab.
    + exact (H i x y Hx Hy).
Qed.

Lemma everyNotBelow_spec l :
  forall prev,
    scored (prev :: l) ->
    RiskAnalysis.everyNotBelow prev l = true <-> olderScoreNoLess (prev :: l).
Proof.
  induction l as [|s rest IH]; intros prev Hsc.
  - simpl. split; [|reflexivity]. intros _ i a b _ Hb. destruct i; discriminate.
  - cbn [RiskAnalysis.everyNotBelow]. rewrite olderScoreNoLess_cons.
    apply Forall_cons in Hsc as [[x Hx] Hsc].
    pose proof Hsc as Hsc'. apply Forall_cons in Hsc' as [[y Hy] _].
    rewrite andb_true_iff, (IH s Hsc).
    unfold scoreOf. rewrite Hx, Hy. simpl. rewrite Z.leb_le. reflexivity.
Qed.

Lemma trend_not_in_alertsOf status hasBlockers : trendText ∉ alertsOf status hasBlockers.
Proof.
  unfold alertsOf, trendText. intros H.
  apply elem_of_app in H as [H|H].
  - destruct (is_str "off_track" status); [|destruct (is_str "at_risk" status)];
      [apply list_elem_of_singleton in H; discriminate
      |apply list_elem_of_singleton in H; discriminate
      |by apply elem_of_nil in H].
  - destruct (truthy hasBlockers);
      [apply list_elem_of_singleton in H; discriminate|by apply elem_of_nil in H].
Qed.

(** X18. The alert "Tendencia de riesgo creciente" is raised exactly
    when there is an older update, the latest status scores above zero and,
    going from the newest update back to the oldest of the three read, the
    score never goes down. The comparison runs over the list newest first:
    the alert is raised for a project that went from off_track to at_risk
    and not for one that went from on_track to off_track. *)
Theorem trend_alert_compares_newest_first
    (projectGid : val) (t : Z) (item : obj) (older : list (Z * obj)) (w : world) :
  let statuses := get item "status" :: ((fun p => get (snd p) "status") <$> take 2 older) in
  historyOf w projectGid = (t, item) :: older ->
  "PROJECT#" ++ to_string projectGid ∉ unavailable w ->
  scored statuses ->
  (trendText ∈ alertsFor w projectGid
   <-> older <> [] /\ (0 < scoreOf (get item "status"))%Z /\ olderScoreNoLess statuses)
  /\ alertsFor worldImproving (Str "111") = [Str "Estado At Risk"; trendText]
  /\ alertsFor worldWorsening (Str "111") = [Str "Estado Off Track"].
Proof.
  cbv zeta. intros Hh Hav Hsc.
  split; [|split; vm_compute; reflexivity].
  unfold alertsFor. rewrite (analysis_of_history _ _ _ _ _ Hh Hav). cbv zeta.
  unfold alertsIn. rewrite get_insert_ne by discriminate.
  rewrite get_insert_ne by discriminate. rewrite get_insert_eq.
  rewrite elem_of_app.
  destruct older as [|p rest].
  { cbn [take fmap list_fmap]. split.
    - intros [H|H]; [by destruct (trend_not_in_alertsOf _ _ H)|by apply elem_of_nil in H].
    - intros [H _]. by destruct H. }
  change ((fun p0 : Z * obj => Obj (snd p0)) <$> take 2 (p :: rest))
    with (Obj (snd p) :: ((fun p0 : Z * obj => Obj (snd p0)) <$> take 1 rest)).
  cbv iota. unfold trendAlert.
  unfold RiskAnalysis.riskProgression.
  pose proof (everyNotBelow_spec _ _ Hsc) as Hspec.
  apply Forall_cons in Hsc as [[x Hx] _].
  unfold scoreOf at 1. rewrite Hx. cbn [default from_option id].
  split.
  - intros [H|H]; [by destruct (trend_not_in_alertsOf _ _ H)|].
    destruct (RiskAnalysis.everyNotBelow _ _) eqn:He; [|by apply elem_of_nil in H].
    destruct (0 <? x)%Z eqn:Hpos; [|by apply elem_of_nil in H].
    split; [discriminate|]. split; [by apply Z.ltb_lt|]. by apply Hspec.
  - intros (_ & Hpos & Hord). right.
    apply Hspec in Hord. rewrite Hord. apply Z.ltb_lt in Hpos. rewrite Hpos.
    by left.
Qed.

Lemma trend_alert_compares_newest_first_witness :
  let item := snd (default (0%Z, ∅) (head (historyOf worldImproving (Str "111")))) in
  let older := tail (historyOf worldImproving (Str "111")) in
  let statuses := get item "status" :: ((fun p => get (snd p) "status") <$> take 2 older) in
  (trendText ∈ alertsFor worldImproving (Str "111")
   <-> older <> [] /\ (0 < scoreOf (get item "status"))%Z /\ olderScoreNoLess statuses)
  /\ alertsFor worldImproving (Str "111") = [Str "Estado At Risk"; trendText]
  /\ alertsFor worldWorsening (Str "111") = [Str "Estado Off Track"].
Proof.
  intros item older statuses.
  apply (trend_alert_compares_newest_first (Str "111") 2000 item older worldImproving).
  - vm_compute. reflexivity.
  - vm_compute. intros H. inversion H.
  - repeat constructor; vm_compute; eauto.
Defined.

(** ** The summary of a list of analyses *)

Lemma countUp_levels (s : RiskAnalysis.summary) (level : val) counts :
  level ∈ riskLevels ->
  let count k := default 0%Z (counts !! k) in
  let count' k := default 0%Z (RiskAnalysis.countUp counts level !! k) in
  (count' "high" + count' "medium" + count' "low" + count' "unknown" + count' "error"
   = count "high" + count "medium" + count "low" + count "unknown" + count "error" + 1)%Z.
Proof.
  intros Hl. cbv zeta. unfold riskLevels in Hl. unfold RiskAnalysis.countUp.
  repeat (apply elem_of_cons in Hl as [->|Hl]);
    [..|by apply elem_of_nil in Hl];
    cbn [to_string]; lookup_simpl; cbn [default from_option id]; lia.
Qed.

Lemma summarize_spec projects :
  forall s w,
    Forall analysed projects ->
    exists s',
      RiskAnalysis.summarize projects s w = Ok s' w
      /\ RiskAnalysis.total s' = RiskAnalysis.total s
      /\ (countedLevels s' = countedLevels s + Z.of_nat (length projects))%Z
      /\ RiskAnalysis.needingAlert s'
         = (RiskAnalysis.needingAlert s
              ++ (alertEntry <$> List.filter (fun p => truthy (prop p "shouldAlert")) projects))%list
      /\ (RiskAnalysis.withBlockers s'
          = RiskAnalysis.withBlockers s
            + Z.of_nat (length (List.filter (fun p => truthy (prop p "hasBlockers")) projects)))%Z.
Proof.
  induction projects as [|p rest IH]; intros s w Hall.
  - exists s. simpl. rewrite app_nil_r. repeat split; lia.
  - apply Forall_cons in Hall as [[Hnn Hlevel] Hall].
    cbn [RiskAnalysis.summarize]. unfold bind.
    repeat (rewrite member_eq, Hnn; cbv beta iota).
    match goal with
    | |- context [RiskAnalysis.summarize rest ?s1 w] =>
        destruct (IH s1 w Hall) as (s' & -> & Htot & Hcount & Hneed & Hblock)
    end.
    exists s'. split; [reflexivity|]. split; [exact Htot|].
    split.
    { rewrite Hcount. unfold countedLevels, levelCount. cbn [RiskAnalysis.byRiskLevel].
      pose proof (countUp_levels s (prop p "riskLevel") (RiskAnalysis.byRiskLevel s) Hlevel)
        as Hc.
      cbv zeta in Hc. rewrite Hc. cbn [length]. lia. }
    split.
    { rewrite Hneed. cbn [RiskAnalysis.needingAlert List.filter].
      destruct (truthy (prop p "shouldAlert")); [|reflexivity].
      rewrite fmap_cons, <- app_assoc. reflexivity. }
    rewrite Hblock. cbn [RiskAnalysis.withBlockers List.filter].
    destruct (truthy (prop p "hasBlockers")); cbn [length]; lia.
Qed.

(** X19. Over analyses as [analyzeProjectRisk] returns them,
    [generateRiskSummary] counts every analysis at exactly one level: the
    counts of the five levels add up to [total], the number of analyses,
    the level error being a key of its own that the summary starts without.
    [needingAlert] lists, in order, the analyses whose [shouldAlert] is
    truthy, each with the [projectGid] field of the analysis (a field
    [analyzeProjectRisk] itself does not set) and its reason;
    [withBlockers] counts the analyses with a truthy blocker flag. *)
Theorem summary_counts_every_analysis (projects : list val) (w : world) :
  Forall analysed projects ->
  exists s,
    RiskAnalysis.generateRiskSummary projects w = Ok s w
    /\ RiskAnalysis.total s = length projects
    /\ countedLevels s = Z.of_nat (length projects)
    /\ RiskAnalysis.needingAlert s
       = alertEntry <$> List.filter (fun p => truthy (prop p "shouldAlert")) projects
    /\ RiskAnalysis.withBlockers s
       = Z.of_nat (length (List.filter (fun p => truthy (prop p "hasBlockers")) projects)).
Proof.
  intros Hall. unfold RiskAnalysis.generateRiskSummary.
  match goal with
  | |- context [RiskAnalysis.summarize projects ?s0 w] =>
      destruct (summarize_spec projects s0 w Hall) as (s & -> & Htot & Hcount & Hneed & Hblock)
  end.
  exists s. split; [reflexivity|]. split; [exact Htot|].
  split; [rewrite Hcount; vm_compute (countedLevels _); lia|].
  split; [exact Hneed|]. rewrite Hblock. simpl. lia.
Qed.

Lemma summary_counts_every_analysis_witness :
  let projects :=
    [ Obj (analysisOf []);
      Obj failedAnalysis;
      Obj (analysisOf [Obj {[ "status" := Str "off_track"; "hasBlockers" := Bool true ]}]) ] in
  exists s,
    RiskAnalysis.generateRiskSummary projects emptyWorld = Ok s emptyWorld
    /\ RiskAnalysis.total s = length projects
    /\ countedLevels s = Z.of_nat (length projects)
    /\ RiskAnalysis.needingAlert s
       = alertEntry <$> List.filter (fun p => truthy (prop p "shouldAlert")) projects
    /\ RiskAnalysis.withBlockers s
       = Z.of_nat (length (List.filter (fun p => truthy (prop p "hasBlockers")) projects)).
Proof.
  intros projects.
  apply (summary_counts_every_analysis projects emptyWorld).
  repeat constructor; vm_compute; repeat constructor.
Defined.
